(** * Avito listing scraper: a shallow embedding of the acquisition and
      detail-enrichment pipeline

    The development follows the three Avito scripts of the repository:

    - [scraping_select_pages/avito_initial.py]  (discovery over a page range),
    - [scraping_select_pages/avito_main.py]     (detail enrichment from a CSV),
    - [scraping_last_page/avito_scraper.py]     (both phases, page 1 only).

    Python values are modelled as the code has them: a [str] is its sequence
    of Unicode code points, an [int] is a [Z], a list is a [list], a function
    that may raise returns an [outcome].  The browser, the network and the
    clock are oracles read by the code; the file system is threaded as state.
    A page is what the browser shows during one visit.  Delays
    ([time.sleep]) and console output ([print]) are not part of the model.
    The interpreter is CPython 3.11 with its defaults on a glibc system:
    [int] converts a numeral of at most 4300 digits, and [strftime] writes
    a year below 1000 without padding. *)

From Stdlib Require Import ZArith NArith List Bool Ascii String Lia.
From Stdlib Require Import DecimalN DecimalPos.
From stdpp Require Import base option list gmap.

Set Default Proof Using "Type".
Local Open Scope N_scope.

(** ** Python strings *)

(** A [str] is a sequence of code points. *)
Definition str : Type := list N.

(** An ASCII literal of the source, as a [str]. *)
Definition py (s : string) : str :=
  List.map N_of_ascii (list_ascii_of_string s).

Arguments py : simpl never.

(** Code points of the accented letters the source's literals use. *)
Definition E_acute_cap : N := 201.  (* É *)
Definition e_acute : N := 233.      (* é *)
Definition e_grave : N := 232.      (* è *)

Fixpoint str_eqb (a b : str) : bool :=
  match a, b with
  | [], [] => true
  | x :: a', y :: b' => (x =? y) && str_eqb a' b'
  | _, _ => false
  end.

(** [s.startswith(p)] *)
Fixpoint startswith (p s : str) : bool :=
  match p, s with
  | [], _ => true
  | _ :: _, [] => false
  | x :: p', y :: s' => (x =? y) && startswith p' s'
  end.

(** [needle in hay] on strings: substring containment. *)
Fixpoint str_in (needle hay : str) : bool :=
  startswith needle hay ||
  match hay with
  | [] => false
  | _ :: hay' => str_in needle hay'
  end.

(** [Py_UNICODE_ISSPACE]: what [str.strip()] removes and what [\s] matches. *)
Definition is_space (c : N) : bool :=
  ((9 <=? c) && (c <=? 13)) || ((28 <=? c) && (c <=? 32)) ||
  (c =? 133) || (c =? 160) || (c =? 5760) ||
  ((8192 <=? c) && (c <=? 8202)) ||
  (c =? 8232) || (c =? 8233) || (c =? 8239) || (c =? 8287) || (c =? 12288).

Fixpoint lstrip (s : str) : str :=
  match s with
  | [] => []
  | c :: s' => if is_space c then lstrip s' else s
  end.

Definition rstrip (s : str) : str := rev (lstrip (rev s)).

(** [s.strip()] *)
Definition strip (s : str) : str := rstrip (lstrip s).

(** Truthiness of a string: the empty string is false. *)
Definition truthy (s : str) : bool :=
  match s with [] => false | _ :: _ => true end.

(** The part of the Unicode character database the standard library reads
    for code points outside ASCII; the ASCII part is written out below. *)
Record UCD : Type := {
  ucd_alnum : N -> bool;           (* [str.isalnum] of one code point *)
  ucd_decimal : N -> option N;     (* value of a decimal digit (category Nd) *)
  ucd_lower : str -> str           (* [str.lower] *)
}.

Definition is_ascii_digit (c : N) : bool := (48 <=? c) && (c <=? 57).
Definition is_ascii_alpha (c : N) : bool :=
  ((65 <=? c) && (c <=? 90)) || ((97 <=? c) && (c <=? 122)).

(** A database that knows ASCII only; used to run the model on examples. *)
Definition ascii_lower_char (c : N) : N :=
  if (65 <=? c) && (c <=? 90) then c + 32 else c.

Definition ascii_ucd : UCD := {|
  ucd_alnum := fun _ => false;
  ucd_decimal := fun _ => None;
  ucd_lower := List.map ascii_lower_char
|}.

(** ** Exceptions *)

Inductive exn : Type :=
| NoSuchElementException
| StaleElementReferenceException
| TimeoutException
| WebDriverException
| OverflowError
| IndexError
| OSError
| ConnectionError
| HTTPError
| TypeError
| NameError
| ValueError.

Inductive outcome (A : Type) : Type :=
| Return (a : A)
| Raise (e : exn).
Arguments Return {A} a.
Arguments Raise {A} e.

(** Sequencing: the first exception raised ends the block.  The instances
    give [x ← c; k] for [outcome]. *)
#[global] Instance outcome_bind : MBind outcome := fun A B k c =>
  match c with
  | Return a => k a
  | Raise e => Raise e
  end.
#[global] Instance outcome_ret : MRet outcome := fun A a => Return a.
#[global] Instance outcome_fmap : FMap outcome := fun A B f c =>
  match c with
  | Return a => Return (f a)
  | Raise e => Raise e
  end.

(** ** Decimal rendering of an [int]: [str(i)], [f"{i}"] *)

Fixpoint uint_chars (d : Decimal.uint) : str :=
  match d with
  | Decimal.Nil => []
  | Decimal.D0 d => 48 :: uint_chars d
  | Decimal.D1 d => 49 :: uint_chars d
  | Decimal.D2 d => 50 :: uint_chars d
  | Decimal.D3 d => 51 :: uint_chars d
  | Decimal.D4 d => 52 :: uint_chars d
  | Decimal.D5 d => 53 :: uint_chars d
  | Decimal.D6 d => 54 :: uint_chars d
  | Decimal.D7 d => 55 :: uint_chars d
  | Decimal.D8 d => 56 :: uint_chars d
  | Decimal.D9 d => 57 :: uint_chars d
  end.

Definition str_of_int (z : Z) : str :=
  match z with
  | Z0 => [48]
  | Zpos p => uint_chars (Pos.to_uint p)
  | Zneg p => 45 :: uint_chars (Pos.to_uint p)
  end.

(** ** [create_folder_name] (avito_initial.py 98-108, avito_scraper.py 120-130) *)

Section FolderName.
Variable U : UCD.

(** [\w] of a Unicode pattern: alphanumeric or underscore. *)
Definition is_word (c : N) : bool :=
  if c <? 128 then is_ascii_digit c || is_ascii_alpha c || (c =? 95)
  else ucd_alnum U c.

(** [re.sub(r'[^\w\s-]', '', title)] *)
Definition strip_special (title : str) : str :=
  List.filter (fun c => is_word c || is_space c || (c =? 45)) title.

(** [re.sub(r'\s+', '_', s)]: every maximal run of white space becomes one
    underscore.  [in_run] tells that the previous character was white
    space. *)
Fixpoint collapse_spaces (in_run : bool) (s : str) : str :=
  match s with
  | [] => []
  | c :: s' =>
      if is_space c
      then (if in_run then collapse_spaces true s'
            else 95 :: collapse_spaces true s')
      else c :: collapse_spaces false s'
  end.

Definition create_folder_name (title : str) (idx : Z) : str :=
  let folder_name := strip_special title in
  let folder_name := collapse_spaces false folder_name in
  let folder_name := take 50 folder_name in
  str_of_int idx ++ 95 :: folder_name.
End FolderName.


(** ** [datetime] and [timedelta] of the standard library *)

Local Open Scope Z_scope.

(** A naive [datetime] is a point on the proleptic Gregorian time line:
    the number of microseconds since 0001-01-01 00:00:00 ([datetime.min]).
    A [timedelta] is a signed number of microseconds. *)
Definition datetime : Type := Z.
Definition timedelta : Type := Z.

Definition us_per_second : Z := 1000000.
Definition us_per_day : Z := 86400 * us_per_second.

(** [datetime.max.toordinal()]: 9999-12-31. *)
Definition MAXORDINAL : Z := 3652059.

(** [d.toordinal()]: day number, 0001-01-01 being day 1. *)
Definition toordinal (t : datetime) : Z := t / us_per_day + 1.

(** The constructor of [timedelta] refuses more than 999999999 days. *)
Definition make_timedelta (us : Z) : outcome timedelta :=
  if Z.abs (us / us_per_day) <=? 999999999 then Return us
  else Raise OverflowError.

Definition timedelta_minutes (n : Z) : outcome timedelta :=
  make_timedelta (n * 60 * us_per_second).
Definition timedelta_hours (n : Z) : outcome timedelta :=
  make_timedelta (n * 3600 * us_per_second).
Definition timedelta_days (n : Z) : outcome timedelta :=
  make_timedelta (n * us_per_day).

(** [t + d]: [OverflowError] when the day leaves [1 .. MAXORDINAL]. *)
Definition datetime_add (t : datetime) (d : timedelta) : outcome datetime :=
  let r := t + d in
  if (0 <? toordinal r) && (toordinal r <=? MAXORDINAL) then Return r
  else Raise OverflowError.

(** [t - d], which the library computes as [t + (-d)]. *)
Definition datetime_sub (t : datetime) (d : timedelta) : outcome datetime :=
  datetime_add t (- d).

(** [t.replace(microsecond=0)] *)
Definition truncate_to_second (t : datetime) : datetime :=
  t / us_per_second * us_per_second.

(** [_is_leap] *)
Definition is_leap (year : Z) : bool :=
  (year mod 4 =? 0) && (negb (year mod 100 =? 0) || (year mod 400 =? 0)).

(** [_DAYS_IN_MONTH] and [_DAYS_BEFORE_MONTH], indexed by month 1..12. *)
Definition DAYS_IN_MONTH (month : Z) : Z :=
  nth (Z.to_nat month) [-1; 31; 28; 31; 30; 31; 30; 31; 31; 30; 31; 30; 31] 0.
Definition DAYS_BEFORE_MONTH (month : Z) : Z :=
  nth (Z.to_nat month)
      [-1; 0; 31; 59; 90; 120; 151; 181; 212; 243; 273; 304; 334] 0.

Definition DI400Y : Z := 146097.
Definition DI100Y : Z := 36524.
Definition DI4Y : Z := 1461.

Definition Z_of_bool (b : bool) : Z := if b then 1 else 0.

(** The end of [_ord2ymd]: month and day of the 0-based day [n] of a
    year. *)
Definition month_day (leapyear : bool) (n : Z) : Z * Z :=
  let month := Z.shiftr (n + 50) 5 in
  let preceding :=
    DAYS_BEFORE_MONTH month + Z_of_bool ((2 <? month) && leapyear) in
  if n <? preceding then
    let month := month - 1 in
    let preceding :=
      preceding
      - (DAYS_IN_MONTH month + Z_of_bool ((month =? 2) && leapyear)) in
    (month, n - preceding + 1)
  else (month, n - preceding + 1).

(** [_ord2ymd]: ordinal to (year, month, day). *)
Definition ord2ymd (n : Z) : Z * Z * Z :=
  let n := n - 1 in
  let n400 := n / DI400Y in
  let n := n mod DI400Y in
  let year := n400 * 400 + 1 in
  let n100 := n / DI100Y in
  let n := n mod DI100Y in
  let n4 := n / DI4Y in
  let n := n mod DI4Y in
  let n1 := n / 365 in
  let n := n mod 365 in
  let year := year + n100 * 100 + n4 * 4 + n1 in
  if (n1 =? 4) || (n100 =? 4) then (year - 1, 12, 31)
  else
    let leapyear := (n1 =? 3) && (negb (n4 =? 24) || (n100 =? 3)) in
    let '(month, day) := month_day leapyear n in
    (year, month, day).

(** [_days_before_year], [_days_before_month] and [_ymd2ord], the way
    back. *)
Definition days_before_year (year : Z) : Z :=
  let y := year - 1 in
  y * 365 + y / 4 - y / 100 + y / 400.

Definition days_before_month (year month : Z) : Z :=
  DAYS_BEFORE_MONTH month + Z_of_bool ((2 <? month) && is_leap year).

Definition ymd2ord (year month day : Z) : Z :=
  days_before_year year + days_before_month year month + day.

(** The check run over the days of a year: [month_day] gives a month and a
    day of the calendar, and the days before them add up to [n]. *)
Definition month_day_check (leapyear : bool) (n : Z) : bool :=
  let '(m, d) := month_day leapyear n in
  (1 <=? m) && (m <=? 12) && (1 <=? d) && (d <=? 31)
  && (DAYS_BEFORE_MONTH m + Z_of_bool ((2 <? m) && leapyear) + d =? n + 1).


(** The decimal fields of [strftime].  [%m %d %H %M %S] have two digits,
    zero padded.  [%Y] is passed on to the C library, and glibc writes the
    year as it is, without padding: ['505'], ['1']. *)
Definition digit_char (v : Z) : N := Z.to_N (48 + v mod 10).
Definition two_digits (v : Z) : str := [digit_char (v / 10); digit_char v].
Definition year_digits (year : Z) : str := str_of_int year.

(** [t.strftime("%Y-%m-%d")] *)
Definition strftime_Ymd (t : datetime) : str :=
  let '(y, m, d) := ord2ymd (toordinal t) in
  year_digits y ++ 45%N :: two_digits m ++ 45%N :: two_digits d.

(** [t.strftime("%Y-%m-%d %H:%M:%S")] *)
Definition strftime_YmdHMS (t : datetime) : str :=
  let secs := (t mod us_per_day) / us_per_second in
  strftime_Ymd t ++ 32%N :: two_digits (secs / 3600)
    ++ 58%N :: two_digits (secs mod 3600 / 60)
    ++ 58%N :: two_digits (secs mod 60).

(** ** [convert_relative_date] (avito_initial.py 58-95,
       avito_scraper.py 80-117) *)

(** [sys.get_int_max_str_digits()], the default of the interpreter. *)
Definition int_max_str_digits : Z := 4300.

Section RelativeDate.
Variable U : UCD.

(** [\d] of a Unicode pattern, and the value [int] gives the digit. *)
Definition digit_value (c : N) : option N :=
  if (c <? 128)%N then (if is_ascii_digit c then Some (c - 48)%N else None)
  else ucd_decimal U c.

Definition is_digit (c : N) : bool :=
  match digit_value c with Some _ => true | None => false end.

Fixpoint take_digits (s : str) : str :=
  match s with
  | [] => []
  | c :: s' => if is_digit c then c :: take_digits s' else []
  end.

(** [re.search(r'(\d+)', s)]: the leftmost maximal run of digits, or
    [None]. *)
Fixpoint search_digits (s : str) : option str :=
  match s with
  | [] => None
  | c :: s' => if is_digit c then Some (c :: take_digits s')
               else search_digits s'
  end.

(** The value of a numeral made of decimal digits. *)
Definition int_of_digits (ds : str) : Z :=
  fold_left
    (fun acc c => 10 * acc + Z.of_N (default 0%N (digit_value c))) ds 0.

(** [int(digits)] on a run of decimal digits: the value of the numeral, and
    [ValueError] when the run has more digits, leading zeros counted, than
    the interpreter's limit on the conversion allows. *)
Definition py_int (ds : str) : outcome Z :=
  if int_max_str_digits <? Z.of_nat (length ds) then Raise ValueError
  else Return (int_of_digits ds).

Definition unknown_date : str := py "Date inconnue".

(** [now] is the value [datetime.now()] returns in this call. *)
Definition convert_relative_date (now : datetime) (relative_date : str)
  : outcome str :=
  if str_in (py "quelques instants") (ucd_lower U relative_date)
  then Return (strftime_YmdHMS now)
  else
    match search_digits relative_date with
    | None => Return unknown_date
    | Some group1 =>
        num ← py_int group1;
        if str_in (py "minute") relative_date then
          delta ← timedelta_minutes num;
          exact_date ← datetime_sub now delta;
          Return (strftime_YmdHMS exact_date)
        else if str_in (py "heure") relative_date then
          delta ← timedelta_hours num;
          exact_date ← datetime_sub now delta;
          Return (strftime_YmdHMS exact_date)
        else if str_in (py "jour") relative_date then
          delta ← timedelta_days num;
          exact_date ← datetime_sub now delta;
          Return (strftime_Ymd exact_date)
        else if str_in (py "mois") relative_date then
          delta ← timedelta_days (30 * num);
          exact_date ← datetime_sub now delta;
          Return (strftime_Ymd exact_date)
        else if str_in (py "an") relative_date then
          delta ← timedelta_days (365 * num);
          exact_date ← datetime_sub now delta;
          Return (strftime_Ymd exact_date)
        else Return unknown_date
    end.
End RelativeDate.

(** The phrases [convert_relative_date] answers with the current time, and
    the unit keywords it looks for, in the order of its tests. *)
Definition instants_phrase (U : UCD) (relative_date : str) : bool :=
  str_in (py "quelques instants") (ucd_lower U relative_date).

Definition unit_keywords : list str :=
  [py "minute"; py "heure"; py "jour"; py "mois"; py "an"].

(** The values a [datetime] can take: 0001-01-01 00:00:00.000000 to
    9999-12-31 23:59:59.999999. *)
Definition valid_datetime (t : datetime) : Prop :=
  0 <= t < MAXORDINAL * us_per_day.

(** ** Rows *)

(** A cell of a row built in memory: the ordinal is an [int], everything
    else a [str]. *)
Inductive cell : Type :=
| CInt (z : Z)
| CStr (s : str).

Definition NA : str := py "N/A".

(** ** Discovery: the listing cards of a results page *)

(** The seven lookups made on a listing card. *)
Inductive selector : Type :=
| SelTitle          (* p.sc-1x0vz2r-0.iHApav *)
| SelPrice          (* p.sc-1x0vz2r-0.dJAfqm *)
| SelDate           (* p.sc-1x0vz2r-0.layWaX *)
| SelYear           (* .//span[contains(text(),'20')] *)
| SelFuel           (* Essence / Diesel / Hybride / Electrique *)
| SelTransmission   (* Automatique / Manuelle *)
| SelCreator.       (* p.sc-1x0vz2r-0.hNCqYw.sc-1wnmz4-5.dXzQnB *)

(** A listing card as the browser shows it during the visit:
    [find_elements sel] is what the lookup of [sel] under the card yields,
    each match given by what reading its [.text] yields; [href] is
    [get_attribute("href")]; [clock] is the wall-clock time read when the
    card's date is converted. *)
Record Listing : Type := {
  find_elements : selector -> outcome (list (outcome str));
  href : outcome (option str);
  clock : datetime
}.

(** [listing.find_element(sel).text.strip() if listing.find_elements(sel)
     else default] (avito_initial.py 155-171). *)
Definition text_or_default (l : Listing) (sel : selector) (default : str)
  : outcome str :=
  found ← find_elements l sel;
  match found with
  | [] => Return default
  | first :: _ => t ← first; Return (strip t)
  end.

(** [find_element]: the first match, [NoSuchElementException] without one. *)
Definition find_element_text (l : Listing) (sel : selector) : outcome str :=
  found ← find_elements l sel;
  match found with
  | [] => Raise NoSuchElementException
  | first :: _ => first
  end.

(** The seller kind (avito_initial.py 177-182): the lookup's own exception
    is swallowed and leaves the default. *)
Definition creator_of (l : Listing) : str :=
  match find_element_text l SelCreator with
  | Return t => strip t
  | Raise _ => py "Particulier"
  end.

Definition link_of (l : Listing) : outcome str :=
  h ← href l;
  Return (match h with
          | Some u => if truthy u then u else NA
          | None => NA
          end).

Definition prix_non_specifie : str :=
  py "Prix non sp" ++ e_acute :: py "cifi" ++ [e_acute].

Section Discovery.
Variable U : UCD.

(** The body of the per-listing [try] (avito_initial.py 154-188): the row
    of one card, or the exception that leaves the body. *)
Definition listing_row (l : Listing) (listing_id_counter : Z)
  : outcome (list cell) :=
  title ← text_or_default l SelTitle NA;
  price ← text_or_default l SelPrice prix_non_specifie;
  pub_date_raw ← text_or_default l SelDate NA;
  pub_date ← convert_relative_date U (clock l) pub_date_raw;
  year ← text_or_default l SelYear NA;
  fuel_type ← text_or_default l SelFuel NA;
  transmission ← text_or_default l SelTransmission NA;
  link ← link_of l;
  let creator := creator_of l in
  let folder_name := create_folder_name U title listing_id_counter in
  Return [CInt listing_id_counter; CStr title; CStr price; CStr pub_date;
          CStr year; CStr fuel_type; CStr transmission; CStr creator;
          CStr link; CStr folder_name].

(** [for listing in listings: try: ... except Exception: print]
    (avito_initial.py 152-193), on the state [(data, listing_id_counter)]. *)
Fixpoint scrape_listings (listings : list Listing)
    (data : list (list cell)) (listing_id_counter : Z)
  : list (list cell) * Z :=
  match listings with
  | [] => (data, listing_id_counter)
  | l :: rest =>
      match listing_row l listing_id_counter with
      | Return row =>
          scrape_listings rest (data ++ [row]) (listing_id_counter + 1)
      | Raise _ => scrape_listings rest data listing_id_counter
      end
  end.
End Discovery.


(** The invariant of the loop's state: the rows carry the ordinals
    1, 2, 3, ... in order, and the counter is the next free ordinal. *)
Definition numbered (data : list (list cell)) (counter : Z) : Prop :=
  counter = Z.of_nat (length data) + 1
  /\ forall (i : nat) (row : list cell),
       data !! i = Some row -> row !! 0%nat = Some (CInt (Z.of_nat i + 1)).

(** A results page as the browser shows it. *)
Record ListingsPage : Type := {
  page_get : outcome unit;      (* driver.get(url), set_page_load_timeout *)
  page_wait : outcome unit;     (* WebDriverWait(driver, 10).until(...) *)
  page_scroll : outcome unit;   (* execute_script("window.scrollTo...") *)
  page_listings : outcome (list Listing)
                                (* find_element(container).find_elements *)
}.

(** [range(a, b)] *)
Definition py_range (a b : Z) : list Z :=
  List.map (fun i => a + Z.of_nat i) (seq 0 (Z.to_nat (b - a))).

Module AvitoInitial.
Section Run.
Variable U : UCD.
(** The site: what page number [o=page] shows. *)
Variable site : Z -> ListingsPage.

(** The page loop of [scrape_avito] (avito_initial.py 120-196) on the
    state [(data, listing_id_counter)]. *)
Fixpoint scrape_pages (pages : list Z) (data : list (list cell))
    (listing_id_counter : Z) : outcome (list (list cell) * Z) :=
  match pages with
  | [] => Return (data, listing_id_counter)
  | page :: rest =>
      _ ← page_get (site page);
      match page_wait (site page) with
      | Raise _ => scrape_pages rest data listing_id_counter
      | Return _ =>
          match (_ ← page_scroll (site page); page_listings (site page)) with
          | Raise _ => scrape_pages rest data listing_id_counter
          | Return [] => scrape_pages rest data listing_id_counter
          | Return listings =>
              let '(data', counter') :=
                scrape_listings U listings data listing_id_counter in
              scrape_pages rest data' counter'
          end
      end
  end.

Definition scrape_avito (start_page end_page : Z)
  : outcome (list (list cell)) :=
  r ← scrape_pages (py_range start_page (end_page + 1)) [] 1;
  Return r.1.
End Run.
End AvitoInitial.

(** ** The file system and the network *)

Definition bytes : Type := list N.

(** Files by path, with their content, and the directories the run has
    made sure of: the paths a call of [os.makedirs] that returned has
    created or found. *)
Record FS : Type := {
  fs_files : gmap str bytes;
  fs_dirs : gset str
}.

(** The answer to [requests.get(url, stream=True)]. *)
Record Response : Type := {
  raise_for_status : outcome unit;
  content_type : option str;       (* the Content-Type header, if any *)
  iter_content : list bytes;       (* the chunks the body yields ... *)
  iter_error : option exn          (* ... before it raises, if it does *)
}.

(** A detail page as the browser shows it during the visit. *)
Record ImgElement : Type := {
  img_src : outcome (option str)   (* img.get_attribute("src") *)
}.

Record DetailElement : Type := {
  value_text : outcome str;   (* .//span[contains(@class,'fjZBup')] .text *)
  label_text : outcome str    (* .//span[contains(@class,'bXFCIH')] .text *)
}.

Record EquipmentElement : Type := {
  parent_text : outcome str;  (* eq.find_element("./..").text *)
  equipment : outcome str     (* eq.text *)
}.

Record DetailPage : Type := {
  detail_get : outcome unit;                 (* driver.get(url) *)
  detail_scroll : outcome unit;              (* execute_script(scrollTo) *)
  images_picture : outcome (list ImgElement);  (* "div.picture img" *)
  images_gallery : outcome (list ImgElement);  (* ".sc-1gjavk-0" *)
  location_header : outcome str;             (* span 'iKguVF' .text *)
  detail_elements : outcome (list DetailElement);  (* div 'sc-19cngu6-1' *)
  category_fallback : outcome str;           (* span after 'Categorie' *)
  equipment_elements : outcome (list EquipmentElement)
}.

(** Everything the detail phase reads from outside: pages by URL, HTTP
    answers by URL, and the faults of the file system. *)
Record Env : Type := {
  web : str -> DetailPage;
  http : str -> outcome Response;
  makedirs_fault : str -> option exn;       (* os.makedirs(path) raises *)
  open_fault : str -> option exn;           (* open(path, 'wb') raises *)
  write_fault : str -> nat -> option exn    (* the k-th f.write raises *)
}.

Definition slash : N := 47.

(** [os.path.join(a, b)] (POSIX). *)
Definition os_path_join (a b : str) : str :=
  if startswith [slash] b then b
  else match last a with
       | None => b
       | Some c => if (c =? slash)%N then a ++ b else a ++ slash :: b
       end.

(** [os.path.basename(p)]: what follows the last slash. *)
Fixpoint basename (p : str) : str :=
  match p with
  | [] => []
  | c :: p' =>
      if existsb (N.eqb slash) p' then basename p'
      else if (c =? slash)%N then p' else p
  end.

(** [posixpath.split(p)]: the head before the last slash and the tail
    after it; the head loses its trailing slashes unless it is made of
    slashes only. *)
Fixpoint lstrip_slashes (s : str) : str :=
  match s with
  | [] => []
  | c :: s' => if (c =? slash)%N then lstrip_slashes s' else s
  end.

Definition path_split (p : str) : str * str :=
  let tail := basename p in
  let head := take (length p - length tail) p in
  (if forallb (N.eqb slash) head then head
   else rev (lstrip_slashes (rev head)), tail).

(** The recursion of [os.makedirs(name)]: the heads it goes up to (it
    stops early at one that exists), outermost first, then [name] itself.
    [fuel] bounds the depth; the length of [name] is enough, see
    [makedirs_chain_fuel]. *)
Fixpoint makedirs_chain (fuel : nat) (name : str) : list str :=
  match fuel with
  | O => [name]
  | S fuel =>
      let '(head, tail) := path_split name in
      let '(head, tail) :=
        if truthy tail then (head, tail) else path_split head in
      if truthy head && truthy tail then makedirs_chain fuel head ++ [name]
      else [name]
  end.

Definition makedirs_dirs (name : str) : list str :=
  makedirs_chain (length name) name.

(** [os.makedirs(path, exist_ok=True)]: when the call returns, [path] and
    every head above it are directories.  (What a call that raises has
    made on its way is not recorded.) *)
Definition makedirs (E : Env) (path : str) (fs : FS) : outcome unit * FS :=
  match makedirs_fault E path with
  | Some e => (Raise e, fs)
  | None =>
      (Return (),
       {| fs_files := fs_files fs;
          fs_dirs := list_to_set (makedirs_dirs path) ∪ fs_dirs fs |})
  end.

(** [open(path, 'wb')]: the file exists and is empty afterwards. *)
Definition open_wb (E : Env) (path : str) (fs : FS) : outcome unit * FS :=
  match open_fault E path with
  | Some e => (Raise e, fs)
  | None =>
      (Return (), {| fs_files := <[path := []]> (fs_files fs); fs_dirs := fs_dirs fs |})
  end.

(** [f.write(chunk)] on the file opened at [path]. *)
Definition write_chunk (path : str) (chunk : bytes) (fs : FS) : FS :=
  {| fs_files := <[path := default [] (fs_files fs !! path) ++ chunk]> (fs_files fs);
     fs_dirs := fs_dirs fs |}.

(** [for chunk in response.iter_content(...): f.write(chunk)]; [k] counts
    the writes made so far. *)
Fixpoint write_chunks (E : Env) (path : str) (chunks : list bytes)
    (stream_error : option exn) (k : nat) (fs : FS) : outcome unit * FS :=
  match chunks with
  | [] =>
      match stream_error with
      | Some e => (Raise e, fs)
      | None => (Return (), fs)
      end
  | chunk :: rest =>
      match write_fault E path k with
      | Some e => (Raise e, fs)
      | None => write_chunks E path rest stream_error (S k)
                  (write_chunk path chunk fs)
      end
  end.

(** ** [download_image] (avito_main.py 63-92, avito_scraper.py 133-162) *)

(** avito_main.py 76-80: the extension the Content-Type asks for. *)
Definition extension_of (content_type : str) : str :=
  if str_in (py "png") content_type then py ".png"
  else if str_in (py "jpeg") content_type || str_in (py "jpg") content_type
  then py ".jpg"
  else py ".jpg".

(** The body of the [try]. *)
Definition download_image_body (E : Env) (image_url folder_path image_name : str)
    (fs : FS) : outcome str * FS :=
  match http E image_url with
  | Raise e => (Raise e, fs)
  | Return response =>
      match raise_for_status response with
      | Raise e => (Raise e, fs)
      | Return _ =>
          let content_type := default [] (content_type response) in
          let extension := extension_of content_type in
          let image_path := os_path_join folder_path (image_name ++ extension) in
          match open_wb E image_path fs with
          | (Raise e, fs) => (Raise e, fs)
          | (Return _, fs) =>
              match write_chunks E image_path (iter_content response)
                      (iter_error response) 0 fs with
              | (Raise e, fs) => (Raise e, fs)
              | (Return _, fs) => (Return (basename image_path), fs)
              end
          end
      end
  end.

(** [None] stands for Python's [None]. *)
Definition download_image (E : Env) (image_url folder_path image_name : str)
    (fs : FS) : option str * FS :=
  match download_image_body E image_url folder_path image_name fs with
  | (Return filename, fs) => (Some filename, fs)
  | (Raise _, fs) => (None, fs)
  end.

(** ** The image loop of [scrape_details] (avito_main.py 116-143,
       avito_scraper.py 186-212) *)

(** [f"image_{i+1}"] for the 0-based position [i]. *)
Definition image_name (i : nat) : str :=
  py "image_" ++ str_of_int (Z.of_nat i + 1).

Arguments image_name : simpl never.

(** [for i, img in enumerate(image_elements): try: ... except: print];
    [i] is the 0-based position of the head of [imgs]. *)
Fixpoint download_images (E : Env) (listing_folder folder_name : str)
    (i : nat) (imgs : list ImgElement) (images_paths : list str) (fs : FS)
  : list str * FS :=
  match imgs with
  | [] => (images_paths, fs)
  | img :: rest =>
      match img_src img with
      | Return (Some src) =>
          if truthy src then
            let '(image_filename, fs) :=
              download_image E src listing_folder (image_name i) fs in
            match image_filename with
            | Some image_filename =>
                if truthy image_filename then
                  let rel_path := os_path_join folder_name image_filename in
                  download_images E listing_folder folder_name (S i) rest
                    (images_paths ++ [rel_path]) fs
                else download_images E listing_folder folder_name (S i) rest
                       images_paths fs
            | None => download_images E listing_folder folder_name (S i) rest
                        images_paths fs
            end
          else download_images E listing_folder folder_name (S i) rest
                 images_paths fs
      | Return None | Raise _ =>
          download_images E listing_folder folder_name (S i) rest
            images_paths fs
      end
  end.

(** The two selectors of the image gallery, the second tried when the first
    finds nothing. *)
Definition image_elements (page : DetailPage) : outcome (list ImgElement) :=
  els ← images_picture page;
  match els with
  | [] => images_gallery page
  | _ :: _ => Return els
  end.

(** The whole [try ... except Exception] around the images. *)
Definition harvest_images (E : Env) (page : DetailPage)
    (listing_folder folder_name : str) (fs : FS) : list str * FS :=
  match image_elements page with
  | Return els => download_images E listing_folder folder_name 0 els [] fs
  | Raise _ => ([], fs)
  end.

(** Following the specification of the harvester: the asset reference of
    the image at 0-based position [i] of the discovered list, if there is a
    source URL and its download returns success.  (Whether a download
    succeeds does not depend on the files already there, see
    [download_image_outcome_indep]; the empty file system stands for any.) *)
Definition empty_fs : FS := {| fs_files := ∅; fs_dirs := ∅ |}.

Definition asset_reference (E : Env) (listing_folder folder_name : str)
    (i : nat) (img : ImgElement) : option str :=
  match img_src img with
  | Return (Some src) =>
      if truthy src then
        match (download_image E src listing_folder (image_name i) empty_fs).1 with
        | Some image_filename => Some (os_path_join folder_name image_filename)
        | None => None
        end
      else None
  | Return None | Raise _ => None
  end.

(** ** The enrichment fields of [scrape_details] (avito_main.py 153-241,
       avito_scraper.py 222-310) *)

(** The twelve local variables, in the order of the returned list. *)
Record Details : Type := {
  car_type : str;
  location : str;
  mileage : str;
  brand : str;
  model : str;
  doors : str;
  origin : str;
  first_hand : str;
  fiscal_power : str;
  condition : str;
  equipment_text : str;
  seller_city : str
}.

Definition all_NA : Details :=
  {| car_type := NA; location := NA; mileage := NA; brand := NA;
     model := NA; doors := NA; origin := NA; first_hand := NA;
     fiscal_power := NA; condition := NA; equipment_text := NA;
     seller_city := NA |}.

(** Assignment to one of the variables. *)
Definition set_car_type (v : str) (d : Details) : Details :=
  {| car_type := v; location := location d; mileage := mileage d; brand := brand d; model := model d; doors := doors d;
     origin := origin d; first_hand := first_hand d;
     fiscal_power := fiscal_power d; condition := condition d; equipment_text := equipment_text d; seller_city := seller_city d |}.
Definition set_location (v : str) (d : Details) : Details :=
  {| car_type := car_type d; location := v; mileage := mileage d; brand := brand d; model := model d; doors := doors d;
     origin := origin d; first_hand := first_hand d;
     fiscal_power := fiscal_power d; condition := condition d; equipment_text := equipment_text d; seller_city := seller_city d |}.
Definition set_mileage (v : str) (d : Details) : Details :=
  {| car_type := car_type d; location := location d; mileage := v; brand := brand d; model := model d; doors := doors d;
     origin := origin d; first_hand := first_hand d;
     fiscal_power := fiscal_power d; condition := condition d; equipment_text := equipment_text d; seller_city := seller_city d |}.
Definition set_brand (v : str) (d : Details) : Details :=
  {| car_type := car_type d; location := location d; mileage := mileage d; brand := v; model := model d; doors := doors d;
     origin := origin d; first_hand := first_hand d;
     fiscal_power := fiscal_power d; condition := condition d; equipment_text := equipment_text d; seller_city := seller_city d |}.
Definition set_model (v : str) (d : Details) : Details :=
  {| car_type := car_type d; location := location d; mileage := mileage d; brand := brand d; model := v; doors := doors d;
     origin := origin d; first_hand := first_hand d;
     fiscal_power := fiscal_power d; condition := condition d; equipment_text := equipment_text d; seller_city := seller_city d |}.
Definition set_doors (v : str) (d : Details) : Details :=
  {| car_type := car_type d; location := location d; mileage := mileage d; brand := brand d; model := model d; doors := v;
     origin := origin d; first_hand := first_hand d;
     fiscal_power := fiscal_power d; condition := condition d; equipment_text := equipment_text d; seller_city := seller_city d |}.
Definition set_origin (v : str) (d : Details) : Details :=
  {| car_type := car_type d; location := location d; mileage := mileage d; brand := brand d; model := model d; doors := doors d;
     origin := v; first_hand := first_hand d;
     fiscal_power := fiscal_power d; condition := condition d; equipment_text := equipment_text d; seller_city := seller_city d |}.
Definition set_first_hand (v : str) (d : Details) : Details :=
  {| car_type := car_type d; location := location d; mileage := mileage d; brand := brand d; model := model d; doors := doors d;
     origin := origin d; first_hand := v;
     fiscal_power := fiscal_power d; condition := condition d; equipment_text := equipment_text d; seller_city := seller_city d |}.
Definition set_fiscal_power (v : str) (d : Details) : Details :=
  {| car_type := car_type d; location := location d; mileage := mileage d; brand := brand d; model := model d; doors := doors d;
     origin := origin d; first_hand := first_hand d;
     fiscal_power := v; condition := condition d; equipment_text := equipment_text d; seller_city := seller_city d |}.
Definition set_condition (v : str) (d : Details) : Details :=
  {| car_type := car_type d; location := location d; mileage := mileage d; brand := brand d; model := model d; doors := doors d;
     origin := origin d; first_hand := first_hand d;
     fiscal_power := fiscal_power d; condition := v; equipment_text := equipment_text d; seller_city := seller_city d |}.
Definition set_equipment_text (v : str) (d : Details) : Details :=
  {| car_type := car_type d; location := location d; mileage := mileage d; brand := brand d; model := model d; doors := doors d;
     origin := origin d; first_hand := first_hand d;
     fiscal_power := fiscal_power d; condition := condition d; equipment_text := v; seller_city := seller_city d |}.
Definition set_seller_city (v : str) (d : Details) : Details :=
  {| car_type := car_type d; location := location d; mileage := mileage d; brand := brand d; model := model d; doors := doors d;
     origin := origin d; first_hand := first_hand d;
     fiscal_power := fiscal_power d; condition := condition d; equipment_text := equipment_text d; seller_city := v |}.

Definition details_list (d : Details) : list str :=
  [car_type d; location d; mileage d; brand d; model d; doors d; origin d;
   first_hand d; fiscal_power d; condition d; equipment_text d;
   seller_city d].

Definition comma : N := 44.

(** [s.split(',')[0]] *)
Fixpoint before_comma (s : str) : str :=
  match s with
  | [] => []
  | c :: s' => if (c =? comma)%N then [] else c :: before_comma s'
  end.

(** The label literals of the scan. *)
Definition lbl_annee_modele : str :=
  py "Ann" ++ e_acute :: py "e-Mod" ++ e_grave :: py "le".
Definition lbl_type_de_vehicule : str :=
  py "Type de v" ++ e_acute :: py "hicule".
Definition lbl_categorie : str := py "Cat" ++ e_acute :: py "gorie".
Definition lbl_kilometrage : str := py "Kilom" ++ e_acute :: py "trage".
Definition lbl_marque : str := py "Marque".
Definition lbl_modele : str := py "Mod" ++ e_grave :: py "le".
Definition lbl_nombre_de_portes : str := py "Nombre de portes".
Definition lbl_origine : str := py "Origine".
Definition lbl_premiere_main : str := py "Premi" ++ e_grave :: py "re main".
Definition lbl_puissance_fiscale : str := py "Puissance fiscale".
Definition lbl_etat : str := E_acute_cap :: py "tat".
Definition lbl_secteur : str := py "Secteur".

(** avito_main.py 170-176: the seller's location from the page header. *)
Definition header_location (page : DetailPage) (d : Details) : Details :=
  match location_header page with
  | Return t =>
      let location := strip t in
      let seller_city :=
        if str_in [comma] location then before_comma location else location in
      set_seller_city seller_city (set_location location d)
  | Raise _ => d
  end.

(** avito_main.py 191-213: the chain of label tests; the first that holds
    names the variable the value goes to. *)
Definition assign_label (label value : str) (d : Details) : Details :=
  if str_in lbl_annee_modele label then d
  else if str_in lbl_type_de_vehicule label || str_in lbl_categorie label then
    set_car_type value d
  else if str_in lbl_kilometrage label then
    set_mileage value d
  else if str_in lbl_marque label then
    set_brand value d
  else if str_in lbl_modele label then
    set_model value d
  else if str_in lbl_nombre_de_portes label then
    set_doors value d
  else if str_in lbl_origine label then
    set_origin value d
  else if str_in lbl_premiere_main label then
    set_first_hand value d
  else if str_in lbl_puissance_fiscale label then
    set_fiscal_power value d
  else if str_in lbl_etat label then
    set_condition value d
  else if str_in lbl_secteur label then
    set_location value d
  else d.

(** One turn of [for element in detail_elements] (avito_main.py 181-216):
    an exception of either lookup goes on to the next element. *)
Definition scan_element (d : Details) (element : DetailElement) : Details :=
  match value_text element, label_text element with
  | Return v, Return l => assign_label (strip l) (strip v) d
  | _, _ => d
  end.

(** The labels tested before ["Secteur"], and the labels that reach the
    ["Secteur"] branch of the chain. *)
Definition labels_before_secteur : list str :=
  [lbl_annee_modele; lbl_type_de_vehicule; lbl_categorie; lbl_kilometrage;
   lbl_marque; lbl_modele; lbl_nombre_de_portes; lbl_origine;
   lbl_premiere_main; lbl_puissance_fiscale; lbl_etat].

Definition takes_secteur_branch (label : str) : bool :=
  str_in lbl_secteur label
  && negb (existsb (fun k => str_in k label) labels_before_secteur).

(** The elements of the scan that assign [location]. *)
Definition sets_location (element : DetailElement) : bool :=
  match value_text element, label_text element with
  | Return _, Return l => takes_secteur_branch (strip l)
  | _, _ => false
  end.

(** avito_main.py 219-225 *)
Definition category_if_missing (page : DetailPage) (d : Details) : Details :=
  if str_eqb (car_type d) NA then
    match category_fallback page with
    | Return t =>
        set_car_type (strip t) d
    | Raise _ => d
    end
  else d.

(** [sep.join(l)] *)
Fixpoint str_join (sep : str) (l : list str) : str :=
  match l with
  | [] => []
  | [x] => x
  | x :: l' => x ++ sep ++ str_join sep l'
  end.

(** avito_main.py 232-236: the loop over the value-only leaves. *)
Fixpoint equipment_loop (eqs : list EquipmentElement) (equipment_list : list str)
  : outcome (list str) :=
  match eqs with
  | [] => Return equipment_list
  | eq :: rest =>
      parent ← parent_text eq;
      if negb (str_in (py "Type de") parent)
         && negb (str_in (py "Ann" ++ [e_acute] ++ py "e") parent)
         && negb (str_in (py "Marque") parent)
      then t ← equipment eq; equipment_loop rest (equipment_list ++ [strip t])
      else equipment_loop rest equipment_list
  end.

(** avito_main.py 228-241 *)
Definition equipment_step (page : DetailPage) (d : Details) : Details :=
  match (eqs ← equipment_elements page; equipment_loop eqs []) with
  | Return (x :: l) =>
      set_equipment_text (str_join (py ", ") (x :: l)) d
  | Return [] | Raise _ => d
  end.

(** avito_main.py 153-244: the defaults, then the [try] around the whole
    extraction; an exception of [find_elements] for the attribute list
    leaves the variables as they are at that point. *)
Definition extract_details (page : DetailPage) : Details :=
  let d := header_location page all_NA in
  match detail_elements page with
  | Raise _ => d
  | Return elements =>
      let d := fold_left scan_element elements d in
      let d := category_if_missing page d in
      equipment_step page d
  end.

Definition images_base_folder : str :=
  os_path_join (os_path_join (os_path_join (py "..") (py "data")) (py "avito"))
    (py "images").

(** ** scraping_select_pages/avito_main.py *)

Module AvitoMain.
Section Run.
Variable E : Env.

(** [scrape_details] (avito_main.py 95-250).  [driver.get] and the two
    [os.makedirs] stand before the [try].  The click on "Voir plus"
    (146-151) swallows its own exception and changes nothing the model
    reads; the image paths are collected and not returned. *)
Definition scrape_details (url : str) (listing_id : Z) (folder_name : str)
    (fs : FS) : outcome (list str) * FS :=
  let page := web E url in
  match detail_get page with
  | Raise e => (Raise e, fs)
  | Return _ =>
  match makedirs E images_base_folder fs with
  | (Raise e, fs) => (Raise e, fs)
  | (Return _, fs) =>
  let listing_folder := os_path_join images_base_folder folder_name in
  match makedirs E listing_folder fs with
  | (Raise e, fs) => (Raise e, fs)
  | (Return _, fs) =>
      match detail_scroll page with
      | Raise _ => (Return (replicate 12 NA ++ [folder_name]), fs)
      | Return _ =>
          let '(images_paths, fs) :=
            harvest_images E page listing_folder folder_name fs in
          let d := extract_details page in
          (Return (details_list d ++ [folder_name]), fs)
      end
  end end end.

Definition new_headers : list str :=
  [py "ID"; py "Titre"; py "Prix"; py "Date de publication";
   py "Ann" ++ e_acute :: py "e"; py "Type de carburant";
   py "Transmission"; py "Cr" ++ e_acute :: py "ateur";
   lbl_type_de_vehicule; lbl_secteur; lbl_kilometrage; lbl_marque;
   lbl_modele; lbl_nombre_de_portes; lbl_origine; lbl_premiere_main;
   lbl_puissance_fiscale; lbl_etat;
   E_acute_cap :: py "quipements"; py "Ville du vendeur";
   py "Dossier d'images"].

(** The loop of [process_detailed_data] (avito_main.py 283-293);
    [row[8]] and [row[9]] raise [IndexError] on a short row. *)
Fixpoint visit_rows (basic_data : list (list str))
    (detailed_data : list (list str)) (idx : Z) (fs : FS)
  : outcome (list (list str)) * FS :=
  match basic_data with
  | [] => (Return detailed_data, fs)
  | row :: rest =>
      match row !! 8%nat, row !! 9%nat with
      | Some url, Some folder_name =>
          match scrape_details url idx folder_name fs with
          | (Raise e, fs) => (Raise e, fs)
          | (Return details, fs) =>
              let combined_data := take 8 row ++ details in
              visit_rows rest (detailed_data ++ [combined_data]) (idx + 1) fs
          end
      | _, _ => (Raise IndexError, fs)
      end
  end.

(** [process_detailed_data]: the rows handed to [csv.writer], header
    first, when the loop comes to its end. *)
Definition process_detailed_data (basic_data : list (list str)) (fs : FS)
  : outcome (list (list str)) * FS :=
  visit_rows basic_data [new_headers] 1 fs.
End Run.
End AvitoMain.

(** ** scraping_last_page/avito_scraper.py *)

(** What a run leaves behind: the header and the rows handed to
    [save_to_csv], if it got that far, and how [main] ended. *)
Record Run : Type := {
  saved_csv : option (list str * list (list cell));
  exit : outcome unit
}.

Module AvitoScraper.
Section Run.
Variable U : UCD.
Variable E : Env.

(** [scrape_details] (avito_scraper.py 165-319): as in avito_main.py, with
    the joined image paths as a fourteenth element. *)
Definition scrape_details (url : str) (listing_id : cell) (folder_name : str)
    (fs : FS) : outcome (list str) * FS :=
  let page := web E url in
  match detail_get page with
  | Raise e => (Raise e, fs)
  | Return _ =>
  match makedirs E images_base_folder fs with
  | (Raise e, fs) => (Raise e, fs)
  | (Return _, fs) =>
  let listing_folder := os_path_join images_base_folder folder_name in
  match makedirs E listing_folder fs with
  | (Raise e, fs) => (Raise e, fs)
  | (Return _, fs) =>
      match detail_scroll page with
      | Raise _ => (Return (replicate 12 NA ++ [folder_name; []]), fs)
      | Return _ =>
          let '(images_paths, fs) :=
            harvest_images E page listing_folder folder_name fs in
          let d := extract_details page in
          (Return (details_list d
                   ++ [folder_name; str_join (py ", ") images_paths]), fs)
      end
  end end end.

(** [scrape_avito] (avito_scraper.py 322-413): page 1 only. *)
Definition scrape_avito (page : ListingsPage) : outcome (list (list cell)) :=
  _ ← page_get page;
  match page_wait page with
  | Raise _ => Return []
  | Return _ =>
      match (_ ← page_scroll page; page_listings page) with
      | Raise _ => Return []
      | Return [] => Return []
      | Return listings => Return (scrape_listings U listings [] 1).1
      end
  end.

Definition complete_headers : list str := AvitoMain.new_headers.

(** The loop of [main] (avito_scraper.py 467-479). *)
Fixpoint visit_rows (basic_data : list (list cell))
    (complete_data : list (list cell)) (fs : FS)
  : outcome (list (list cell)) * FS :=
  match basic_data with
  | [] => (Return complete_data, fs)
  | row :: rest =>
      match row !! 0%nat, row !! 8%nat, row !! 9%nat with
      | Some listing_id, Some (CStr url), Some (CStr folder_name) =>
          match scrape_details url listing_id folder_name fs with
          | (Raise e, fs) => (Raise e, fs)
          | (Return details, fs) =>
              let combined_row := take 8 row ++ List.map CStr details in
              visit_rows rest (complete_data ++ [combined_row]) fs
          end
      | Some _, Some _, Some _ => (Raise TypeError, fs)
      | _, _, _ => (Raise IndexError, fs)
      end
  end.

(** [main] (avito_scraper.py 431-494).  The last [print] reads the
    undefined name [kafka_topic], after the file is saved. *)
Definition main (page1 : ListingsPage) (fs : FS) : Run * FS :=
  match scrape_avito page1 with
  | Raise e => ({| saved_csv := None; exit := Raise e |}, fs)
  | Return [] => ({| saved_csv := None; exit := Return () |}, fs)
  | Return basic_data =>
      match visit_rows basic_data [] fs with
      | (Raise e, fs) => ({| saved_csv := None; exit := Raise e |}, fs)
      | (Return complete_data, fs) =>
          ({| saved_csv := Some (complete_headers, complete_data);
              exit := Raise NameError |}, fs)
      end
  end.
End Run.
End AvitoScraper.

(** ** Concrete inputs *)

(** A capture time: 2026-11-03 09:59:07.123456. *)
Definition capture_2026 : datetime :=
  ((739923 - 1) * 86400 + 9 * 3600 + 59 * 60 + 7) * 1000000 + 123456.

(** A phrase whose number of minutes reaches back before year 1. *)
Definition phrase_two_billion_minutes : str := py "il y a 2000000000 minutes".

(** A phrase with a run of 4301 digits and no unit keyword, and "5 minutes"
    written with 4301 digits, zeros first. *)
Definition phrase_long_reference : str := py "ref " ++ replicate 4301 55%N.
Definition phrase_padded_five_minutes : str :=
  py "il y a " ++ replicate 4300 48%N ++ py "5 minutes".

(** A listing card with a title and a date phrase, and nothing else. *)
Definition card (title date : str) : Listing :=
  {| find_elements := fun sel =>
       match sel with
       | SelTitle => Return [Return title]
       | SelDate => Return [Return date]
       | _ => Return []
       end;
     href := Return (Some (py "https://www.avito.ma/x"));
     clock := capture_2026 |}.

(** A card that went stale: every lookup under it raises. *)
Definition stale_card : Listing :=
  {| find_elements := fun _ => Raise StaleElementReferenceException;
     href := Raise StaleElementReferenceException;
     clock := capture_2026 |}.

(** A card whose price lookup raises, all else being there. *)
Definition stale_price_card : Listing :=
  {| find_elements := fun sel =>
       match sel with
       | SelTitle => Return [Return (py "Dacia Logan")]
       | SelPrice => Raise StaleElementReferenceException
       | SelDate => Return [Return (py "il y a 5 minutes")]
       | _ => Return []
       end;
     href := Return (Some (py "https://www.avito.ma/x"));
     clock := capture_2026 |}.


Definition page_of (listings : list Listing) : ListingsPage :=
  {| page_get := Return (); page_wait := Return ();
     page_scroll := Return (); page_listings := Return listings |}.

(** Two pages: a good card, a stale card, a good card; then one good card. *)
Definition demo_site (page : Z) : ListingsPage :=
  if page =? 1 then
    page_of [card (py "Dacia Logan") (py "il y a 5 minutes"); stale_card;
             card (py "Renault Clio") (py "il y a 2 heures")]
  else page_of [card (py "Fiat Punto") (py "il y a 3 jours")].

(** An image element with a source URL. *)
Definition img (src : str) : ImgElement := {| img_src := Return (Some src) |}.

(** A network with four images: a PNG, one whose host does not answer, one
    without a Content-Type, and one whose body breaks off after its first
    chunk.  Nothing fails on the disk. *)
Definition demo_http (url : str) : outcome Response :=
  if str_eqb url (py "http://img/1") then
    Return {| raise_for_status := Return ();
              content_type := Some (py "image/png");
              iter_content := [[137; 80]; [78; 71]]%N; iter_error := None |}
  else if str_eqb url (py "http://img/3") then
    Return {| raise_for_status := Return (); content_type := None;
              iter_content := [[255; 216]]%N; iter_error := None |}
  else if str_eqb url (py "http://img/4") then
    Return {| raise_for_status := Return ();
              content_type := Some (py "image/jpeg");
              iter_content := [[255; 216]]%N;
              iter_error := Some ConnectionError |}
  else Raise ConnectionError.

Definition blank_page : DetailPage :=
  {| detail_get := Return (); detail_scroll := Return ();
     images_picture := Return []; images_gallery := Return [];
     location_header := Raise NoSuchElementException;
     detail_elements := Return [];
     category_fallback := Raise NoSuchElementException;
     equipment_elements := Return [] |}.

Definition demo_env : Env :=
  {| web := fun _ => blank_page; http := demo_http;
     makedirs_fault := fun _ => None; open_fault := fun _ => None;
     write_fault := fun _ _ => None |}.

(** A detail page with the location header and one labeled attribute. *)
Definition page_with (header label value : str) : DetailPage :=
  {| detail_get := Return (); detail_scroll := Return ();
     images_picture := Return []; images_gallery := Return [];
     location_header := Return header;
     detail_elements :=
       Return [{| value_text := Return value; label_text := Return label |}];
     category_fallback := Raise NoSuchElementException;
     equipment_elements := Return [] |}.

Definition env_of (page : DetailPage) : Env :=
  {| web := fun _ => page; http := demo_http;
     makedirs_fault := fun _ => None; open_fault := fun _ => None;
     write_fault := fun _ _ => None |}.

(** A label that holds ["Secteur"] after ["État"]. *)
Definition lbl_etat_du_secteur : str := lbl_etat ++ py " du Secteur".

(** A detail page whose navigation times out, and one whose navigation
    succeeds and whose scroll script fails. *)
Definition timeout_page : DetailPage :=
  {| detail_get := Raise TimeoutException; detail_scroll := Return ();
     images_picture := Return []; images_gallery := Return [];
     location_header := Raise NoSuchElementException;
     detail_elements := Return [];
     category_fallback := Raise NoSuchElementException;
     equipment_elements := Return [] |}.

Definition crashed_after_load_page : DetailPage :=
  {| detail_get := Return (); detail_scroll := Raise WebDriverException;
     images_picture := Return []; images_gallery := Return [];
     location_header := Raise NoSuchElementException;
     detail_elements := Return [];
     category_fallback := Raise NoSuchElementException;
     equipment_elements := Return [] |}.

(** A web where the second listing's page times out. *)
Definition web_second_times_out (url : str) : DetailPage :=
  if str_eqb url (py "https://www.avito.ma/2") then timeout_page
  else page_with (py "Rabat, Agdal") (py "Marque") (py "Dacia").

Definition env_second_times_out : Env :=
  {| web := web_second_times_out; http := demo_http;
     makedirs_fault := fun _ => None; open_fault := fun _ => None;
     write_fault := fun _ _ => None |}.

(** Two rows of the intermediate CSV. *)
Definition basic_row (id title url folder : str) : list str :=
  [id; title; py "95 000 DH"; py "2026-11-03 09:54:07"; py "2019";
   py "Diesel"; py "Manuelle"; py "Particulier"; url; folder].

Definition two_basic_rows : list (list str) :=
  [basic_row (py "1") (py "Dacia Logan") (py "https://www.avito.ma/1")
     (py "1_Dacia_Logan");
   basic_row (py "2") (py "Renault Clio") (py "https://www.avito.ma/2")
     (py "2_Renault_Clio")].

(** Page 1 with one card. *)
Definition one_card_page : ListingsPage :=
  page_of [card (py "Dacia Logan") (py "il y a 5 minutes")].

(** The rows of the run over [demo_site], pages 1 to 2. *)
Definition demo_rows : list (list cell) :=
  match AvitoInitial.scrape_avito ascii_ucd demo_site 1 2 with
  | Return data => data
  | Raise _ => []
  end.


(** ** Further definitions: invariants and vocabulary of the further
       properties *)

(** The characters a folder name is made of: word characters and the
    hyphen, and no white space. *)
Definition folder_char (U : UCD) (c : N) : Prop :=
  is_space c = false /\ (is_word U c = true \/ c = 45%N).

(** The rows of a discovery run are keyed by folder: the row at position
    [i] has ten cells, a title in cell 1 and, in cell 9, the folder name of
    that title and of the ordinal [i + 1]. *)
Definition folder_keyed (U : UCD) (data : list (list cell)) : Prop :=
  forall (i : nat) (row : list cell),
    data !! i = Some row ->
    length row = 10%nat
    /\ exists title,
        row !! 1%nat = Some (CStr title)
        /\ row !! 9%nat
           = Some (CStr (create_folder_name U title (Z.of_nat i + 1))).

(** The two shapes of a rendered date: year, month and day of the calendar,
    the year written as it is and month and day with two digits; and such
    a date followed by hour, minute and second with two digits each. *)
Definition date_text (s : str) : Prop :=
  exists y m d : Z,
    1 <= y <= 9999 /\ 1 <= m <= 12 /\ 1 <= d <= 31
    /\ s = str_of_int y ++ 45%N :: two_digits m ++ 45%N :: two_digits d.

Definition stamp_text (s : str) : Prop :=
  exists (date : str) (hour minute second : Z),
    date_text date
    /\ 0 <= hour < 24 /\ 0 <= minute < 60 /\ 0 <= second < 60
    /\ s = date ++ 32%N :: two_digits hour ++ 58%N :: two_digits minute
            ++ 58%N :: two_digits second.

(** A results page that gives no listing: the wait for the container times
    out, or the scroll or the lookup of the cards raises, or no card is
    found. *)
Definition page_gives_nothing (page : ListingsPage) : Prop :=
  (exists e, page_wait page = Raise e)
  \/ (exists e, (_ ← page_scroll page; page_listings page) = Raise e)
  \/ (_ ← page_scroll page; page_listings page) = Return [].

(** ** [get_page_range] (avito_initial.py 218-236, avito_main.py 311-329) *)

Section PageRange.
(** [int(s)] on a line read by [input]: the integer it reads as, [None]
    for [ValueError]. *)
Variable int_of_line : str -> option Z.

(** The lines still to come on the standard input; [None] when the input
    ends before a range is accepted (the [EOFError] of [input] is not
    caught and leaves the function).  A turn of the [while True] reads one
    line when the first does not parse, and two otherwise. *)
Fixpoint get_page_range (stdin : list str) : option (Z * Z) :=
  match stdin with
  | [] => None
  | line1 :: rest =>
      match int_of_line line1 with
      | None => get_page_range rest
      | Some start_page =>
          match rest with
          | [] => None
          | line2 :: rest' =>
              match int_of_line line2 with
              | None => get_page_range rest'
              | Some end_page =>
                  if (start_page <=? 0) || (end_page <=? 0)
                  then get_page_range rest'
                  else if start_page >? end_page then get_page_range rest'
                  else Some (start_page, end_page)
              end
          end
      end
  end.
End PageRange.

(** [int(s)] on any string: blanks around, a sign, then decimal digits,
    with single underscores between digits allowed; [ValueError] ([None])
    for anything else and for more digits than the limit. *)
Fixpoint numeral_digits (U : UCD) (s : str) (after_digit : bool)
  : option str :=
  match s with
  | [] => if after_digit then Some [] else None
  | c :: s' =>
      if (c =? 95)%N then
        if after_digit then numeral_digits U s' false else None
      else if is_digit U c then cons c <$> numeral_digits U s' true
      else None
  end.

Definition int_of_numeral (U : UCD) (s : str) : option Z :=
  let body := strip s in
  let '(negative, numeral) :=
    match body with
    | 45%N :: numeral => (true, numeral)
    | 43%N :: numeral => (false, numeral)
    | _ => (false, body)
    end in
  ds ← numeral_digits U numeral false;
  match py_int U ds with
  | Return v => Some (if negative then - v else v)
  | Raise _ => None
  end.

(** ** The files of a page range (avito_initial.py 255-256,
       avito_main.py 340-351) *)

Definition data_folder : str :=
  os_path_join (os_path_join (py "..") (py "data")) (py "avito").

(** [f"avito_listings_{file_suffix}.csv"] of the discovery phase. *)
Definition file_suffix (start_page end_page : Z) : str :=
  py "p" ++ str_of_int start_page ++ py "-p" ++ str_of_int end_page.

Definition listings_filename (start_page end_page : Z) : str :=
  py "avito_listings_" ++ file_suffix start_page end_page ++ py ".csv".

(** The two names of the detail phase. *)
Definition input_filename (start_page end_page : Z) : str :=
  py "avito_listings_p" ++ str_of_int start_page ++ py "-p"
  ++ str_of_int end_page ++ py ".csv".

Definition output_filename (start_page end_page : Z) : str :=
  py "avito_details_p" ++ str_of_int start_page ++ py "-p"
  ++ str_of_int end_page ++ py ".csv".

(** ** [send_to_kafka] (avito_scraper.py 45-64) *)

(** [dict(zip(headers, data))]: pairs up to the end of the shorter list; a
    key that comes again keeps the later value. *)
Definition dict_zip (headers : list str) (data : list cell) : gmap str cell :=
  fold_left (fun car_dict kv => <[kv.1 := kv.2]> car_dict) (zip headers data) ∅.

(** A producer, by what [producer.send(topic, value=...).get(timeout=10)]
    yields. *)
Record Producer : Type := {
  send_and_get : str -> gmap str cell -> outcome unit
}.

(** [producer] is [None] when there is no producer. *)
Definition send_to_kafka (producer : option Producer) (topic : str)
    (data : list cell) (headers : list str) : bool :=
  match producer with
  | None => false
  | Some p =>
      match send_and_get p topic (dict_zip headers data) with
      | Return _ => true
      | Raise _ => false
      end
  end.

(** ** More concrete inputs *)

(** A site whose second page cannot be reached. *)
Definition site_page_two_down (page : Z) : ListingsPage :=
  if page =? 2 then
    {| page_get := Raise WebDriverException; page_wait := Return ();
       page_scroll := Return (); page_listings := Return [] |}
  else demo_site page.

(** A site whose first page loads and shows no card in time. *)
Definition site_page_one_blank (page : Z) : ListingsPage :=
  if page =? 1 then
    {| page_get := Return (); page_wait := Raise TimeoutException;
       page_scroll := Return (); page_listings := Return [] |}
  else demo_site page.

(** Three images of one listing: the second host does not answer. *)
Definition three_images : list ImgElement :=
  [img (py "http://img/1"); img (py "http://img/2"); img (py "http://img/3")].

Definition demo_listing_folder : str :=
  os_path_join images_base_folder (py "1_Dacia_Logan").

(** A detail page with three value-only leaves, the second gone stale. *)
Definition stale_equipment_page : DetailPage :=
  {| detail_get := Return (); detail_scroll := Return ();
     images_picture := Return []; images_gallery := Return [];
     location_header := Return (py "Rabat, Agdal");
     detail_elements := Return [];
     category_fallback := Raise NoSuchElementException;
     equipment_elements :=
       Return [{| parent_text := Return (py "ABS"); equipment := Return (py "ABS") |};
               {| parent_text := Raise StaleElementReferenceException;
                  equipment := Return (py "Airbags") |};
               {| parent_text := Return (py "CD"); equipment := Return (py "CD") |}] |}.

(** A web where every listing has the same good detail page. *)
Definition env_all_good : Env :=
  env_of (page_with (py "Rabat, Agdal") (py "Marque") (py "Dacia")).

(** A producer whose broker acknowledges everything, and a row one cell
    longer than the header. *)
Definition acking_producer : Producer :=
  {| send_and_get := fun _ _ => Return () |}.

Definition two_keys : list str := [py "ID"; py "Titre"].
Definition three_cells : list cell := [CInt 1; CStr (py "Dacia Logan"); CStr (py "x")].

(** * Properties *)

(** ** Strings and decimal numerals *)

Lemma startswith_app (p s : str) : startswith p (p ++ s) = true.
Proof.
  induction p as [|c p IH]; simpl; [done|].
  by rewrite N.eqb_refl.
Qed.

Lemma str_in_unfold (needle hay : str) :
  str_in needle hay
  = startswith needle hay
    || match hay with [] => false | _ :: hay' => str_in needle hay' end.
Proof. by destruct hay. Qed.

Lemma str_in_app (needle pre post : str) :
  str_in needle (pre ++ needle ++ post) = true.
Proof.
  induction pre as [|c pre IH]; simpl.
  - rewrite str_in_unfold, startswith_app. done.
  - rewrite IH. apply orb_true_r.
Qed.

Lemma uint_chars_digit (d : Decimal.uint) :
  Forall (fun c => is_ascii_digit c = true) (uint_chars d).
Proof. induction d; simpl; constructor; done. Qed.

Lemma uint_chars_inj (d d' : Decimal.uint) :
  uint_chars d = uint_chars d' -> d = d'.
Proof.
  revert d'; induction d; intros []; simpl; intros H;
    try discriminate; try done;
    injection H as H; f_equal; auto.
Qed.

Lemma uint_chars_zero (d : Decimal.uint) :
  uint_chars d = [48%N] -> d = Decimal.D0 Decimal.Nil.
Proof.
  intros H. apply uint_chars_inj. done.
Qed.

Lemma str_of_int_inj (i j : Z) : str_of_int i = str_of_int j -> i = j.
Proof.
  pose proof (fun p => uint_chars_digit (Pos.to_uint p)) as Hd.
  destruct i as [|p|p], j as [|q|q]; simpl; intros H; try done.
  - symmetry in H. by apply uint_chars_zero, Unsigned.to_uint_nonzero in H.
  - by apply uint_chars_zero, Unsigned.to_uint_nonzero in H.
  - f_equal. by apply Unsigned.to_uint_inj, uint_chars_inj.
  - exfalso. specialize (Hd p). rewrite H in Hd. by inversion Hd.
  - exfalso. specialize (Hd q). rewrite <- H in Hd. by inversion Hd.
  - injection H as H. f_equal. by apply Unsigned.to_uint_inj, uint_chars_inj.
Qed.

(** The numeral of an [int] has no underscore. *)
Lemma str_of_int_no_underscore (i : Z) : 95%N ∉ str_of_int i.
Proof.
  assert (Hd : forall p, 95%N ∉ uint_chars (Pos.to_uint p)).
  { intros p Hin. pose proof (uint_chars_digit (Pos.to_uint p)) as HF.
    rewrite Forall_forall in HF. by apply HF in Hin. }
  destruct i as [|p|p]; simpl.
  - by intros ?%list_elem_of_singleton.
  - apply Hd.
  - intros [?|?]%elem_of_cons; [done|]. by eapply Hd.
Qed.

(** Two strings split at their first underscore agree on both sides. *)
Lemma str_of_int_nonneg_no_hyphen (z : Z) : 0 <= z -> 45%N ∉ str_of_int z.
Proof.
  intros Hz Hin. destruct z as [|p|p]; [| |lia].
  - cbn in Hin. by apply list_elem_of_singleton in Hin.
  - pose proof (uint_chars_digit (Pos.to_uint p)) as HF.
    rewrite Forall_forall in HF. by apply HF in Hin.
Qed.

Lemma split_at_first (c : N) (s1 s2 t1 t2 : str) :
  c ∉ s1 -> c ∉ s2 -> s1 ++ c :: t1 = s2 ++ c :: t2 -> s1 = s2 /\ t1 = t2.
Proof.
  revert s2; induction s1 as [|a s1 IH]; intros [|b s2] H1 H2 Heq;
    simpl in Heq.
  - by injection Heq.
  - injection Heq as -> _. exfalso. apply H2. by left.
  - injection Heq as -> _. exfalso. apply H1. by left.
  - injection Heq as -> Heq.
    destruct (IH s2) as [-> ->]; try done.
    + intros ?; apply H1; by right.
    + intros ?; apply H2; by right.
Qed.

(** ** C6: folder identity *)

Example create_folder_name_yaris :
  create_folder_name ascii_ucd (py "Toyota Yaris 2020!!") 7
  = py "7_Toyota_Yaris_2020".
Proof. reflexivity. Qed.

(** The folder name determines the ordinal and the sanitized title. *)
Lemma create_folder_name_inv (U : UCD) (t1 t2 : str) (i1 i2 : Z) :
  create_folder_name U t1 i1 = create_folder_name U t2 i2 -> i1 = i2.
Proof.
  unfold create_folder_name. intros H.
  apply split_at_first in H as [H _]; auto using str_of_int_no_underscore.
  by apply str_of_int_inj.
Qed.

(** C6. [create_folder_name] is injective in the ordinal: two calls with
    different ordinals give different folder names, whatever the two titles
    are (equal, or equal after sanitization and truncation to 50 code
    points), since the title part is cut before ["<ordinal>_"] is put in
    front.  It holds for every pair of integers, so for positive ordinals. *)
Theorem C6_folder_name_injective_in_ordinal
    (U : UCD) (title1 title2 : str) (ordinal1 ordinal2 : Z) :
  0 < ordinal1 -> 0 < ordinal2 -> ordinal1 <> ordinal2 ->
  create_folder_name U title1 ordinal1 <> create_folder_name U title2 ordinal2.
Proof.
  intros _ _ Hne Heq. by apply Hne, (create_folder_name_inv U title1 title2).
Qed.

Lemma C6_witness :
  create_folder_name ascii_ucd (py "Dacia Logan") 1
  <> create_folder_name ascii_ucd (py "Dacia Logan") 11.
Proof.
  apply C6_folder_name_injective_in_ordinal; lia.
Defined.

(** ** C5 and C4: the relative-date normalizer *)

Section RelativeDateProps.
Variable U : UCD.

Lemma search_digits_none (s : str) :
  search_digits U s = None <-> Forall (fun c => is_digit U c = false) s.
Proof.
  induction s as [|c s IH]; simpl.
  - split; [constructor|done].
  - destruct (is_digit U c) eqn:Hc.
    + split; [done|]. intros H; inversion H; congruence.
    + rewrite IH. split; [by constructor|]. by inversion 1.
Qed.

(** The run found is the leftmost maximal one. *)
Lemma search_digits_first_run (pre run post : str) :
  Forall (fun c => is_digit U c = false) pre ->
  Forall (fun c => is_digit U c = true) run ->
  run <> [] ->
  match post with [] => True | c :: _ => is_digit U c = false end ->
  search_digits U (pre ++ run ++ post) = Some run.
Proof.
  intros Hpre Hrun Hne Hpost.
  induction Hpre as [|c pre Hc _ IH]; simpl.
  - destruct Hrun as [|d run Hd Hrun]; [done|]. simpl. rewrite Hd.
    do 2 f_equal. clear Hne Hd.
    induction Hrun as [|d' run Hd' _ IH]; simpl.
    + destruct post; [done|]. simpl. by rewrite Hpost.
    + by rewrite Hd', IH.
  - by rewrite Hc.
Qed.

Lemma int_of_digits_nonneg (ds : str) : 0 <= int_of_digits U ds.
Proof.
  unfold int_of_digits.
  assert (H : forall acc, 0 <= acc ->
    0 <= fold_left
           (fun acc c => 10 * acc + Z.of_N (default 0%N (digit_value U c)))
           ds acc); [|by apply H].
  induction ds as [|c ds IH]; simpl; intros acc Hacc; [done|].
  apply IH. lia.
Qed.

Lemma py_int_short (ds : str) :
  Z.of_nat (length ds) <= int_max_str_digits ->
  py_int U ds = Return (int_of_digits U ds).
Proof.
  unfold py_int. intros H.
  by destruct (Z.ltb_spec int_max_str_digits (Z.of_nat (length ds))); [lia|].
Qed.

Lemma py_int_long (ds : str) :
  int_max_str_digits < Z.of_nat (length ds) -> py_int U ds = Raise ValueError.
Proof.
  unfold py_int. intros H.
  by destruct (Z.ltb_spec int_max_str_digits (Z.of_nat (length ds))); [|lia].
Qed.

(** C5 (amended). An "instants" phrase gives the current wall-clock time,
    whatever digits it holds, since the test comes before any number is
    read.  Any other phrase gives the "unknown" sentinel when it holds no
    digit.  When it holds a digit, its first run of digits is converted
    before any keyword is looked for: with more digits than [int] converts
    the normalizer raises [ValueError], keyword or not; with a run within
    the limit and none of the unit keywords it gives the sentinel. *)
Theorem C5_unknown_sentinel_and_instants (now : datetime) (phrase : str) :
  (instants_phrase U phrase = true ->
     convert_relative_date U now phrase = Return (strftime_YmdHMS now)) /\
  (instants_phrase U phrase = false ->
     Forall (fun c => is_digit U c = false) phrase ->
     convert_relative_date U now phrase = Return unknown_date) /\
  (instants_phrase U phrase = false ->
     Exists (fun c => is_digit U c = true) phrase ->
     exists run,
       search_digits U phrase = Some run
       /\ (Z.of_nat (length run) <= int_max_str_digits ->
           Forall (fun k => str_in k phrase = false) unit_keywords ->
           convert_relative_date U now phrase = Return unknown_date)
       /\ (int_max_str_digits < Z.of_nat (length run) ->
           convert_relative_date U now phrase = Raise ValueError)).
Proof.
  unfold instants_phrase, convert_relative_date.
  split; [|split].
  - by intros ->.
  - intros -> Hnd. apply search_digits_none in Hnd. by rewrite Hnd.
  - intros -> Hd.
    destruct (search_digits U phrase) as [run|] eqn:Hrun.
    + exists run. split; [done|]. split.
      * intros Hlen Hk. rewrite py_int_short by done. simpl.
        unfold unit_keywords in Hk. rewrite !Forall_cons in Hk.
        destruct Hk as (Hminute & Hheure & Hjour & Hmois & Han & _).
        by rewrite Hminute, Hheure, Hjour, Hmois, Han.
      * intros Hlen. by rewrite py_int_long.
    + exfalso. apply search_digits_none in Hrun.
      apply Exists_exists in Hd as (c & Hin & Hc).
      rewrite Forall_forall in Hrun. apply Hrun in Hin. congruence.
Qed.
End RelativeDateProps.

Lemma C5_witness :
  convert_relative_date ascii_ucd capture_2026 (py "Il y a QUELQUES instants")
    = Return (py "2026-11-03 09:59:07")
  /\ convert_relative_date ascii_ucd capture_2026 (py "N/A")
    = Return (py "Date inconnue")
  /\ exists run,
       search_digits ascii_ucd (py "il y a 3 semaines") = Some run
       /\ (Z.of_nat (length run) <= int_max_str_digits ->
           Forall (fun k => str_in k (py "il y a 3 semaines") = false)
             unit_keywords ->
           convert_relative_date ascii_ucd capture_2026
             (py "il y a 3 semaines") = Return unknown_date)
       /\ (int_max_str_digits < Z.of_nat (length run) ->
           convert_relative_date ascii_ucd capture_2026
             (py "il y a 3 semaines") = Raise ValueError).
Proof.
  destruct (C5_unknown_sentinel_and_instants ascii_ucd capture_2026
              (py "Il y a QUELQUES instants")) as [H1 _].
  destruct (C5_unknown_sentinel_and_instants ascii_ucd capture_2026
              (py "N/A")) as [_ [H2 _]].
  destruct (C5_unknown_sentinel_and_instants ascii_ucd capture_2026
              (py "il y a 3 semaines")) as [_ [_ H3]].
  split; [|split].
  - rewrite H1; reflexivity.
  - apply H2; [reflexivity|]. repeat constructor.
  - apply H3; [reflexivity|].
    do 7 apply Exists_cons_tl. apply Exists_cons_hd. reflexivity.
Defined.

Example three_weeks_ago :
  convert_relative_date ascii_ucd capture_2026 (py "il y a 3 semaines")
  = Return (py "Date inconnue").
Proof. vm_compute. reflexivity. Qed.

(** The claim as stated fails: a phrase that is not an "instants" phrase,
    holds digits and none of the unit keywords does not give the sentinel
    when its run of digits is longer than [int] converts; the normalizer
    raises. *)
Lemma C5_counterexample :
  instants_phrase ascii_ucd phrase_long_reference = false
  /\ Exists (fun c => is_digit ascii_ucd c = true) phrase_long_reference
  /\ Forall (fun k => str_in k phrase_long_reference = false) unit_keywords
  /\ convert_relative_date ascii_ucd capture_2026 phrase_long_reference
     = Raise ValueError.
Proof.
  split; [vm_compute; reflexivity|]. split.
  - unfold phrase_long_reference.
    do 4 apply Exists_cons_tl. apply Exists_cons_hd. reflexivity.
  - split; [|vm_compute; reflexivity].
    unfold unit_keywords.
    repeat (constructor; [vm_compute; reflexivity|]). constructor.
Qed.

(** *** Arithmetic of the time line *)

Ltac time_constants :=
  unfold valid_datetime, MAXORDINAL, us_per_day, us_per_second in *.

Lemma toordinal_truncate (t : datetime) :
  toordinal (truncate_to_second t) = toordinal t.
Proof.
  unfold toordinal, truncate_to_second, us_per_day, us_per_second.
  f_equal. Z.div_mod_to_equations. lia.
Qed.

Lemma second_of_day_truncate (t : datetime) :
  (truncate_to_second t mod us_per_day) / us_per_second
  = (t mod us_per_day) / us_per_second.
Proof.
  unfold truncate_to_second, us_per_day, us_per_second.
  Z.div_mod_to_equations. lia.
Qed.

(** [strftime] with second precision does not see the microseconds. *)
Lemma strftime_YmdHMS_truncate (t : datetime) :
  strftime_YmdHMS (truncate_to_second t) = strftime_YmdHMS t.
Proof.
  unfold strftime_YmdHMS, strftime_Ymd.
  by rewrite toordinal_truncate, second_of_day_truncate.
Qed.

Lemma truncate_shift (t k : Z) :
  truncate_to_second (t - k * us_per_second) + k * us_per_second
  = truncate_to_second t.
Proof.
  unfold truncate_to_second, us_per_second.
  Z.div_mod_to_equations. lia.
Qed.

Lemma datetime_add_valid (t : datetime) (d : timedelta) :
  valid_datetime (t + d) -> datetime_add t d = Return (t + d).
Proof.
  unfold valid_datetime, datetime_add, toordinal, MAXORDINAL, us_per_day,
    us_per_second.
  intros H.
  assert (H1 : (0 <? (t + d) / (86400 * 1000000) + 1) = true).
  { apply Z.ltb_lt. Z.div_mod_to_equations. lia. }
  assert (H2 : ((t + d) / (86400 * 1000000) + 1 <=? 3652059) = true).
  { apply Z.leb_le. Z.div_mod_to_equations. lia. }
  by rewrite H1, H2.
Qed.

Lemma make_timedelta_small (us : Z) :
  Z.abs us < MAXORDINAL * us_per_day -> make_timedelta us = Return us.
Proof.
  unfold make_timedelta, MAXORDINAL, us_per_day, us_per_second. intros H.
  assert (H1 : (Z.abs (us / (86400 * 1000000)) <=? 999999999) = true).
  { apply Z.leb_le. Z.div_mod_to_equations. lia. }
  by rewrite H1.
Qed.

Lemma truncate_valid (t : datetime) :
  valid_datetime t -> valid_datetime (truncate_to_second t).
Proof.
  unfold valid_datetime, truncate_to_second, MAXORDINAL, us_per_day,
    us_per_second.
  intros H. Z.div_mod_to_equations. lia.
Qed.

(** *** The calendar: [_ymd2ord] undoes [_ord2ymd] *)

Lemma month_day_checked (leapyear : bool) :
  forallb (month_day_check leapyear) (List.map Z.of_nat (seq 0 365)) = true.
Proof. destruct leapyear; vm_compute; reflexivity. Qed.

Lemma month_day_ok (leapyear : bool) (n : Z) :
  0 <= n < 365 ->
  1 <= (month_day leapyear n).1 <= 12
  /\ 1 <= (month_day leapyear n).2 <= 31
  /\ DAYS_BEFORE_MONTH (month_day leapyear n).1
     + Z_of_bool ((2 <? (month_day leapyear n).1) && leapyear)
     + (month_day leapyear n).2 = n + 1.
Proof.
  intros Hn. pose proof (month_day_checked leapyear) as H.
  rewrite forallb_forall in H.
  specialize (H n). unfold month_day_check in H.
  destruct (month_day leapyear n) as [m d]. simpl.
  assert (Hin : In n (List.map Z.of_nat (seq 0 365))).
  { apply in_map_iff. exists (Z.to_nat n). split; [lia|].
    apply in_seq. lia. }
  apply H in Hin. lia.
Qed.

(** On the ordinals of [datetime] the conversion to a date has
    [_ymd2ord] as its way back, and gives a date of the calendar. *)
Lemma ord2ymd_inverse (n : Z) :
  1 <= n <= MAXORDINAL ->
  let '(y, m, d) := ord2ymd n in
  ymd2ord y m d = n /\ 1 <= y <= 9999 /\ 1 <= m <= 12 /\ 1 <= d <= 31.
Proof.
  intros Hn. unfold ord2ymd, MAXORDINAL, DI400Y, DI100Y, DI4Y in *.
  set (a := n - 1).
  set (n400 := a / 146097). set (r1 := a mod 146097).
  set (n100 := r1 / 36524). set (r2 := r1 mod 36524).
  set (n4 := r2 / 1461). set (r3 := r2 mod 1461).
  set (n1 := r3 / 365). set (r4 := r3 mod 365).
  assert (Ha : 0 <= a < 3652059) by lia.
  assert (H400 : a = 146097 * n400 + r1 /\ 0 <= r1 < 146097)
    by (subst n400 r1; split; [apply Z.div_mod; lia | apply Z.mod_pos_bound; lia]).
  assert (H100 : r1 = 36524 * n100 + r2 /\ 0 <= r2 < 36524)
    by (subst n100 r2; split; [apply Z.div_mod; lia | apply Z.mod_pos_bound; lia]).
  assert (H4 : r2 = 1461 * n4 + r3 /\ 0 <= r3 < 1461)
    by (subst n4 r3; split; [apply Z.div_mod; lia | apply Z.mod_pos_bound; lia]).
  assert (H1 : r3 = 365 * n1 + r4 /\ 0 <= r4 < 365)
    by (subst n1 r4; split; [apply Z.div_mod; lia | apply Z.mod_pos_bound; lia]).
  clearbody n400 r1 n100 r2 n4 r3 n1 r4.
  assert (0 <= n400 <= 24 /\ 0 <= n100 <= 4 /\ 0 <= n4 <= 24 /\ 0 <= n1 <= 4)
    as (B400 & B100 & B4 & B1) by lia.
  destruct ((n1 =? 4) || (n100 =? 4)) eqn:Hspecial.
  - unfold ymd2ord, days_before_year, days_before_month, is_leap.
    change (DAYS_BEFORE_MONTH 12) with 334. change (2 <? 12) with true.
    cbn [andb].
    split; [|lia].
    set (Y := n400 * 400 + 1 + n100 * 100 + n4 * 4 + n1 - 1).
    assert (HY : Y mod 4 = 0 /\ (Y mod 100 <> 0 \/ Y mod 400 = 0)).
    { apply orb_true_iff in Hspecial as [H|H]; apply Z.eqb_eq in H;
        subst Y; Z.div_mod_to_equations; lia. }
    destruct HY as [HY4 HY100].
    assert (Hleap : (Y mod 4 =? 0) && (negb (Y mod 100 =? 0) || (Y mod 400 =? 0))
                    = true).
    { apply andb_true_iff. split; [by apply Z.eqb_eq|].
      apply orb_true_iff. destruct HY100 as [HY100|HY100].
      - left. apply negb_true_iff. by apply Z.eqb_neq.
      - right. by apply Z.eqb_eq. }
    rewrite Hleap. cbn [Z_of_bool].
    apply orb_true_iff in Hspecial as [H|H]; apply Z.eqb_eq in H;
      subst Y; Z.div_mod_to_equations; lia.
  - apply orb_false_iff in Hspecial as [Hn1 Hn100].
    apply Z.eqb_neq in Hn1, Hn100.
    set (leapyear := (n1 =? 3) && (negb (n4 =? 24) || (n100 =? 3))).
    pose proof (month_day_ok leapyear r4 (proj2 H1)) as (Hm & Hd & Hmd).
    destruct (month_day leapyear r4) as [m d]. cbn [fst snd] in *.
    split; [|lia].
    unfold ymd2ord, days_before_year, days_before_month.
    set (Y := n400 * 400 + 1 + n100 * 100 + n4 * 4 + n1).
    assert (Hleap : is_leap Y = leapyear).
    { unfold is_leap, leapyear.
      destruct (Z.eqb_spec n1 3) as [E1|E1], (Z.eqb_spec n4 24) as [E4|E4],
               (Z.eqb_spec n100 3) as [E100|E100]; cbn [andb orb negb];
        repeat match goal with
               | |- context [?x =? 0] => destruct (Z.eqb_spec x 0)
               end; cbn [andb orb negb]; try reflexivity; exfalso;
        subst Y; Z.div_mod_to_equations; lia. }
    rewrite Hleap.
    replace (Y - 1) with (400 * n400 + 100 * n100 + 4 * n4 + n1) by (subst Y; lia).
    Z.div_mod_to_equations. lia.
Qed.

(** *** The rendering is one-to-one *)

Lemma digit_char_inj (a b : Z) :
  digit_char a = digit_char b -> a mod 10 = b mod 10.
Proof.
  unfold digit_char. intros H. apply Z2N.inj in H;
    Z.div_mod_to_equations; lia.
Qed.

Lemma two_digits_inj (a b : Z) :
  0 <= a < 100 -> 0 <= b < 100 -> two_digits a = two_digits b -> a = b.
Proof.
  unfold two_digits. intros Ha Hb [= H1 H0].
  apply digit_char_inj in H1, H0. Z.div_mod_to_equations. lia.
Qed.

(** The year field ends at the first hyphen. *)
Lemma year_digits_inj (y1 y2 : Z) (rest1 rest2 : str) :
  0 <= y1 -> 0 <= y2 ->
  year_digits y1 ++ 45%N :: rest1 = year_digits y2 ++ 45%N :: rest2 ->
  y1 = y2 /\ rest1 = rest2.
Proof.
  unfold year_digits. intros H1 H2 H.
  apply split_at_first in H as [Hy Hr];
    [|by apply str_of_int_nonneg_no_hyphen..].
  split; [by apply str_of_int_inj|done].
Qed.

Lemma toordinal_valid (t : datetime) :
  valid_datetime t -> 1 <= toordinal t <= MAXORDINAL.
Proof.
  unfold valid_datetime, toordinal, MAXORDINAL, us_per_day, us_per_second.
  intros H. Z.div_mod_to_equations. lia.
Qed.

Lemma second_of_day_range (t : datetime) :
  0 <= t mod us_per_day / us_per_second < 86400.
Proof.
  unfold us_per_day, us_per_second. Z.div_mod_to_equations. lia.
Qed.

(** The rendering with second precision determines the time stamp. *)
Lemma strftime_YmdHMS_inj (t1 t2 : datetime) :
  valid_datetime t1 -> valid_datetime t2 ->
  t1 mod us_per_second = 0 -> t2 mod us_per_second = 0 ->
  strftime_YmdHMS t1 = strftime_YmdHMS t2 -> t1 = t2.
Proof.
  intros Hv1 Hv2 Hs1 Hs2.
  pose proof (ord2ymd_inverse _ (toordinal_valid t1 Hv1)) as Ho1.
  pose proof (ord2ymd_inverse _ (toordinal_valid t2 Hv2)) as Ho2.
  unfold strftime_YmdHMS, strftime_Ymd.
  destruct (ord2ymd (toordinal t1)) as [[y1 m1] d1].
  destruct (ord2ymd (toordinal t2)) as [[y2 m2] d2].
  destruct Ho1 as (Ho1 & Hy1 & Hm1 & Hd1), Ho2 as (Ho2 & Hy2 & Hm2 & Hd2).
  set (s1 := t1 mod us_per_day / us_per_second).
  set (s2 := t2 mod us_per_day / us_per_second).
  intros H.
  assert (Hfields :
    y1 = y2 /\ two_digits m1 = two_digits m2
    /\ two_digits d1 = two_digits d2
    /\ two_digits (s1 / 3600) = two_digits (s2 / 3600)
    /\ two_digits (s1 mod 3600 / 60) = two_digits (s2 mod 3600 / 60)
    /\ two_digits (s1 mod 60) = two_digits (s2 mod 60)).
  { rewrite <- !app_assoc in H. cbn [app] in H.
    apply year_digits_inj in H as [Hy H]; [|lia..].
    unfold two_digits in *. cbn [app] in H.
    injection H as -> -> -> -> -> -> -> -> -> ->. done. }
  clear H. destruct Hfields as (Fy & Fm & Fd & FH & FM & FS).
  pose proof (second_of_day_range t1) as Hs1'. fold s1 in Hs1'.
  pose proof (second_of_day_range t2) as Hs2'. fold s2 in Hs2'.
  apply two_digits_inj in Fm; [|lia..].
  apply two_digits_inj in Fd; [|lia..].
  apply two_digits_inj in FH; [|Z.div_mod_to_equations; lia..].
  apply two_digits_inj in FM; [|Z.div_mod_to_equations; lia..].
  apply two_digits_inj in FS; [|Z.div_mod_to_equations; lia..].
  assert (Hord : toordinal t1 = toordinal t2) by congruence.
  assert (Hsec : s1 = s2) by (Z.div_mod_to_equations; lia).
  clear - Hord Hsec Hs1 Hs2. subst s1 s2.
  unfold toordinal, us_per_day, us_per_second in *.
  Z.div_mod_to_equations. lia.
Qed.

(** C4 (amended). For a phrase of the "N minutes ago" form (it has the
    keyword [minute], N is the value of its first run of digits, it is not
    an "instants" phrase), a run of digits no longer than [int] converts,
    and a capture time from which N minutes do not reach back before
    [datetime.min], the normalizer returns the rendering, with second
    precision, of a time stamp [t] of whole seconds, the only one with that
    rendering, such that [t + timedelta(minutes=N)] is the capture time cut
    to the second. *)
Theorem C4_minutes_ago_roundtrip
    (U : UCD) (now : datetime) (phrase run : str) (N : Z) :
  valid_datetime now ->
  instants_phrase U phrase = false ->
  str_in (py "minute") phrase = true ->
  search_digits U phrase = Some run ->
  Z.of_nat (length run) <= int_max_str_digits ->
  int_of_digits U run = N ->
  N * 60 * us_per_second <= now ->
  exists t : datetime,
    convert_relative_date U now phrase = Return (strftime_YmdHMS t)
    /\ valid_datetime t /\ t mod us_per_second = 0
    /\ (forall t' : datetime,
         valid_datetime t' -> t' mod us_per_second = 0 ->
         strftime_YmdHMS t' = strftime_YmdHMS t -> t' = t)
    /\ (delta ← timedelta_minutes N; datetime_add t delta)
       = Return (truncate_to_second now).
Proof.
  intros Hnow Hinst Hmin Hrun Hlen HN Hrange.
  pose proof (int_of_digits_nonneg U run) as HN0. rewrite HN in HN0.
  assert (Hdelta : timedelta_minutes N = Return (N * 60 * us_per_second)).
  { apply make_timedelta_small. time_constants. lia. }
  assert (Hvalid : valid_datetime (now - N * 60 * us_per_second)).
  { time_constants. lia. }
  exists (truncate_to_second (now - (N * 60) * us_per_second)).
  assert (Hwhole : truncate_to_second (now - N * 60 * us_per_second)
                   mod us_per_second = 0).
  { unfold truncate_to_second, us_per_second. Z.div_mod_to_equations. lia. }
  split; [|split; [|split; [|split]]].
  - unfold convert_relative_date. unfold instants_phrase in Hinst.
    rewrite Hinst, Hrun, py_int_short, HN by done. simpl.
    rewrite Hmin, Hdelta. simpl.
    unfold datetime_sub. rewrite datetime_add_valid.
    + simpl. rewrite strftime_YmdHMS_truncate. repeat f_equal; lia.
    + by replace (now + - (N * 60 * us_per_second))
        with (now - N * 60 * us_per_second) by lia.
  - by apply truncate_valid.
  - done.
  - intros t' Hv' Hw' Heq.
    apply strftime_YmdHMS_inj; try done. by apply truncate_valid.
  - rewrite Hdelta. simpl.
    replace (N * 60 * us_per_second) with ((N * 60) * us_per_second) by lia.
    rewrite datetime_add_valid; rewrite truncate_shift;
      [done | by apply truncate_valid].
Qed.

Lemma C4_witness :
  exists t : datetime,
    convert_relative_date ascii_ucd capture_2026 (py "il y a 5 minutes")
    = Return (strftime_YmdHMS t)
    /\ valid_datetime t /\ t mod us_per_second = 0
    /\ (forall t' : datetime,
         valid_datetime t' -> t' mod us_per_second = 0 ->
         strftime_YmdHMS t' = strftime_YmdHMS t -> t' = t)
    /\ (delta ← timedelta_minutes 5; datetime_add t delta)
       = Return (truncate_to_second capture_2026).
Proof.
  apply (C4_minutes_ago_roundtrip ascii_ucd capture_2026
           (py "il y a 5 minutes") (py "5") 5).
  - unfold valid_datetime; vm_compute; split; [discriminate|reflexivity].
  - reflexivity.
  - reflexivity.
  - reflexivity.
  - vm_compute; discriminate.
  - reflexivity.
  - vm_compute; discriminate.
Defined.

Example five_minutes_ago :
  convert_relative_date ascii_ucd capture_2026 (py "il y a 5 minutes")
  = Return (py "2026-11-03 09:54:07").
Proof. vm_compute. reflexivity. Qed.

(** The claim without the bound on N fails: two billion minutes before the
    capture time there is no [datetime], and the subtraction raises.  And
    the claim without the bound on the digits fails: "5 minutes" written
    with 4301 digits is of the "N minutes ago" form, and [int] raises. *)
Lemma C4_counterexample :
  valid_datetime capture_2026
  /\ instants_phrase ascii_ucd phrase_two_billion_minutes = false
  /\ str_in (py "minute") phrase_two_billion_minutes = true
  /\ search_digits ascii_ucd phrase_two_billion_minutes
     = Some (py "2000000000")
  /\ int_of_digits ascii_ucd (py "2000000000") = 2000000000
  /\ convert_relative_date ascii_ucd capture_2026 phrase_two_billion_minutes
     = Raise OverflowError
  /\ instants_phrase ascii_ucd phrase_padded_five_minutes = false
  /\ str_in (py "minute") phrase_padded_five_minutes = true
  /\ search_digits ascii_ucd phrase_padded_five_minutes
     = Some (replicate 4300 48%N ++ py "5")
  /\ int_of_digits ascii_ucd (replicate 4300 48%N ++ py "5") = 5
  /\ convert_relative_date ascii_ucd capture_2026 phrase_padded_five_minutes
     = Raise ValueError.
Proof.
  repeat split; try (vm_compute; reflexivity); vm_compute; discriminate.
Qed.

(** Before the year 1000 the year is written without padding. *)
Example year_505_rendering :
  strftime_YmdHMS
    (((ymd2ord 505 10 12 - 1) * 86400 + 20 * 3600 + 39 * 60 + 7) * 1000000)
  = py "505-10-12 20:39:07"
  /\ strftime_Ymd 0 = py "1-01-01".
Proof. split; vm_compute; reflexivity. Qed.

(** ** C8: the ordinal counter of a discovery run *)

Lemma bind_Return {A B} (c : outcome A) (k : A -> outcome B) (b : B) :
  (x ← c; k x) = Return b -> exists a, c = Return a /\ k a = Return b.
Proof. destruct c as [a|e]; simpl; [eauto|done]. Qed.

Section DiscoveryProps.
Variable U : UCD.

(** A row that was built starts with the counter and has ten cells. *)
Lemma listing_row_shape (l : Listing) (c : Z) (row : list cell) :
  listing_row U l c = Return row ->
  row !! 0%nat = Some (CInt c) /\ length row = 10%nat.
Proof.
  unfold listing_row. intros H.
  repeat (apply bind_Return in H as (? & _ & H)).
  injection H as <-. done.
Qed.

Lemma numbered_snoc data counter row :
  numbered data counter -> row !! 0%nat = Some (CInt counter) ->
  numbered (data ++ [row]) (counter + 1).
Proof.
  intros [Hc Hrows] Hrow. split.
  - rewrite length_app. simpl. lia.
  - intros i r Hi. apply lookup_app_Some in Hi as [Hi|[Hge Hi]].
    + by apply Hrows.
    + apply list_lookup_singleton_Some in Hi as [Hi <-].
      rewrite Hrow, Hc. do 2 f_equal. lia.
Qed.

Lemma scrape_listings_numbered listings data counter :
  numbered data counter ->
  numbered (scrape_listings U listings data counter).1
           (scrape_listings U listings data counter).2.
Proof.
  revert data counter.
  induction listings as [|l rest IH]; intros data counter Hn; simpl; [done|].
  destruct (listing_row U l counter) as [row|e] eqn:Hrow.
  - apply IH, numbered_snoc; [done|].
    by apply listing_row_shape in Hrow as [? _].
  - by apply IH.
Qed.

Lemma scrape_pages_numbered site pages data counter data' counter' :
  numbered data counter ->
  AvitoInitial.scrape_pages U site pages data counter
    = Return (data', counter') ->
  numbered data' counter'.
Proof.
  revert data counter.
  induction pages as [|page rest IH]; intros data counter Hn; simpl.
  - by intros [= <- <-].
  - destruct (page_get (site page)); simpl; [|done].
    destruct (page_wait (site page)); [|by apply IH].
    destruct (page_scroll (site page)); simpl; [|by apply IH].
    destruct (page_listings (site page)) as [[|l ls]|]; try by apply IH.
    pose proof (scrape_listings_numbered (l :: ls) data counter Hn) as Hn'.
    destruct (scrape_listings U (l :: ls) data counter) as [d c].
    by apply IH.
Qed.

(** C8. In the rows a discovery run returns, the row at position [i]
    (from 0) carries the ordinal [i + 1]: the counter starts at 1, grows
    strictly along the rows and no ordinal is used twice.  The counter
    moves only when a row has been built: a listing whose extraction
    raises leaves the rows and the counter as they were and the loop goes
    on with the rest of the page; a listing whose row is built takes the
    current counter and the loop goes on with the next one. *)
Theorem C8_ordinal_counter (site : Z -> ListingsPage) (start_page end_page : Z)
    (data : list (list cell)) :
  AvitoInitial.scrape_avito U site start_page end_page = Return data ->
  (forall (i : nat) (row : list cell),
      data !! i = Some row -> row !! 0%nat = Some (CInt (Z.of_nat i + 1)))
  /\ (forall (i j : nat) (ri rj : list cell) (a b : Z),
      (i < j)%nat -> data !! i = Some ri -> data !! j = Some rj ->
      ri !! 0%nat = Some (CInt a) -> rj !! 0%nat = Some (CInt b) -> a < b)
  /\ (forall l rest rows counter e,
      listing_row U l counter = Raise e ->
      scrape_listings U (l :: rest) rows counter
      = scrape_listings U rest rows counter)
  /\ (forall l rest rows counter row,
      listing_row U l counter = Return row ->
      row !! 0%nat = Some (CInt counter)
      /\ scrape_listings U (l :: rest) rows counter
         = scrape_listings U rest (rows ++ [row]) (counter + 1)).
Proof.
  unfold AvitoInitial.scrape_avito. intros H.
  apply bind_Return in H as ([d c] & Hrun & [= <-]).
  apply scrape_pages_numbered in Hrun as [_ Hrows]; [|by split].
  split; [done|]. split; [|split].
  - intros i j ri rj a b Hij Hi Hj Ha Hb.
    apply Hrows in Hi, Hj. rewrite Hi in Ha. rewrite Hj in Hb.
    injection Ha as <-. injection Hb as <-. lia.
  - intros l rest rows counter e Hl. simpl. by rewrite Hl.
  - intros l rest rows counter row Hl. split.
    + by apply listing_row_shape in Hl as [? _].
    + simpl. by rewrite Hl.
Qed.
End DiscoveryProps.

Lemma C8_witness :
  AvitoInitial.scrape_avito ascii_ucd demo_site 1 2 = Return demo_rows
  /\ length demo_rows = 3%nat
  /\ forall (i : nat) (row : list cell),
      demo_rows !! i = Some row -> row !! 0%nat = Some (CInt (Z.of_nat i + 1)).
Proof.
  split; [vm_compute; reflexivity|]. split; [vm_compute; reflexivity|].
  apply (C8_ordinal_counter ascii_ucd demo_site 1 2 demo_rows).
  vm_compute; reflexivity.
Defined.

(** The run over [demo_site]: the stale card of page 1 is dropped and the
    three other cards get the ordinals 1, 2 and 3. *)
Example demo_site_run :
  List.map (fun row => (row !! 0%nat, row !! 1%nat, row !! 9%nat)) <$>
    AvitoInitial.scrape_avito ascii_ucd demo_site 1 2
  = Return
      [(Some (CInt 1), Some (CStr (py "Dacia Logan")),
        Some (CStr (py "1_Dacia_Logan")));
       (Some (CInt 2), Some (CStr (py "Renault Clio")),
        Some (CStr (py "2_Renault_Clio")));
       (Some (CInt 3), Some (CStr (py "Fiat Punto")),
        Some (CStr (py "3_Fiat_Punto")))].
Proof. vm_compute. reflexivity. Qed.

(** The directories [os.makedirs] made sure of, as an unknown set, where a
    proof does not look into them. *)
Ltac forget_dirs :=
  repeat match goal with
         | |- context [list_to_set (makedirs_dirs ?p)] =>
             let D := fresh "D" in
             set (D := list_to_set (makedirs_dirs p) : gset str);
             clearbody D
         end.

(** ** C7 and C10: image download *)

Lemma str_of_int_chars (z : Z) (c : N) :
  c ∈ str_of_int z -> is_ascii_digit c = true \/ c = 45%N.
Proof.
  assert (Hd : forall p, c ∈ uint_chars (Pos.to_uint p) ->
                         is_ascii_digit c = true).
  { intros p Hin. pose proof (uint_chars_digit (Pos.to_uint p)) as HF.
    rewrite Forall_forall in HF. by apply HF. }
  destruct z as [|p|p]; simpl.
  - intros ->%list_elem_of_singleton. by left.
  - intros H. left. by eapply Hd.
  - intros [->|H]%elem_of_cons; [by right|]. left. by eapply Hd.
Qed.

Lemma image_name_no_slash (i : nat) : slash ∉ image_name i.
Proof.
  unfold image_name. intros [H|H]%elem_of_app.
  - cbn in H. repeat (apply elem_of_cons in H as [H|H]; [discriminate|]).
    by apply elem_of_nil in H.
  - apply str_of_int_chars in H as [H|H]; discriminate.
Qed.

Lemma extension_of_cases (content_type : str) :
  extension_of content_type = py ".png" \/ extension_of content_type = py ".jpg".
Proof.
  unfold extension_of.
  destruct (str_in (py "png") content_type); [by left|].
  destruct (_ || _); by right.
Qed.

Lemma extension_no_slash (content_type : str) :
  slash ∉ extension_of content_type.
Proof.
  destruct (extension_of_cases content_type) as [-> | ->]; cbn; intros H;
    repeat (apply elem_of_cons in H as [H|H]; [discriminate|]);
    by apply elem_of_nil in H.
Qed.

Lemma existsb_slash_false (b : str) :
  slash ∉ b -> existsb (N.eqb slash) b = false.
Proof.
  induction b as [|c b IH]; cbn [existsb]; [done|]. intros H.
  rewrite IH by (intros ?; apply H; by right).
  rewrite orb_false_r. apply N.eqb_neq. intros <-. apply H. by left.
Qed.

Lemma basename_after_slash (a b : str) :
  slash ∉ b -> basename (a ++ slash :: b) = b.
Proof.
  intros Hb. induction a as [|c a IH]; cbn [basename app].
  - by rewrite existsb_slash_false, N.eqb_refl.
  - rewrite existsb_app. cbn [existsb]. rewrite N.eqb_refl.
    by rewrite orb_true_r.
Qed.

Lemma basename_no_slash (b : str) : slash ∉ b -> basename b = b.
Proof.
  destruct b as [|c b]; cbn [basename]; [done|]. intros H.
  rewrite existsb_slash_false by (intros ?; apply H; by right).
  destruct (N.eqb_spec c slash) as [->|]; [|done].
  exfalso. apply H. by left.
Qed.

(** The file name of a path joined from a folder and a name without slash
    is that name. *)
Lemma basename_join (a b : str) :
  slash ∉ b -> basename (os_path_join a b) = b.
Proof.
  intros Hb. unfold os_path_join.
  destruct (startswith [slash] b) eqn:Hs.
  - by apply basename_no_slash.
  - destruct (last a) as [c|] eqn:Hl; [|by apply basename_no_slash].
    destruct (N.eqb_spec c slash) as [->|_].
    + apply last_Some in Hl as [a' ->]. rewrite <- app_assoc. simpl.
      by apply basename_after_slash.
    + by apply basename_after_slash.
Qed.

Section DownloadProps.
Variable E : Env.

Lemma write_chunks_outcome_indep path chunks err k fs fs' :
  (write_chunks E path chunks err k fs).1
  = (write_chunks E path chunks err k fs').1.
Proof.
  revert k fs fs'. induction chunks as [|c cs IH]; intros k fs fs'; simpl.
  - by destruct err.
  - destruct (write_fault E path k); [done|]. apply IH.
Qed.

(** Whether a download succeeds, and the name it returns, do not depend
    on the files already there. *)
Lemma download_image_outcome_indep url folder name fs fs' :
  (download_image E url folder name fs).1
  = (download_image E url folder name fs').1.
Proof.
  unfold download_image, download_image_body.
  destruct (http E url) as [resp|]; [|done].
  destruct (raise_for_status resp); [|done].
  unfold open_wb.
  destruct (open_fault E _); [done|].
  match goal with
  | |- context [write_chunks E ?p ?cs ?err ?k ?f1] =>
      match goal with
      | |- context [write_chunks E p cs err k ?f2] =>
          tryif constr_eq f1 f2 then fail else
            pose proof (write_chunks_outcome_indep p cs err k f1 f2) as Hw
      end
  end.
  repeat destruct (write_chunks _ _ _ _ _ _) as [[|] ?];
    simpl in *; congruence.
Qed.

Lemma download_image_returns url folder name fs filename :
  slash ∉ name ->
  (download_image E url folder name fs).1 = Some filename ->
  filename = name ++ py ".png" \/ filename = name ++ py ".jpg".
Proof.
  intros Hname. unfold download_image, download_image_body.
  destruct (http E url) as [resp|]; [|done].
  destruct (raise_for_status resp); [|done].
  pose proof (extension_of_cases (default [] (content_type resp))) as Hext.
  pose proof (extension_no_slash (default [] (content_type resp))) as Hns.
  set (ext := extension_of (default [] (content_type resp))) in *.
  clearbody ext.
  unfold open_wb. destruct (open_fault E _); [done|].
  destruct (write_chunks _ _ _ _ _ _) as [[|] ?]; cbn [fst]; [|done].
  intros [= <-]. rewrite basename_join.
  - destruct Hext as [-> | ->]; auto.
  - intros [H|H]%elem_of_app; done.
Qed.

(** A successful download of the image at position [i] returns the name
    [image_<i+1>] with the extension [.png] or [.jpg]. *)
Lemma download_image_filename url folder (i : nat) fs filename :
  (download_image E url folder (image_name i) fs).1 = Some filename ->
  filename = image_name i ++ py ".png"
  \/ filename = image_name i ++ py ".jpg".
Proof. apply download_image_returns, image_name_no_slash. Qed.

Lemma image_name_truthy (i : nat) (ext : str) :
  truthy (image_name i ++ ext) = true.
Proof. done. Qed.

Variables listing_folder folder_name : str.

(** The loop is the positional map of [asset_reference], failures left
    out. *)
Lemma download_images_spec imgs (i : nat) acc fs :
  (download_images E listing_folder folder_name i imgs acc fs).1
  = acc ++ omap id
      (imap (fun j => asset_reference E listing_folder folder_name (i + j))
         imgs).
Proof.
  revert i acc fs. induction imgs as [|im rest IH]; intros i acc fs; simpl.
  - by rewrite app_nil_r.
  - assert (Hrest :
      imap ((fun j => asset_reference E listing_folder folder_name (i + j))
            ∘ S) rest
      = imap (fun j => asset_reference E listing_folder folder_name (S i + j))
          rest).
    { apply imap_ext. intros j x _. simpl. f_equal. lia. }
    rewrite Hrest, Nat.add_0_r. unfold asset_reference at 1.
    destruct (img_src im) as [[src|]|]; simpl; try apply IH.
    destruct (truthy src); simpl; [|apply IH].
    rewrite (download_image_outcome_indep src listing_folder (image_name i)
               empty_fs fs).
    destruct (download_image E src listing_folder (image_name i) fs)
      as [[filename|] fs1] eqn:Hd; simpl; [|apply IH].
    assert (Hf : (download_image E src listing_folder (image_name i) fs).1
                 = Some filename) by (by rewrite Hd).
    apply download_image_filename in Hf as [-> | ->];
      rewrite image_name_truthy, IH, <- app_assoc; done.
Qed.
End DownloadProps.

Section HarvestProps.
Variable E : Env.

(** C7. The harvester's list of references is the list of
    [asset_reference]s of the images, by position in the discovered
    order, with the failed ones left out; a reference exists only where
    the download returned success and is named [image_<i+1>] after the
    0-based position [i] of its image, with the extension [.png] or
    [.jpg].  So a failed download leaves a gap in the numbers and does not
    stop the loop: of three images whose second download fails, exactly
    two references are recorded, numbered 1 and 3.  The record
    [scrape_details] of avito_scraper.py returns ends with these references,
    joined by [", "]. *)
Theorem C7_image_harvest (listing_folder folder_name : str) :
  (forall imgs fs,
      (download_images E listing_folder folder_name 0 imgs [] fs).1
      = omap id (imap (asset_reference E listing_folder folder_name) imgs))
  /\ (forall (i : nat) im path,
      asset_reference E listing_folder folder_name i im = Some path ->
      exists src ext,
        img_src im = Return (Some src)
        /\ (ext = py ".png" \/ ext = py ".jpg")
        /\ (forall fs,
            (download_image E src listing_folder (image_name i) fs).1
            = Some (image_name i ++ ext))
        /\ path = os_path_join folder_name
                    (py "image_" ++ str_of_int (Z.of_nat i + 1) ++ ext))
  /\ (forall u1 u2 u3 f1 f3 fs0 fs1 fs2 fs3,
      truthy u1 = true -> truthy u2 = true -> truthy u3 = true ->
      download_image E u1 listing_folder (image_name 0) fs0 = (Some f1, fs1) ->
      download_image E u2 listing_folder (image_name 1) fs1 = (None, fs2) ->
      download_image E u3 listing_folder (image_name 2) fs2 = (Some f3, fs3) ->
      exists ext1 ext3,
        (ext1 = py ".png" \/ ext1 = py ".jpg")
        /\ (ext3 = py ".png" \/ ext3 = py ".jpg")
        /\ download_images E listing_folder folder_name 0
             [img u1; img u2; img u3] [] fs0
           = ([os_path_join folder_name (py "image_1" ++ ext1);
               os_path_join folder_name (py "image_3" ++ ext3)], fs3))
  /\ (forall url listing_id fs imgs,
      listing_folder = os_path_join images_base_folder folder_name ->
      detail_get (web E url) = Return () ->
      makedirs_fault E images_base_folder = None ->
      makedirs_fault E listing_folder = None ->
      detail_scroll (web E url) = Return () ->
      image_elements (web E url) = Return imgs ->
      exists row fs',
        AvitoScraper.scrape_details E url listing_id folder_name fs
        = (Return row, fs')
        /\ row !! 13%nat
           = Some (str_join (py ", ")
                     (omap id
                        (imap (asset_reference E listing_folder folder_name)
                           imgs)))).
Proof.
  split; [|split; [|split]].
  - intros imgs fs.
    by rewrite (download_images_spec E listing_folder folder_name imgs 0 [] fs).
  - intros i im path. unfold asset_reference.
    destruct (img_src im) as [[src|]|]; try done.
    destruct (truthy src); [|done].
    destruct (download_image E src listing_folder (image_name i) empty_fs).1
      as [filename|] eqn:Hd; [|done].
    intros [= <-].
    assert (Hany : forall fs,
               (download_image E src listing_folder (image_name i) fs).1
               = Some filename).
    { intros fs. by rewrite (download_image_outcome_indep E src
                               listing_folder (image_name i) fs empty_fs). }
    destruct (download_image_filename E _ _ _ _ _ Hd) as [-> | ->];
      [exists src, (py ".png") | exists src, (py ".jpg")];
      (split; [done|]); (split; [auto|]); (split; [done|]);
      unfold image_name; by rewrite <- app_assoc.
  - intros u1 u2 u3 f1 f3 fs0 fs1 fs2 fs3 Hu1 Hu2 Hu3 H1 H2 H3.
    assert (Hf1 : (download_image E u1 listing_folder (image_name 0) fs0).1
                  = Some f1) by (by rewrite H1).
    assert (Hf3 : (download_image E u3 listing_folder (image_name 2) fs2).1
                  = Some f3) by (by rewrite H3).
    apply download_image_filename in Hf1, Hf3.
    assert (exists ext1, (ext1 = py ".png" \/ ext1 = py ".jpg")
                         /\ f1 = py "image_1" ++ ext1) as (ext1 & He1 & ->).
    { destruct Hf1 as [-> | ->]; eauto. }
    assert (exists ext3, (ext3 = py ".png" \/ ext3 = py ".jpg")
                         /\ f3 = py "image_3" ++ ext3) as (ext3 & He3 & ->).
    { destruct Hf3 as [-> | ->]; eauto. }
    exists ext1, ext3. split; [done|]. split; [done|].
    cbn [download_images img img_src]. rewrite Hu1, H1.
    cbn [download_images img img_src]. rewrite Hu2, H2.
    cbn [download_images img img_src]. rewrite Hu3, H3.
    done.
  - intros url listing_id fs imgs -> Hget Hmk1 Hmk2 Hscroll Himgs.
    unfold AvitoScraper.scrape_details, makedirs.
    rewrite Hget, Hmk1. cbn [fs_files fs_dirs]. rewrite Hmk2, Hscroll.
    unfold harvest_images. rewrite Himgs.
    match goal with
    | |- context [download_images E ?lf ?fo 0 imgs [] ?f] =>
        pose proof (download_images_spec E lf fo imgs 0 [] f) as Hspec;
        destruct (download_images E lf fo 0 imgs [] f) as [paths fs']
    end.
    cbn [fst app] in Hspec. subst paths.
    eexists _, fs'. split; [done|].
    unfold details_list. done.
Qed.


End HarvestProps.

Lemma C7_witness :
  exists ext1 ext3,
    (ext1 = py ".png" \/ ext1 = py ".jpg")
    /\ (ext3 = py ".png" \/ ext3 = py ".jpg")
    /\ download_images demo_env (py "../data/avito/images/1_Dacia_Logan")
         (py "1_Dacia_Logan") 0
         [img (py "http://img/1"); img (py "http://img/2");
          img (py "http://img/3")] [] empty_fs
       = ([os_path_join (py "1_Dacia_Logan") (py "image_1" ++ ext1);
           os_path_join (py "1_Dacia_Logan") (py "image_3" ++ ext3)],
          (download_image demo_env (py "http://img/3")
             (py "../data/avito/images/1_Dacia_Logan") (image_name 2)
             (download_image demo_env (py "http://img/1")
                (py "../data/avito/images/1_Dacia_Logan") (image_name 0)
                empty_fs).2).2).
Proof.
  destruct (C7_image_harvest demo_env (py "../data/avito/images/1_Dacia_Logan")
              (py "1_Dacia_Logan")) as (_ & _ & H & _).
  eapply (H (py "http://img/1") (py "http://img/2") (py "http://img/3"));
    reflexivity.
Defined.

Example three_images_second_fails :
  (download_images demo_env (py "../data/avito/images/1_Dacia_Logan")
     (py "1_Dacia_Logan") 0
     [img (py "http://img/1"); img (py "http://img/2");
      img (py "http://img/3")] [] empty_fs).1
  = [py "1_Dacia_Logan/image_1.png"; py "1_Dacia_Logan/image_3.jpg"].
Proof. vm_compute. reflexivity. Qed.


(** ** C3: how one field is resolved *)



(** The card with the stale price between two good cards: two rows, numbered
    1 and 2. *)
Example stale_price_card_skipped :
  List.map (fun row => row !! 0%nat)
    (scrape_listings ascii_ucd
       [card (py "Dacia Logan") (py "il y a 5 minutes"); stale_price_card;
        card (py "Renault Clio") (py "il y a 2 heures")] [] 1).1
  = [Some (CInt 1); Some (CInt 2)].
Proof. vm_compute. reflexivity. Qed.


(** ** C9: the two location fields of a detail record *)

Lemma assign_label_seller_city label value d :
  seller_city (assign_label label value d) = seller_city d.
Proof.
  unfold assign_label.
  repeat (match goal with
          | |- context [if ?b then _ else _] => destruct b
          end; try done).
Qed.

Lemma assign_label_location label value d :
  location (assign_label label value d)
  = if takes_secteur_branch label then value else location d.
Proof.
  unfold assign_label, takes_secteur_branch, labels_before_secteur.
  cbn [existsb].
  destruct (str_in lbl_annee_modele label); [by rewrite andb_false_r|].
  destruct (str_in lbl_type_de_vehicule label); [by rewrite andb_false_r|].
  destruct (str_in lbl_categorie label); [by rewrite andb_false_r|].
  destruct (str_in lbl_kilometrage label); [by rewrite andb_false_r|].
  destruct (str_in lbl_marque label); [by rewrite andb_false_r|].
  destruct (str_in lbl_modele label); [by rewrite andb_false_r|].
  destruct (str_in lbl_nombre_de_portes label); [by rewrite andb_false_r|].
  destruct (str_in lbl_origine label); [by rewrite andb_false_r|].
  destruct (str_in lbl_premiere_main label); [by rewrite andb_false_r|].
  destruct (str_in lbl_puissance_fiscale label); [by rewrite andb_false_r|].
  destruct (str_in lbl_etat label); [by rewrite andb_false_r|].
  by destruct (str_in lbl_secteur label).
Qed.

Lemma scan_element_seller_city d element :
  seller_city (scan_element d element) = seller_city d.
Proof.
  unfold scan_element.
  destruct (value_text element), (label_text element);
    auto using assign_label_seller_city.
Qed.

Lemma scan_element_location d element :
  sets_location element = false ->
  location (scan_element d element) = location d.
Proof.
  unfold scan_element, sets_location.
  destruct (value_text element), (label_text element); try done.
  intros H. by rewrite assign_label_location, H.
Qed.

Lemma scan_seller_city elements d :
  seller_city (fold_left scan_element elements d) = seller_city d.
Proof.
  revert d. induction elements as [|el els IH]; intros d; simpl; [done|].
  by rewrite IH, scan_element_seller_city.
Qed.

Lemma scan_location_unchanged elements d :
  Forall (fun el => sets_location el = false) elements ->
  location (fold_left scan_element elements d) = location d.
Proof.
  intros H. revert d.
  induction H as [|el els Hel _ IH]; intros d; simpl; [done|].
  by rewrite IH, scan_element_location.
Qed.

Lemma after_scan_location page d :
  location (equipment_step page (category_if_missing page d)) = location d.
Proof.
  unfold equipment_step, category_if_missing.
  destruct (_ ← equipment_elements page; _) as [[|? ?]|];
    destruct (str_eqb (car_type d) NA); try done;
    by destruct (category_fallback page).
Qed.

Lemma after_scan_seller_city page d :
  seller_city (equipment_step page (category_if_missing page d))
  = seller_city d.
Proof.
  unfold equipment_step, category_if_missing.
  destruct (_ ← equipment_elements page; _) as [[|? ?]|];
    destruct (str_eqb (car_type d) NA); try done;
    by destruct (category_fallback page).
Qed.

(** C9 (amended). When the page has the seller-location header and a
    labeled attribute whose label holds ["Secteur"] and none of the labels
    tested before it, and no later attribute does the same, the visit
    returns a record whose location field is that attribute's value and
    whose seller-city field is the first comma-separated part of the
    header text: the scan overwrites the location taken from the header
    and leaves the city, so the two can disagree. *)
Theorem C9_secteur_overwrites_location
    (E : Env) (url : str) (listing_id : Z) (folder_name : str) (fs : FS)
    (header : str) (before after : list DetailElement)
    (attribute : DetailElement) (value label : str) :
  let page := web E url in
  detail_get page = Return () ->
  makedirs_fault E images_base_folder = None ->
  makedirs_fault E (os_path_join images_base_folder folder_name) = None ->
  detail_scroll page = Return () ->
  location_header page = Return header ->
  detail_elements page = Return (before ++ attribute :: after) ->
  value_text attribute = Return value ->
  label_text attribute = Return label ->
  str_in lbl_secteur (strip label) = true ->
  Forall (fun k => str_in k (strip label) = false) labels_before_secteur ->
  Forall (fun later => sets_location later = false) after ->
  exists row fs',
    AvitoMain.scrape_details E url listing_id folder_name fs = (Return row, fs')
    /\ row !! 1%nat = Some (strip value)
    /\ row !! 11%nat
       = Some (if str_in [comma] (strip header)
               then before_comma (strip header) else strip header).
Proof.
  intros page Hget Hmk1 Hmk2 Hscroll Hheader Hels Hvalue Hlabel Hsect Hbefore
    Hafter.
  unfold AvitoMain.scrape_details, makedirs. fold page.
  rewrite Hget, Hmk1. cbn [fs_files fs_dirs]. rewrite Hmk2, Hscroll.
  destruct (harvest_images _ _ _ _ _) as [images_paths fs'].
  eexists _, fs'. split; [done|].
  assert (Hbranch : takes_secteur_branch (strip label) = true).
  { unfold takes_secteur_branch. rewrite Hsect, andb_true_l.
    apply negb_true_iff, not_true_is_false. intros Hex.
    apply existsb_exists in Hex as (k & Hk & Hin).
    rewrite Forall_forall in Hbefore.
    apply list_elem_of_In, Hbefore in Hk. congruence. }
  unfold extract_details. rewrite Hels.
  unfold details_list. cbn [lookup list_lookup app].
  rewrite after_scan_location, after_scan_seller_city.
  rewrite scan_seller_city, fold_left_app. cbn [fold_left].
  rewrite scan_location_unchanged by done.
  unfold scan_element at 1. rewrite Hvalue, Hlabel.
  rewrite assign_label_location, Hbranch.
  unfold header_location. rewrite Hheader. done.
Qed.

Lemma C9_witness :
  exists row fs',
    AvitoMain.scrape_details
      (env_of (page_with (py "Casablanca, Maarif") (py "Secteur") (py "Ain Sebaa")))
      (py "https://www.avito.ma/x") 1 (py "1_Dacia_Logan") empty_fs
    = (Return row, fs')
    /\ row !! 1%nat = Some (py "Ain Sebaa")
    /\ row !! 11%nat = Some (py "Casablanca").
Proof.
  apply (C9_secteur_overwrites_location
           (env_of (page_with (py "Casablanca, Maarif") (py "Secteur")
                      (py "Ain Sebaa")))
           (py "https://www.avito.ma/x") 1 (py "1_Dacia_Logan") empty_fs
           (py "Casablanca, Maarif") [] []
           {| value_text := Return (py "Ain Sebaa");
              label_text := Return (py "Secteur") |}
           (py "Ain Sebaa") (py "Secteur"));
    try reflexivity.
  - repeat constructor.
  - constructor.
Defined.

(** The claim as stated fails for a label that holds ["Secteur"] after a
    label tested earlier: the value goes to that label's field and the
    location stays the header text. *)
Lemma C9_counterexample :
  str_in lbl_secteur lbl_etat_du_secteur = true
  /\ exists row fs',
      AvitoMain.scrape_details
        (env_of (page_with (py "Casablanca, Maarif") lbl_etat_du_secteur
                   (py "Bon")))
        (py "https://www.avito.ma/x") 1 (py "1_Dacia_Logan") empty_fs
      = (Return row, fs')
      /\ row !! 1%nat = Some (py "Casablanca, Maarif")
      /\ row !! 1%nat <> Some (py "Bon")
      /\ row !! 9%nat = Some (py "Bon").
Proof.
  split; [reflexivity|]. eexists _, _. split; [vm_compute; reflexivity|].
  split; [reflexivity|]. split; [discriminate|reflexivity].
Qed.

(** ** C1: a navigation failure during a detail visit *)

Section DetailVisitProps.
Variable E : Env.

(** What the handler at the top of [scrape_details] does catch: a failure
    after the page was loaded gives the all-unknown record. *)
Lemma scroll_failure_all_unknown url listing_id folder_name fs e :
  detail_get (web E url) = Return () ->
  makedirs_fault E images_base_folder = None ->
  makedirs_fault E (os_path_join images_base_folder folder_name) = None ->
  detail_scroll (web E url) = Raise e ->
  exists fs',
    AvitoMain.scrape_details E url listing_id folder_name fs
    = (Return (replicate 12 NA ++ [folder_name]), fs').
Proof.
  intros Hget Hmk1 Hmk2 Hscroll. unfold AvitoMain.scrape_details, makedirs.
  rewrite Hget, Hmk1. cbn [fs_files fs_dirs]. rewrite Hmk2, Hscroll. eauto.
Qed.

Lemma visit_rows_raises basic_data detailed_data idx fs row url folder_name e :
  row ∈ basic_data ->
  row !! 8%nat = Some url -> row !! 9%nat = Some folder_name ->
  detail_get (web E url) = Raise e ->
  exists e' fs',
    AvitoMain.visit_rows E basic_data detailed_data idx fs = (Raise e', fs').
Proof.
  intros Hin Hurl Hfolder Hget. revert detailed_data idx fs.
  induction basic_data as [|r rest IH]; intros detailed_data idx fs.
  - by apply elem_of_nil in Hin.
  - cbn [AvitoMain.visit_rows].
    destruct (r !! 8%nat) as [u|] eqn:Hu; [|eauto].
    destruct (r !! 9%nat) as [f|] eqn:Hf; [|eauto].
    destruct (AvitoMain.scrape_details E u idx f fs) as [[details|e'] fs']
      eqn:Hd; [|eauto].
    apply elem_of_cons in Hin as [->|Hin]; [|by apply IH].
    exfalso. rewrite Hurl in Hu. rewrite Hfolder in Hf.
    injection Hu as <-. injection Hf as <-.
    unfold AvitoMain.scrape_details in Hd. by rewrite Hget in Hd.
Qed.

(** C1 (what the code does). [driver.get] stands before the [try] of
    [scrape_details]: an exception of the navigation leaves
    [scrape_details], and [process_detailed_data], which calls it without
    a handler, ends with an exception as soon as one listing's navigation
    fails: no row is handed to the CSV writer. *)
Theorem C1_navigation_failure_propagates
    (basic_data : list (list str)) (row : list str)
    (url folder_name : str) (e : exn) (fs : FS) :
  row ∈ basic_data ->
  row !! 8%nat = Some url -> row !! 9%nat = Some folder_name ->
  detail_get (web E url) = Raise e ->
  (forall listing_id fs0,
      AvitoMain.scrape_details E url listing_id folder_name fs0
      = (Raise e, fs0))
  /\ exists e' fs',
      AvitoMain.process_detailed_data E basic_data fs = (Raise e', fs').
Proof.
  intros Hin Hurl Hfolder Hget. split.
  - intros listing_id fs0. unfold AvitoMain.scrape_details.
    by rewrite Hget.
  - by eapply visit_rows_raises.
Qed.
End DetailVisitProps.

Lemma C1_witness :
  (forall listing_id fs0,
      AvitoMain.scrape_details env_second_times_out
        (py "https://www.avito.ma/2") listing_id (py "2_Renault_Clio") fs0
      = (Raise TimeoutException, fs0))
  /\ exists e' fs',
      AvitoMain.process_detailed_data env_second_times_out two_basic_rows
        empty_fs = (Raise e', fs').
Proof.
  apply (C1_navigation_failure_propagates env_second_times_out two_basic_rows
           (basic_row (py "2") (py "Renault Clio")
              (py "https://www.avito.ma/2") (py "2_Renault_Clio"))).
  - unfold two_basic_rows. apply elem_of_cons. right. apply elem_of_cons.
    by left.
  - reflexivity.
  - reflexivity.
  - reflexivity.
Defined.

Example crash_after_load_all_unknown :
  (AvitoMain.scrape_details (env_of crashed_after_load_page)
     (py "https://www.avito.ma/1") 1 (py "1_Dacia_Logan") empty_fs).1
  = Return (replicate 12 (py "N/A") ++ [py "1_Dacia_Logan"]).
Proof. vm_compute. reflexivity. Qed.

(** The run over [two_basic_rows]: the time-out of the second listing ends
    it, after the first listing's folders were made. *)
Example second_listing_times_out :
  (AvitoMain.process_detailed_data env_second_times_out two_basic_rows
     empty_fs).1 = Raise TimeoutException.
Proof. vm_compute. reflexivity. Qed.

(** ** C2: the shape of the rows and of the header *)

Section ShapeProps.
Variable U : UCD.
Variable E : Env.

Lemma scrape_listings_ten_cells listings data counter :
  Forall (fun row => length row = 10%nat) data ->
  Forall (fun row => length row = 10%nat)
    (scrape_listings U listings data counter).1.
Proof.
  revert data counter.
  induction listings as [|l rest IH]; intros data counter Hd; simpl; [done|].
  destruct (listing_row U l counter) as [row|] eqn:Hrow; [|by apply IH].
  apply IH, Forall_app. split; [done|]. constructor; [|done].
  by apply listing_row_shape in Hrow as [_ ?].
Qed.

(** The record of a detail visit has fourteen elements, resolved or not. *)
Lemma scrape_details_fourteen url listing_id folder_name fs details fs' :
  AvitoScraper.scrape_details E url listing_id folder_name fs
  = (Return details, fs') ->
  length details = 14%nat.
Proof.
  unfold AvitoScraper.scrape_details, makedirs.
  destruct (detail_get _); [|done].
  destruct (makedirs_fault E images_base_folder); [done|].
  cbn [fs_files fs_dirs].
  destruct (makedirs_fault E _); [done|]. forget_dirs.
  destruct (detail_scroll _).
  - destruct (harvest_images _ _ _ _ _). by intros [= <- _].
  - by intros [= <- _].
Qed.

Lemma visit_rows_shape basic_data complete_data fs rows fs' :
  Forall (fun row => length row = 10%nat) basic_data ->
  Forall (fun row => length row = 22%nat) complete_data ->
  AvitoScraper.visit_rows E basic_data complete_data fs = (Return rows, fs') ->
  Forall (fun row => length row = 22%nat) rows
  /\ length rows = (length complete_data + length basic_data)%nat.
Proof.
  intros Hb. revert complete_data fs.
  induction Hb as [|row rest Hrow _ IH]; intros complete_data fs Hc;
    cbn [AvitoScraper.visit_rows].
  - intros [= <- _]. split; [done|]. simpl. lia.
  - destruct (row !! 0%nat) as [listing_id|]; [|done].
    destruct (row !! 8%nat) as [[z|url]|],
             (row !! 9%nat) as [[z'|folder_name]|]; try done.
    destruct (AvitoScraper.scrape_details _ _ _ _ _) as [[details|] fs1]
      eqn:Hd; [|done].
    intros Hrun. apply IH in Hrun as [Hall Hlen].
    + split; [done|]. rewrite Hlen, length_app. simpl. lia.
    + apply Forall_app. split; [done|]. constructor; [|done].
      apply scrape_details_fourteen in Hd.
      rewrite length_app, length_take, length_map, Hrow, Hd. done.
Qed.

(** C2 (what the code does). Whenever [main] of avito_scraper.py saves a
    file, the header has 21 names, ending with the folder identity, and
    every row, at least one, has 22 cells, ending with the joined asset
    paths: the rows all have the same shape, resolved or not, and that
    shape is one column wider than the header. *)
Theorem C2_rows_one_wider_than_header (page1 : ListingsPage) (fs : FS)
    (header : list str) (rows : list (list cell)) :
  saved_csv (AvitoScraper.main U E page1 fs).1 = Some (header, rows) ->
  length header = 21%nat
  /\ last header = Some (py "Dossier d'images")
  /\ rows <> []
  /\ Forall (fun row => length row = 22%nat) rows.
Proof.
  unfold AvitoScraper.main.
  destruct (AvitoScraper.scrape_avito U page1) as [[|row basic_data]|]
    eqn:Hbasic; try done.
  destruct (AvitoScraper.visit_rows _ _ _ _) as [[complete_data|] fs']
    eqn:Hrun; [|done].
  cbn [fst saved_csv]. intros [= <- <-].
  split; [done|]. split; [done|].
  apply visit_rows_shape in Hrun as [Hall Hlen]; [| |done].
  - split; [|done]. intros ->. simpl in Hlen. lia.
  - unfold AvitoScraper.scrape_avito in Hbasic.
    destruct (page_get page1); [|done]. simpl in Hbasic.
    destruct (page_wait page1); [|done].
    destruct (_ ← page_scroll page1; _) as [listings|]; [|done].
    assert (Hl : (scrape_listings U listings [] 1).1 = row :: basic_data)
      by (destruct listings; [done | congruence]).
    rewrite <- Hl. by apply scrape_listings_ten_cells.
Qed.

(** The sibling script: the rows of avito_main.py have the 21 cells of
    its header. *)
Lemma avito_main_rows_match_header basic_data detailed_data idx fs rows fs' :
  Forall (fun row => length row = 21%nat) detailed_data ->
  AvitoMain.visit_rows E basic_data detailed_data idx fs
  = (Return rows, fs') ->
  Forall (fun row => length row = 21%nat) rows.
Proof.
  revert detailed_data idx fs.
  induction basic_data as [|row rest IH]; intros detailed_data idx fs Hd;
    cbn [AvitoMain.visit_rows].
  - by intros [= <- _].
  - destruct (row !! 8%nat) as [url|] eqn:Hurl; [|done].
    destruct (row !! 9%nat) as [folder_name|] eqn:Hf; [|done].
    destruct (AvitoMain.scrape_details _ _ _ _ _) as [[details|] fs1]
      eqn:Hdet; [|done].
    apply IH, Forall_app. split; [done|]. constructor; [|done].
    apply lookup_lt_Some in Hf.
    assert (length details = 13%nat) as Hlen.
    { revert Hdet. unfold AvitoMain.scrape_details, makedirs.
      destruct (detail_get _); [|done].
      destruct (makedirs_fault E images_base_folder); [done|].
      cbn [fs_files fs_dirs].
      destruct (makedirs_fault E _); [done|]. forget_dirs.
      destruct (detail_scroll _).
      - destruct (harvest_images _ _ _ _ _). by intros [= <- _].
      - by intros [= <- _]. }
    rewrite length_app, length_take. lia.
Qed.
End ShapeProps.

Lemma C2_witness :
  length AvitoScraper.complete_headers = 21%nat
  /\ last AvitoScraper.complete_headers = Some (py "Dossier d'images")
  /\ (match saved_csv (AvitoScraper.main ascii_ucd demo_env one_card_page
                         empty_fs).1 with
      | Some (_, rows) => rows
      | None => []
      end) <> []
  /\ Forall (fun row => length row = 22%nat)
       (match saved_csv (AvitoScraper.main ascii_ucd demo_env one_card_page
                           empty_fs).1 with
        | Some (_, rows) => rows
        | None => []
        end).
Proof.
  apply (C2_rows_one_wider_than_header ascii_ucd demo_env one_card_page
           empty_fs).
  vm_compute. reflexivity.
Defined.

(** The file saved for [one_card_page]: 21 names, one row of 22 cells. *)
Example one_card_csv_shape :
  (fun csv => (length csv.1, List.map length csv.2)) <$>
    saved_csv (AvitoScraper.main ascii_ucd demo_env one_card_page empty_fs).1
  = Some (21%nat, [22%nat]).
Proof. vm_compute. reflexivity. Qed.

(** * Further properties *)

(** ** The folder name *)

Lemma collapse_spaces_chars (P : N -> Prop) (in_run : bool) (s : str) :
  P 95%N -> Forall P s ->
  Forall (fun c => P c /\ is_space c = false) (collapse_spaces in_run s).
Proof.
  intros H95 Hs. revert in_run.
  induction Hs as [|c s Hc _ IH]; intros in_run; simpl; [constructor|].
  destruct (is_space c) eqn:Hsp.
  - destruct in_run; [apply IH|]. constructor; [|apply IH]. done.
  - constructor; [done|apply IH].
Qed.

(** X1. The folder name is the numeral of the ordinal, an underscore, and
    at most 50 characters of the title, each a word character or a hyphen
    and none of them white space: no slash, backslash, dot or colon can
    come from the title. *)
Theorem X1_folder_name_shape (U : UCD) (title : str) (idx : Z) :
  exists part : str,
    create_folder_name U title idx = str_of_int idx ++ 95%N :: part
    /\ (length part <= 50)%nat
    /\ Forall (folder_char U) part
    /\ Forall (fun c => c <> 47%N /\ c <> 92%N /\ c <> 46%N /\ c <> 58%N)
         (create_folder_name U title idx).
Proof.
  unfold create_folder_name.
  set (part := take 50 (collapse_spaces false (strip_special U title))).
  assert (Hpart : Forall (folder_char U) part).
  { apply Forall_take.
    eapply Forall_impl;
      [apply (collapse_spaces_chars
                (fun c => is_word U c = true \/ is_space c = true \/ c = 45%N))|].
    - by left.
    - unfold strip_special. apply Forall_forall. intros c Hc.
      apply list_elem_of_In, filter_In in Hc as [_ Hc].
      apply orb_true_iff in Hc as [Hc|Hc]; [|right; right; by apply N.eqb_eq].
      apply orb_true_iff in Hc as [Hc|Hc]; auto.
    - intros c [[H|[H|H]] Hsp]; split; auto. congruence. }
  exists part. split; [done|].
  split; [subst part; rewrite length_take; lia|].
  split; [done|].
  apply Forall_app. split.
  - apply Forall_forall. intros c Hc.
    apply str_of_int_chars in Hc as [Hc| ->]; [|done].
    unfold is_ascii_digit in Hc. repeat split; intros ->; done.
  - constructor; [done|].
    eapply Forall_impl; [exact Hpart|]. intros c [_ [Hw| ->]]; [|done].
    repeat split; intros ->; done.
Qed.

(** ** The rows of a discovery run *)

Section RunProps.
Variable U : UCD.

Lemma listing_row_folder (l : Listing) (c : Z) (row : list cell) :
  listing_row U l c = Return row ->
  length row = 10%nat
  /\ row !! 0%nat = Some (CInt c)
  /\ exists title,
      row !! 1%nat = Some (CStr title)
      /\ row !! 9%nat = Some (CStr (create_folder_name U title c)).
Proof.
  unfold listing_row. intros H.
  apply bind_Return in H as (title & _ & H).
  repeat (apply bind_Return in H as (? & _ & H)).
  injection H as <-. split; [done|]. split; [done|]. by exists title.
Qed.

Lemma folder_keyed_snoc data counter row :
  numbered data counter -> folder_keyed U data ->
  (length row = 10%nat
   /\ exists title,
       row !! 1%nat = Some (CStr title)
       /\ row !! 9%nat = Some (CStr (create_folder_name U title counter))) ->
  folder_keyed U (data ++ [row]).
Proof.
  intros [Hc _] Hk Hrow i r Hi.
  apply lookup_app_Some in Hi as [Hi|[Hge Hi]]; [by apply Hk|].
  apply list_lookup_singleton_Some in Hi as [Hi <-].
  replace (Z.of_nat i + 1) with counter by lia. done.
Qed.

Lemma scrape_listings_folder_keyed listings data counter :
  numbered data counter -> folder_keyed U data ->
  folder_keyed U (scrape_listings U listings data counter).1.
Proof.
  revert data counter.
  induction listings as [|l rest IH]; intros data counter Hn Hk; simpl;
    [done|].
  destruct (listing_row U l counter) as [row|e] eqn:Hrow; [|by apply IH].
  pose proof (listing_row_folder _ _ _ Hrow) as (Hlen & H0 & Ht).
  apply IH.
  - by apply numbered_snoc.
  - by eapply folder_keyed_snoc.
Qed.

Lemma scrape_pages_folder_keyed site pages data counter data' counter' :
  numbered data counter -> folder_keyed U data ->
  AvitoInitial.scrape_pages U site pages data counter
    = Return (data', counter') ->
  folder_keyed U data'.
Proof.
  revert data counter.
  induction pages as [|page rest IH]; intros data counter Hn Hk; simpl.
  - by intros [= <- <-].
  - destruct (page_get (site page)); simpl; [|done].
    destruct (page_wait (site page)); [|by apply IH].
    destruct (page_scroll (site page)); simpl; [|by apply IH].
    destruct (page_listings (site page)) as [[|l ls]|]; try by apply IH.
    pose proof (scrape_listings_numbered U (l :: ls) data counter Hn) as Hn'.
    pose proof (scrape_listings_folder_keyed (l :: ls) data counter Hn Hk)
      as Hk'.
    destruct (scrape_listings U (l :: ls) data counter) as [d c].
    by apply IH.
Qed.

(** X2. In the rows of a discovery run every row has ten cells and its
    folder cell is [create_folder_name] of its own title and ordinal, and
    no two rows of the run have the same folder name. *)
Theorem X2_run_folder_names_distinct
    (site : Z -> ListingsPage) (start_page end_page : Z)
    (data : list (list cell)) :
  AvitoInitial.scrape_avito U site start_page end_page = Return data ->
  folder_keyed U data
  /\ forall (i j : nat) (ri rj : list cell),
      i <> j -> data !! i = Some ri -> data !! j = Some rj ->
      ri !! 9%nat <> rj !! 9%nat.
Proof.
  unfold AvitoInitial.scrape_avito. intros H.
  apply bind_Return in H as ([d c] & Hrun & [= <-]).
  assert (Hk : folder_keyed U d).
  { eapply scrape_pages_folder_keyed; [| |exact Hrun]; [by split|].
    intros i row Hi. by rewrite lookup_nil in Hi. }
  split; [done|].
  intros i j ri rj Hij Hi Hj Heq.
  apply Hk in Hi as (_ & ti & _ & Hfi). apply Hk in Hj as (_ & tj & _ & Hfj).
  rewrite Hfi, Hfj in Heq. injection Heq as Heq.
  apply create_folder_name_inv in Heq. lia.
Qed.

(** X3. The page loop only appends: the rows it was given stay, in place,
    at the front of the rows it returns, and the counter has moved by the
    number of rows added. *)
Theorem X3_rows_only_appended
    (site : Z -> ListingsPage) (pages : list Z)
    (data data' : list (list cell)) (counter counter' : Z) :
  AvitoInitial.scrape_pages U site pages data counter
    = Return (data', counter') ->
  exists rows,
    data' = data ++ rows /\ counter' = counter + Z.of_nat (length rows).
Proof.
  assert (Hl : forall listings d c,
    exists rows,
      (scrape_listings U listings d c).1 = d ++ rows
      /\ (scrape_listings U listings d c).2 = c + Z.of_nat (length rows)).
  { induction listings as [|l rest IH]; intros d c; simpl.
    - exists []. rewrite app_nil_r. split; [done|]. simpl. lia.
    - destruct (listing_row U l c) as [row|]; [|apply IH].
      destruct (IH (d ++ [row]) (c + 1)) as (rows & -> & ->).
      exists (row :: rows). rewrite <- app_assoc. split; [done|].
      simpl length. lia. }
  revert data counter.
  induction pages as [|page rest IH]; intros data counter; simpl.
  - intros [= <- <-]. exists []. rewrite app_nil_r. split; [done|].
    simpl. lia.
  - destruct (page_get (site page)); simpl; [|done].
    destruct (page_wait (site page)); [|by apply IH].
    destruct (page_scroll (site page)); simpl; [|by apply IH].
    destruct (page_listings (site page)) as [[|l ls]|]; try by apply IH.
    destruct (Hl (l :: ls) data counter) as (rows & H1 & H2).
    destruct (scrape_listings U (l :: ls) data counter) as [d c].
    simpl in H1, H2. subst d c. intros Hrun.
    apply IH in Hrun as (rows' & -> & ->).
    exists (rows ++ rows'). rewrite <- app_assoc. split; [done|].
    rewrite length_app. lia.
Qed.

Lemma py_range_cons (a b : Z) :
  a < b -> py_range a b = a :: py_range (a + 1) b.
Proof.
  intros H. unfold py_range.
  replace (Z.to_nat (b - a)) with (S (Z.to_nat (b - (a + 1)))) by lia.
  cbn [seq List.map]. f_equal; [lia|].
  rewrite <- seq_shift, List.map_map. apply List.map_ext. intros i. lia.
Qed.

Lemma py_range_empty (a b : Z) : b <= a -> py_range a b = [].
Proof.
  intros H. unfold py_range. by replace (Z.to_nat (b - a)) with 0%nat by lia.
Qed.

Lemma elem_of_py_range (a b p : Z) : a <= p < b -> p ∈ py_range a b.
Proof.
  intros H. unfold py_range. apply list_elem_of_In, in_map_iff.
  exists (Z.to_nat (p - a)). split; [lia|]. apply in_seq. lia.
Qed.

(** X4. [driver.get] of a results page stands outside every [try] of
    [scrape_avito]: when the navigation to one requested page raises, the
    run ends with an exception and returns no row at all. *)
Theorem X4_discovery_navigation_failure
    (site : Z -> ListingsPage) (start_page end_page page : Z) (e : exn) :
  start_page <= page <= end_page ->
  page_get (site page) = Raise e ->
  exists e', AvitoInitial.scrape_avito U site start_page end_page = Raise e'.
Proof.
  intros Hrange Hget. unfold AvitoInitial.scrape_avito.
  assert (Hin : page ∈ py_range start_page (end_page + 1))
    by (apply elem_of_py_range; lia).
  assert (H : forall pages data counter,
    page ∈ pages ->
    exists e', AvitoInitial.scrape_pages U site pages data counter = Raise e').
  { induction pages as [|p rest IH]; intros data counter Hp.
    - by apply elem_of_nil in Hp.
    - simpl. destruct (page_get (site p)) as [[]|e0] eqn:Hp0; simpl; [|eauto].
      apply elem_of_cons in Hp as [-> |Hp]; [congruence|].
      destruct (page_wait (site p)); [|by apply IH].
      destruct (page_scroll (site p)); simpl; [|by apply IH].
      destruct (page_listings (site p)) as [[|l ls]|]; try by apply IH.
      destruct (scrape_listings U (l :: ls) data counter) as [d c].
      by apply IH. }
  destruct (H _ [] 1 Hin) as [e' He']. exists e'. by rewrite He'.
Qed.

(** X5. A requested page that loads and gives no listing (time-out of the
    wait, failure of the scroll or of the lookup, or no card) is skipped:
    the run over the range is the run over the rest of the range.  And a
    range whose end is before its start gives no row without any
    navigation. *)
Theorem X5_empty_page_skipped
    (site : Z -> ListingsPage) (start_page end_page : Z) :
  (start_page <= end_page ->
   page_get (site start_page) = Return () ->
   page_gives_nothing (site start_page) ->
   AvitoInitial.scrape_avito U site start_page end_page
   = AvitoInitial.scrape_avito U site (start_page + 1) end_page)
  /\ (end_page < start_page ->
      AvitoInitial.scrape_avito U site start_page end_page = Return []).
Proof.
  unfold AvitoInitial.scrape_avito. split.
  - intros Hle Hget Hnothing.
    rewrite (py_range_cons start_page (end_page + 1)) by lia.
    cbn [AvitoInitial.scrape_pages]. rewrite Hget. simpl.
    destruct Hnothing as [[e ->]|[[e He]|He]]; [done| |].
    + destruct (page_wait (site start_page)); [|done].
      change (_ ← page_scroll (site start_page);
              page_listings (site start_page)) with
        (page_scroll (site start_page) ≫= fun _ => page_listings (site start_page))
        in He.
      by rewrite He.
    + destruct (page_wait (site start_page)); [|done]. by rewrite He.
  - intros Hlt. by rewrite py_range_empty by lia.
Qed.
End RunProps.

Lemma X2_witness :
  folder_keyed ascii_ucd demo_rows
  /\ forall (i j : nat) (ri rj : list cell),
      i <> j -> demo_rows !! i = Some ri -> demo_rows !! j = Some rj ->
      ri !! 9%nat <> rj !! 9%nat.
Proof.
  apply (X2_run_folder_names_distinct ascii_ucd demo_site 1 2 demo_rows).
  vm_compute. reflexivity.
Defined.

Lemma X3_witness :
  exists rows,
    demo_rows = [] ++ rows /\ 4 = 1 + Z.of_nat (length rows).
Proof.
  apply (X3_rows_only_appended ascii_ucd demo_site [1; 2]).
  vm_compute. reflexivity.
Defined.

Lemma X4_witness :
  exists e',
    AvitoInitial.scrape_avito ascii_ucd site_page_two_down 1 3 = Raise e'.
Proof.
  apply (X4_discovery_navigation_failure ascii_ucd site_page_two_down 1 3 2
           WebDriverException).
  - lia.
  - reflexivity.
Defined.

Lemma X5_witness :
  AvitoInitial.scrape_avito ascii_ucd site_page_one_blank 1 2
  = AvitoInitial.scrape_avito ascii_ucd site_page_one_blank (1 + 1) 2.
Proof.
  apply (X5_empty_page_skipped ascii_ucd site_page_one_blank 1 2).
  - lia.
  - reflexivity.
  - left. exists TimeoutException. reflexivity.
Defined.

(** ** The relative-date normalizer, further *)

Lemma strftime_Ymd_form (t : datetime) :
  valid_datetime t -> date_text (strftime_Ymd t).
Proof.
  intros Hv. pose proof (ord2ymd_inverse _ (toordinal_valid t Hv)) as Ho.
  unfold strftime_Ymd, date_text, year_digits.
  destruct (ord2ymd (toordinal t)) as [[y m] d].
  destruct Ho as (_ & Hy & Hm & Hd). by exists y, m, d.
Qed.

Lemma strftime_YmdHMS_form (t : datetime) :
  valid_datetime t -> stamp_text (strftime_YmdHMS t).
Proof.
  intros Hv. unfold strftime_YmdHMS, stamp_text.
  pose proof (second_of_day_range t) as Hs.
  set (secs := t mod us_per_day / us_per_second) in *.
  exists (strftime_Ymd t), (secs / 3600), (secs mod 3600 / 60), (secs mod 60).
  split; [by apply strftime_Ymd_form|].
  repeat split; try done; Z.div_mod_to_equations; lia.
Qed.

Lemma ordinal_range_valid (r : datetime) :
  (0 <? toordinal r) && (toordinal r <=? MAXORDINAL) = true ->
  valid_datetime r.
Proof.
  intros [H1 H2]%andb_true_iff. apply Z.ltb_lt in H1. apply Z.leb_le in H2.
  unfold toordinal in *. time_constants. Z.div_mod_to_equations. lia.
Qed.

(** What [now - timedelta(...)] followed by [strftime] can give. *)
Lemma back_cases (now us : Z) (f : datetime -> str) :
  (delta ← make_timedelta us; exact_date ← datetime_sub now delta;
   Return (f exact_date)) = Raise OverflowError
  \/ (valid_datetime (now - us)
      /\ (delta ← make_timedelta us; exact_date ← datetime_sub now delta;
          Return (f exact_date)) = Return (f (now - us))).
Proof.
  unfold make_timedelta, datetime_sub, datetime_add.
  destruct (_ <=? _); simpl; [|by left].
  rewrite Z.add_opp_r.
  destruct (_ && _) eqn:Hr; simpl; [right|by left].
  split; [by apply ordinal_range_valid|done].
Qed.

Lemma back_ok (now us : Z) (f : datetime -> str) :
  valid_datetime now -> 0 <= us <= now ->
  (delta ← make_timedelta us; exact_date ← datetime_sub now delta;
   Return (f exact_date)) = Return (f (now - us)).
Proof.
  intros Hnow Hus.
  rewrite make_timedelta_small by (time_constants; lia). simpl.
  unfold datetime_sub. rewrite datetime_add_valid.
  - simpl. by rewrite Z.add_opp_r.
  - time_constants. lia.
Qed.

Lemma toordinal_back_days (t k : Z) :
  toordinal (t + - (k * us_per_day)) = toordinal t - k.
Proof.
  unfold toordinal.
  replace (t + - (k * us_per_day)) with (t + (- k) * us_per_day) by lia.
  rewrite Z.div_add by (unfold us_per_day, us_per_second; lia). lia.
Qed.

Lemma strftime_Ymd_ordinal (t1 t2 : datetime) :
  toordinal t1 = toordinal t2 -> strftime_Ymd t1 = strftime_Ymd t2.
Proof. unfold strftime_Ymd. by intros ->. Qed.

(** The date rendering determines the day. *)
Lemma strftime_Ymd_inj (t1 t2 : datetime) :
  valid_datetime t1 -> valid_datetime t2 ->
  strftime_Ymd t1 = strftime_Ymd t2 -> toordinal t1 = toordinal t2.
Proof.
  intros Hv1 Hv2.
  pose proof (ord2ymd_inverse _ (toordinal_valid t1 Hv1)) as Ho1.
  pose proof (ord2ymd_inverse _ (toordinal_valid t2 Hv2)) as Ho2.
  unfold strftime_Ymd.
  destruct (ord2ymd (toordinal t1)) as [[y1 m1] d1].
  destruct (ord2ymd (toordinal t2)) as [[y2 m2] d2].
  destruct Ho1 as (Ho1 & Hy1 & Hm1 & Hd1), Ho2 as (Ho2 & Hy2 & Hm2 & Hd2).
  intros H.
  apply year_digits_inj in H as [Hy H]; [|lia..].
  unfold two_digits in H. cbn [app] in H.
  injection H as Hm1' Hm0' Hd1' Hd0'.
  assert (Fm : two_digits m1 = two_digits m2)
    by (unfold two_digits; congruence).
  assert (Fd : two_digits d1 = two_digits d2)
    by (unfold two_digits; congruence).
  apply two_digits_inj in Fm; [|lia..].
  apply two_digits_inj in Fd; [|lia..].
  congruence.
Qed.

Section RelativeDateMore.
Variable U : UCD.

(** X6. Whatever the normalizer returns is the sentinel, a time stamp
    (date, hour, minute, second) or a date: year, month and day of the
    calendar, the year written without padding, month and day with two
    digits. *)
Theorem X6_output_format (now : datetime) (phrase s : str) :
  valid_datetime now ->
  convert_relative_date U now phrase = Return s ->
  s = unknown_date \/ stamp_text s \/ date_text s.
Proof.
  intros Hnow.
  unfold convert_relative_date, timedelta_minutes, timedelta_hours,
    timedelta_days.
  destruct (str_in _ (ucd_lower U phrase)).
  { intros [= <-]. right. left. by apply strftime_YmdHMS_form. }
  destruct (search_digits U phrase) as [run|]; [|intros [= <-]; by left].
  destruct (py_int U run) as [num|]; [simpl|done].
  repeat match goal with
         | |- context [if ?b then _ else _] => destruct b
         end;
    try (intros [= <-]; by left);
    match goal with
    | |- context [make_timedelta ?us ≫= _] =>
        match goal with
        | |- context [Return (strftime_YmdHMS _)] =>
            destruct (back_cases now us strftime_YmdHMS) as [-> | [Hv ->]]
        | |- context [Return (strftime_Ymd _)] =>
            destruct (back_cases now us strftime_Ymd) as [-> | [Hv ->]]
        end
    end; try done; intros [= <-]; right;
    [left; by apply strftime_YmdHMS_form | left; by apply strftime_YmdHMS_form
     | right; by apply strftime_Ymd_form | right; by apply strftime_Ymd_form
     | right; by apply strftime_Ymd_form].
Qed.

(** X7. The exceptions of the normalizer.  It raises [ValueError] exactly
    when the phrase is not an "instants" phrase and its first run of digits
    is longer than [int] converts; the only other exception it raises is
    [OverflowError], from [timedelta] or from the subtraction; and it
    raises none when the run is within the limit and 365 times its number,
    in days, does not reach back before [datetime.min]. *)
Theorem X7_exceptions_raised (now : datetime) (phrase : str) :
  (forall e, convert_relative_date U now phrase = Raise e ->
             e = OverflowError \/ e = ValueError)
  /\ (convert_relative_date U now phrase = Raise ValueError
      <-> instants_phrase U phrase = false
          /\ exists run, search_digits U phrase = Some run
                         /\ int_max_str_digits < Z.of_nat (length run))
  /\ (valid_datetime now ->
      (forall run, search_digits U phrase = Some run ->
                   Z.of_nat (length run) <= int_max_str_digits
                   /\ 365 * int_of_digits U run * us_per_day <= now) ->
      exists s, convert_relative_date U now phrase = Return s).
Proof.
  assert (Hafter : forall num e,
    (if str_in (py "minute") phrase then
       delta ← timedelta_minutes num; exact_date ← datetime_sub now delta;
       Return (strftime_YmdHMS exact_date)
     else if str_in (py "heure") phrase then
       delta ← timedelta_hours num; exact_date ← datetime_sub now delta;
       Return (strftime_YmdHMS exact_date)
     else if str_in (py "jour") phrase then
       delta ← timedelta_days num; exact_date ← datetime_sub now delta;
       Return (strftime_Ymd exact_date)
     else if str_in (py "mois") phrase then
       delta ← timedelta_days (30 * num); exact_date ← datetime_sub now delta;
       Return (strftime_Ymd exact_date)
     else if str_in (py "an") phrase then
       delta ← timedelta_days (365 * num); exact_date ← datetime_sub now delta;
       Return (strftime_Ymd exact_date)
     else Return unknown_date) = Raise e -> e = OverflowError).
  { intros num e.
    unfold timedelta_minutes, timedelta_hours, timedelta_days.
    repeat match goal with
           | |- context [if ?b then _ else _] => destruct b
           end; try done;
      match goal with
      | |- context [make_timedelta ?us ≫= _] =>
          match goal with
          | |- context [Return (strftime_YmdHMS _)] =>
              destruct (back_cases now us strftime_YmdHMS) as [-> | [_ ->]]
          | |- context [Return (strftime_Ymd _)] =>
              destruct (back_cases now us strftime_Ymd) as [-> | [_ ->]]
          end
      end; congruence. }
  unfold convert_relative_date, instants_phrase.
  split; [|split].
  - intros e. destruct (str_in _ (ucd_lower U phrase)); [done|].
    destruct (search_digits U phrase) as [run|]; [|done].
    unfold py_int. destruct (_ <? _); simpl.
    + intros [= <-]. by right.
    + intros H%Hafter. by left.
  - destruct (str_in _ (ucd_lower U phrase)).
    { split; [done|]. by intros [? _]. }
    destruct (search_digits U phrase) as [run|].
    2:{ split; [done|]. by intros [_ (? & ? & _)]. }
    unfold py_int.
    destruct (Z.ltb_spec int_max_str_digits (Z.of_nat (length run))); simpl.
    + split; [|done]. intros _. split; [done|]. by exists run.
    + split.
      * intros H'%Hafter. discriminate.
      * intros [_ (run' & [= <-] & Hlong)]. lia.
  - intros Hnow Hsafe. destruct (str_in _ (ucd_lower U phrase)); [eauto|].
    destruct (search_digits U phrase) as [run|]; [|eauto].
    destruct (Hsafe run eq_refl) as [Hlen Hback].
    rewrite py_int_short by done. simpl.
    pose proof (int_of_digits_nonneg U run) as HN.
    set (N := int_of_digits U run) in *.
    unfold timedelta_minutes, timedelta_hours, timedelta_days.
    repeat match goal with
           | |- context [if ?b then _ else _] => destruct b
           end; eauto;
      rewrite back_ok; eauto; time_constants; lia.
Qed.

(** X8. For a phrase without the keywords [minute] and [heure] (so for
    every day, month and year phrase) the result depends on the capture
    date only, not on the time of day. *)
Theorem X8_date_phrases_ignore_time_of_day (now1 now2 : datetime) (phrase : str) :
  toordinal now1 = toordinal now2 ->
  instants_phrase U phrase = false ->
  str_in (py "minute") phrase = false ->
  str_in (py "heure") phrase = false ->
  convert_relative_date U now1 phrase = convert_relative_date U now2 phrase.
Proof.
  intros Hord Hinst Hmin Hheure.
  unfold convert_relative_date, timedelta_minutes, timedelta_hours,
    timedelta_days.
  unfold instants_phrase in Hinst. rewrite Hinst, Hmin, Hheure.
  destruct (search_digits U phrase) as [run|]; [|done].
  destruct (py_int U run) as [num|]; [simpl|done].
  assert (Hback : forall k,
    (delta ← make_timedelta (k * us_per_day);
     exact_date ← datetime_sub now1 delta; Return (strftime_Ymd exact_date))
    = (delta ← make_timedelta (k * us_per_day);
       exact_date ← datetime_sub now2 delta; Return (strftime_Ymd exact_date))).
  { intros k. destruct (make_timedelta (k * us_per_day)) as [delta|] eqn:Hd;
      simpl; [|done].
    assert (delta = k * us_per_day) as ->.
    { unfold make_timedelta in Hd. destruct (_ <=? _); congruence. }
    unfold datetime_sub, datetime_add.
    rewrite !toordinal_back_days, Hord.
    destruct (_ && _); simpl; [|done].
    f_equal. apply strftime_Ymd_ordinal.
    by rewrite !toordinal_back_days, Hord. }
  repeat match goal with
         | |- context [if ?b then _ else _] => destruct b
         end; try done; apply Hback.
Qed.

(** X9. For a phrase of the "N days ago" form (keyword [jour], not
    [minute] or [heure], N the value of its first run of digits, not an
    "instants" phrase) with a run of digits no longer than [int] converts
    and N less than the day number of the capture date, the normalizer
    returns the rendering of the day N days before the capture date, and
    that rendering names no other day. *)
Theorem X9_days_ago (now : datetime) (phrase run : str) (N : Z) :
  valid_datetime now ->
  instants_phrase U phrase = false ->
  str_in (py "minute") phrase = false ->
  str_in (py "heure") phrase = false ->
  str_in (py "jour") phrase = true ->
  search_digits U phrase = Some run ->
  Z.of_nat (length run) <= int_max_str_digits ->
  int_of_digits U run = N ->
  N < toordinal now ->
  exists d : datetime,
    convert_relative_date U now phrase = Return (strftime_Ymd d)
    /\ valid_datetime d
    /\ date_text (strftime_Ymd d)
    /\ toordinal d = toordinal now - N
    /\ forall d' : datetime,
        valid_datetime d' -> strftime_Ymd d' = strftime_Ymd d ->
        toordinal d' = toordinal d.
Proof.
  intros Hnow Hinst Hmin Hheure Hjour Hrun Hlen HN Hlt.
  pose proof (int_of_digits_nonneg U run) as HN0. rewrite HN in HN0.
  assert (Hd : valid_datetime (now - N * us_per_day)).
  { unfold toordinal in Hlt. time_constants. Z.div_mod_to_equations. lia. }
  exists (now - N * us_per_day).
  split; [|split; [done|split; [by apply strftime_Ymd_form|split]]].
  - unfold convert_relative_date, timedelta_days.
    unfold instants_phrase in Hinst.
    rewrite Hinst, Hrun, py_int_short, HN by done. simpl.
    rewrite Hmin, Hheure, Hjour.
    apply back_ok; [done|]. time_constants. lia.
  - rewrite <- toordinal_back_days. f_equal; lia.
  - intros d' Hd' Heq. by apply strftime_Ymd_inj.
Qed.
End RelativeDateMore.

Lemma X6_witness :
  py "2026-11-03 09:54:07" = unknown_date
  \/ stamp_text (py "2026-11-03 09:54:07")
  \/ date_text (py "2026-11-03 09:54:07").
Proof.
  apply (X6_output_format ascii_ucd capture_2026 (py "il y a 5 minutes")).
  - unfold valid_datetime; vm_compute; split; [discriminate|reflexivity].
  - vm_compute. reflexivity.
Defined.

Lemma X7_witness :
  exists s,
    convert_relative_date ascii_ucd capture_2026 (py "il y a 2 ans") = Return s.
Proof.
  destruct (X7_exceptions_raised ascii_ucd capture_2026 (py "il y a 2 ans"))
    as (_ & _ & H).
  apply H.
  - unfold valid_datetime; vm_compute; split; [discriminate|reflexivity].
  - intros run [= <-]. split; vm_compute; discriminate.
Defined.

(** The zero-padded "5 minutes" of 4301 digits raises [ValueError]. *)
Example padded_five_minutes_raises :
  convert_relative_date ascii_ucd capture_2026 phrase_padded_five_minutes
  = Raise ValueError.
Proof. vm_compute. reflexivity. Qed.

Lemma X8_witness :
  convert_relative_date ascii_ucd capture_2026 (py "il y a 3 jours")
  = convert_relative_date ascii_ucd (capture_2026 + 3600 * us_per_second)
      (py "il y a 3 jours").
Proof.
  apply X8_date_phrases_ignore_time_of_day; reflexivity.
Defined.

Lemma X9_witness :
  exists d : datetime,
    convert_relative_date ascii_ucd capture_2026 (py "il y a 3 jours")
    = Return (strftime_Ymd d)
    /\ valid_datetime d
    /\ date_text (strftime_Ymd d)
    /\ toordinal d = toordinal capture_2026 - 3
    /\ forall d' : datetime,
        valid_datetime d' -> strftime_Ymd d' = strftime_Ymd d ->
        toordinal d' = toordinal d.
Proof.
  apply (X9_days_ago ascii_ucd capture_2026 (py "il y a 3 jours") (py "3") 3);
    try reflexivity.
  - unfold valid_datetime; vm_compute; split; [discriminate|reflexivity].
  - vm_compute; discriminate.
Defined.

Example three_days_ago :
  convert_relative_date ascii_ucd capture_2026 (py "il y a 3 jours")
  = Return (py "2026-10-31").
Proof. vm_compute. reflexivity. Qed.

(** ** The effects of a download on the file system *)

Lemma elem_of_omap_imap {A B} (f : nat -> A -> option B) (l : list A) (p : B) :
  p ∈ omap id (imap f l) <-> exists i x, l !! i = Some x /\ f i x = Some p.
Proof.
  rewrite list_elem_of_omap. split.
  - intros (o & Ho & Hp). apply elem_of_lookup_imap in Ho as (i & x & -> & Hi).
    eauto.
  - intros (i & x & Hi & Hp). exists (f i x). split; [|done].
    apply elem_of_lookup_imap. eauto.
Qed.

Lemma NoDup_omap_imap {A B} (f : nat -> A -> option B) (l : list A) :
  (forall i j x y p,
      l !! i = Some x -> l !! j = Some y ->
      f i x = Some p -> f j y = Some p -> i = j) ->
  NoDup (omap id (imap f l)).
Proof.
  revert f. induction l as [|x l IH]; intros f Hinj; [constructor|].
  rewrite imap_cons. cbn [omap list_omap]. unfold id at 1.
  assert (Hrest : NoDup (omap id (imap (f ∘ S) l))).
  { apply IH. intros i j a b p Hi Hj Hfi Hfj.
    assert (S i = S j) by (by eapply (Hinj (S i) (S j))). lia. }
  destruct (f 0%nat x) as [p|] eqn:Hp; [|done].
  constructor; [|done].
  intros (j & y & Hj & Hfj)%elem_of_omap_imap.
  assert (0%nat = S j) by (by eapply (Hinj 0%nat (S j))). lia.
Qed.

Lemma length_omap_le {A B} (f : A -> option B) (l : list A) :
  (length (omap f l) <= length l)%nat.
Proof.
  induction l as [|x l IH]; simpl; [done|].
  destruct (f x); simpl; [apply le_n_S|apply le_S]; exact IH.
Qed.

Lemma os_path_join_inj (a b b' : str) :
  startswith [slash] b = false -> startswith [slash] b' = false ->
  os_path_join a b = os_path_join a b' -> b = b'.
Proof.
  unfold os_path_join. intros -> ->.
  destruct (last a) as [c|]; [|done].
  destruct (c =? slash)%N; intros H; by simplify_list_eq.
Qed.

Lemma image_name_not_absolute (i : nat) (ext : str) :
  startswith [slash] (image_name i ++ ext) = false.
Proof. done. Qed.

(** The file name of an image determines its position. *)
Lemma image_file_inj (i j : nat) (ext ext' : str) :
  ext = py ".png" \/ ext = py ".jpg" ->
  ext' = py ".png" \/ ext' = py ".jpg" ->
  image_name i ++ ext = image_name j ++ ext' -> i = j.
Proof.
  unfold image_name. intros He He'. rewrite <- !app_assoc. intros H.
  apply app_inv_head in H.
  assert (Hdot : forall z, 46%N ∉ str_of_int z).
  { intros z Hin. apply str_of_int_chars in Hin as [Hin|Hin]; done. }
  assert (exists r r', str_of_int (Z.of_nat i + 1) ++ 46%N :: r
                       = str_of_int (Z.of_nat j + 1) ++ 46%N :: r')
    as (r & r' & Hr).
  { destruct He as [-> | ->], He' as [-> | ->];
      [exists (py "png"), (py "png") | exists (py "png"), (py "jpg")
       | exists (py "jpg"), (py "png") | exists (py "jpg"), (py "jpg")];
      exact H. }
  apply split_at_first in Hr as [Hr _]; [|apply Hdot..].
  apply str_of_int_inj in Hr. lia.
Qed.

Section EffectProps.
Variable E : Env.

Lemma write_chunks_dirs path chunks err k fs :
  fs_dirs (write_chunks E path chunks err k fs).2 = fs_dirs fs.
Proof.
  revert k fs. induction chunks as [|c cs IH]; intros k fs; simpl.
  - by destruct err.
  - destruct (write_fault E path k); [done|]. by rewrite IH.
Qed.

Lemma write_chunks_frame path chunks err k fs p :
  p <> path ->
  fs_files (write_chunks E path chunks err k fs).2 !! p = fs_files fs !! p.
Proof.
  intros Hp. revert k fs. induction chunks as [|c cs IH]; intros k fs; simpl.
  - by destruct err.
  - destruct (write_fault E path k); [done|]. rewrite IH. simpl.
    by rewrite lookup_insert_ne.
Qed.

Lemma write_chunks_complete path chunks err k fs fs' content :
  fs_files fs !! path = Some content ->
  write_chunks E path chunks err k fs = (Return (), fs') ->
  fs_files fs' !! path = Some (content ++ concat chunks).
Proof.
  revert k fs content.
  induction chunks as [|c cs IH]; intros k fs content Hfile; simpl.
  - destruct err; [done|]. intros [= <-]. by rewrite app_nil_r.
  - destruct (write_fault E path k); [done|]. intros Hrun.
    apply (IH _ _ (content ++ c)) in Hrun.
    + by rewrite <- app_assoc in Hrun.
    + simpl. by rewrite lookup_insert_eq, Hfile.
Qed.

Lemma download_image_files_frame (image_url folder_path name : str) (fs : FS) p :
  (forall ext, ext = py ".png" \/ ext = py ".jpg" ->
               p <> os_path_join folder_path (name ++ ext)) ->
  fs_files (download_image E image_url folder_path name fs).2 !! p
  = fs_files fs !! p.
Proof.
  unfold download_image, download_image_body, open_wb. intros Hp.
  destruct (http E image_url) as [resp|]; [|done].
  destruct (raise_for_status resp); [|done].
  specialize (Hp _ (extension_of_cases (default [] (content_type resp)))).
  destruct (open_fault E _); [done|].
  match goal with
  | |- context [write_chunks E ?q ?cs ?er ?k ?f] =>
      pose proof (write_chunks_frame q cs er k f p Hp) as Hf;
      destruct (write_chunks E q cs er k f) as [[|] ?]
  end; simpl in *; by rewrite Hf, lookup_insert_ne.
Qed.

Lemma download_image_writes_body
    (image_url folder_path name filename : str) (fs fs' : FS)
    (response : Response) :
  http E image_url = Return response ->
  download_image E image_url folder_path name fs = (Some filename, fs') ->
  fs_files fs'
    !! os_path_join folder_path
         (name ++ extension_of (default [] (content_type response)))
  = Some (concat (iter_content response)).
Proof.
  unfold download_image, download_image_body, open_wb. intros ->.
  destruct (raise_for_status response); [|done].
  destruct (open_fault E _); [done|].
  destruct (write_chunks _ _ _ _ _ _) as [[[]|] fs1] eqn:Hw; [|done].
  intros [= <- <-].
  apply (write_chunks_complete _ _ _ _ _ _ []) in Hw; [done|].
  simpl. by rewrite lookup_insert_eq.
Qed.

(** X10. A download changes at most one file, the image path it computes
    from the folder, the name and the extension, and no directory; and a
    download that fails before the file is opened (the fetch raises, the
    status is an error, or [open] raises) leaves the file system as it
    was. *)
Theorem X10_download_frame
    (image_url folder_path name : str) (fs : FS) :
  fs_dirs (download_image E image_url folder_path name fs).2 = fs_dirs fs
  /\ (forall p,
      (forall ext, ext = py ".png" \/ ext = py ".jpg" ->
                   p <> os_path_join folder_path (name ++ ext)) ->
      fs_files (download_image E image_url folder_path name fs).2 !! p
      = fs_files fs !! p)
  /\ ((exists e, http E image_url = Raise e)
      \/ (exists response e,
           http E image_url = Return response
           /\ (raise_for_status response = Raise e
               \/ open_fault E
                    (os_path_join folder_path
                       (name ++ extension_of
                                  (default [] (content_type response))))
                  = Some e)) ->
      download_image E image_url folder_path name fs = (None, fs)).
Proof.
  unfold download_image, download_image_body, open_wb.
  split; [|split].
  - destruct (http E image_url) as [resp|]; [|done].
    destruct (raise_for_status resp); [|done].
    destruct (open_fault E _); [done|].
    match goal with
    | |- context [write_chunks E ?p ?cs ?er ?k ?f] =>
        pose proof (write_chunks_dirs p cs er k f) as Hd;
        destruct (write_chunks E p cs er k f) as [[|] ?]
    end; done.
  - intros p Hp.
    by apply (download_image_files_frame image_url folder_path name fs p).
  - intros [[e ->]|(resp & e & -> & [-> | Ho])]; [done..|].
    destruct (raise_for_status resp); [|done]. by rewrite Ho.
Qed.

(** X11. A download that returns a file name has written the complete
    body: the file at the image path holds all the chunks, in order, and
    nothing of what the path held before; the name returned is the last
    component of that path. *)
Theorem X11_download_complete
    (image_url folder_path name filename : str) (fs fs' : FS) :
  download_image E image_url folder_path name fs = (Some filename, fs') ->
  exists response,
    http E image_url = Return response
    /\ raise_for_status response = Return ()
    /\ iter_error response = None
    /\ let image_path :=
         os_path_join folder_path
           (name ++ extension_of (default [] (content_type response))) in
       filename = basename image_path
       /\ fs_files fs' !! image_path = Some (concat (iter_content response)).
Proof.
  unfold download_image, download_image_body, open_wb.
  destruct (http E image_url) as [resp|]; [|done].
  destruct (raise_for_status resp) as [[]|] eqn:Hst; [|done].
  destruct (open_fault E _); [done|].
  destruct (write_chunks _ _ _ _ _ _) as [[[]|] fs1] eqn:Hw; [|done].
  intros [= <- <-]. exists resp. split; [done|]. split; [done|].
  split.
  - revert Hw. generalize 0%nat.
    generalize ({| fs_files :=
                     <[os_path_join folder_path
                         (name ++ extension_of (default [] (content_type resp)))
                       := []]> (fs_files fs);
                   fs_dirs := fs_dirs fs |}).
    induction (iter_content resp) as [|c cs IH]; intros f k; simpl.
    + by destruct (iter_error resp).
    + destruct (write_fault E _ k); [done|]. apply IH.
  - split; [done|].
    apply (write_chunks_complete _ _ _ _ _ _ []) in Hw; [done|].
    simpl. by rewrite lookup_insert_eq.
Qed.

Variables listing_folder folder_name : str.

Lemma asset_reference_path (i : nat) im path :
  asset_reference E listing_folder folder_name i im = Some path ->
  exists ext,
    (ext = py ".png" \/ ext = py ".jpg")
    /\ path = os_path_join folder_name (image_name i ++ ext).
Proof.
  unfold asset_reference.
  destruct (img_src im) as [[src|]|]; try done.
  destruct (truthy src); [|done].
  destruct (download_image E src listing_folder (image_name i) empty_fs).1
    as [filename|] eqn:Hd; [|done].
  intros [= <-].
  destruct (download_image_filename E _ _ _ _ _ Hd) as [-> | ->]; eauto.
Qed.

(** X12. The references a listing's harvest records are pairwise distinct,
    and there are at most as many as images were found. *)
Theorem X12_references_distinct (imgs : list ImgElement) (fs : FS) :
  NoDup (download_images E listing_folder folder_name 0 imgs [] fs).1
  /\ (length (download_images E listing_folder folder_name 0 imgs [] fs).1
      <= length imgs)%nat.
Proof.
  rewrite (download_images_spec E listing_folder folder_name imgs 0 [] fs).
  cbn [app plus]. split.
  - apply NoDup_omap_imap. intros i j x y p _ _ Hi Hj.
    apply asset_reference_path in Hi as (ext & He & ->).
    apply asset_reference_path in Hj as (ext' & He' & Hj).
    apply os_path_join_inj in Hj; [|apply image_name_not_absolute..].
    symmetry in Hj. by apply image_file_inj in Hj.
  - etrans; [apply length_omap_le|]. by rewrite length_imap.
Qed.

Lemma download_images_frame imgs (k : nat) acc fs p :
  (forall j ext, (k <= j)%nat -> ext = py ".png" \/ ext = py ".jpg" ->
                 p <> os_path_join listing_folder (image_name j ++ ext)) ->
  fs_files (download_images E listing_folder folder_name k imgs acc fs).2 !! p
  = fs_files fs !! p.
Proof.
  revert k acc fs. induction imgs as [|im rest IH]; intros k acc fs Hp;
    simpl; [done|].
  assert (Hrest : forall acc' fs',
    fs_files (download_images E listing_folder folder_name (S k) rest acc' fs').2
      !! p = fs_files fs' !! p).
  { intros acc' fs'. apply IH. intros j ext Hj. apply Hp. lia. }
  destruct (img_src im) as [[src|]|]; try apply Hrest.
  destruct (truthy src); [|apply Hrest].
  pose proof (download_image_files_frame src listing_folder (image_name k)
                fs p (fun ext He => Hp k ext (le_n k) He)) as Hframe.
  destruct (download_image E src listing_folder (image_name k) fs)
    as [[filename|] fs1]; simpl in Hframe.
  - destruct (truthy filename); by rewrite Hrest.
  - by rewrite Hrest.
Qed.

Lemma download_images_keeps
    (imgs : list ImgElement) (k i : nat) (acc : list str) (fs : FS)
    (im : ImgElement) (src path : str) (response : Response) :
  imgs !! i = Some im ->
  img_src im = Return (Some src) ->
  http E src = Return response ->
  asset_reference E listing_folder folder_name (k + i) im = Some path ->
  fs_files (download_images E listing_folder folder_name k imgs acc fs).2
    !! os_path_join listing_folder
         (image_name (k + i)
          ++ extension_of (default [] (content_type response)))
  = Some (concat (iter_content response)).
Proof.
  intros Hi Hsrc Hhttp. revert k i acc fs Hi.
  induction imgs as [|x rest IH]; intros k i acc fs Hi Href; [done|].
  destruct i as [|i].
  - injection Hi as ->. rewrite Nat.add_0_r in *.
    unfold asset_reference in Href. rewrite Hsrc in Href.
    cbn [download_images]. rewrite Hsrc.
    destruct (truthy src); [|done].
    rewrite (download_image_outcome_indep E src listing_folder
               (image_name k) empty_fs fs) in Href.
    destruct (download_image E src listing_folder (image_name k) fs)
      as [[filename|] fs1] eqn:Hd; [|done].
    apply (download_image_writes_body _ _ _ _ _ _ _ Hhttp) in Hd as Hfile.
    assert (Hkeep : forall acc',
      fs_files (download_images E listing_folder folder_name (S k) rest
                  acc' fs1).2
        !! os_path_join listing_folder
             (image_name k
              ++ extension_of (default [] (content_type response)))
      = Some (concat (iter_content response))).
    { intros acc'. rewrite download_images_frame; [done|].
      intros j ext Hj He Heq.
      apply os_path_join_inj in Heq; [|apply image_name_not_absolute..].
      apply image_file_inj in Heq; [lia| |done].
      apply extension_of_cases. }
    destruct (truthy filename); apply Hkeep.
  - cbn [download_images].
    replace (k + S i)%nat with (S k + i)%nat in * by lia.
    simpl in Hi.
    destruct (img_src x) as [[s|]|]; try by apply IH.
    destruct (truthy s); [|by apply IH].
    destruct (download_image E s listing_folder (image_name k) fs)
      as [[filename|] fs1]; [|by apply IH].
    destruct (truthy filename); by apply IH.
Qed.

(** X13. Every reference the harvest records names a file that is there
    when the harvest ends, with the complete body of its image: later
    downloads of the same listing, failed or not, do not touch it. *)
Theorem X13_references_durable
    (imgs : list ImgElement) (fs : FS) (i : nat) (im : ImgElement)
    (src path : str) (response : Response) :
  imgs !! i = Some im ->
  img_src im = Return (Some src) ->
  http E src = Return response ->
  asset_reference E listing_folder folder_name i im = Some path ->
  path ∈ (download_images E listing_folder folder_name 0 imgs [] fs).1
  /\ fs_files (download_images E listing_folder folder_name 0 imgs [] fs).2
       !! os_path_join listing_folder
            (image_name i
             ++ extension_of (default [] (content_type response)))
     = Some (concat (iter_content response)).
Proof.
  intros Hi Hsrc Hhttp Href. split.
  - rewrite (download_images_spec E listing_folder folder_name imgs 0 [] fs).
    cbn [app plus]. apply elem_of_omap_imap. eauto.
  - by apply (download_images_keeps imgs 0 i [] fs im src path response).
Qed.
End EffectProps.

Lemma X10_witness :
  download_image demo_env (py "http://img/2") demo_listing_folder
    (image_name 1) empty_fs = (None, empty_fs).
Proof.
  apply (X10_download_frame demo_env (py "http://img/2") demo_listing_folder
           (image_name 1) empty_fs).
  left. exists ConnectionError. reflexivity.
Defined.

Lemma X11_witness :
  exists response,
    http demo_env (py "http://img/1") = Return response
    /\ raise_for_status response = Return ()
    /\ iter_error response = None
    /\ let image_path :=
         os_path_join demo_listing_folder
           (image_name 0
            ++ extension_of (default [] (content_type response))) in
       py "image_1.png" = basename image_path
       /\ fs_files
            (download_image demo_env (py "http://img/1") demo_listing_folder
               (image_name 0) empty_fs).2 !! image_path
          = Some (concat (iter_content response)).
Proof.
  apply (X11_download_complete demo_env (py "http://img/1")
           demo_listing_folder (image_name 0) (py "image_1.png") empty_fs).
  vm_compute. reflexivity.
Defined.

Lemma X13_witness :
  os_path_join (py "1_Dacia_Logan") (py "image_3.jpg")
    ∈ (download_images demo_env demo_listing_folder (py "1_Dacia_Logan") 0
         three_images [] empty_fs).1
  /\ fs_files
       (download_images demo_env demo_listing_folder (py "1_Dacia_Logan") 0
          three_images [] empty_fs).2
       !! os_path_join demo_listing_folder
            (image_name 2
             ++ extension_of
                  (default []
                     (content_type
                        {| raise_for_status := Return ();
                           content_type := None;
                           iter_content := [[255; 216]]%N;
                           iter_error := None |})))
     = Some (concat [[255; 216]]%N).
Proof.
  apply (X13_references_durable demo_env demo_listing_folder
           (py "1_Dacia_Logan") three_images empty_fs 2
           (img (py "http://img/3")) (py "http://img/3")).
  - reflexivity.
  - reflexivity.
  - reflexivity.
  - vm_compute. reflexivity.
Defined.

(** ** A detail visit: what it writes and what it returns *)

Lemma str_in_singleton (c : N) (s : str) : str_in [c] s = false -> c ∉ s.
Proof.
  induction s as [|a s IH]; [intros _ H; by apply elem_of_nil in H|].
  rewrite str_in_unfold. intros [Hs Hrest]%orb_false_elim.
  intros [->|Hin]%elem_of_cons; [|by apply IH].
  simpl in Hs. by rewrite N.eqb_refl in Hs.
Qed.

Lemma before_comma_spec (s : str) :
  (comma ∉ before_comma s) /\ (before_comma s `prefix_of` s).
Proof.
  induction s as [|a s [IH1 IH2]]; simpl.
  - split; [by intros ?%elem_of_nil|done].
  - destruct (N.eqb_spec a comma) as [->|Hne].
    + split; [by intros ?%elem_of_nil|apply prefix_nil].
    + split; [|by apply prefix_cons].
      by intros [?|?]%elem_of_cons.
Qed.

Lemma equipment_text_header page d :
  equipment_text (header_location page d) = equipment_text d.
Proof. unfold header_location. by destruct (location_header page). Qed.

Lemma assign_label_equipment_text label value d :
  equipment_text (assign_label label value d) = equipment_text d.
Proof.
  unfold assign_label.
  repeat (match goal with
          | |- context [if ?b then _ else _] => destruct b
          end; try done).
Qed.

Lemma scan_equipment_text elements d :
  equipment_text (fold_left scan_element elements d) = equipment_text d.
Proof.
  revert d. induction elements as [|el rest IH]; intros d; simpl; [done|].
  rewrite IH. unfold scan_element.
  destruct (value_text el), (label_text el);
    auto using assign_label_equipment_text.
Qed.

Lemma category_equipment_text page d :
  equipment_text (category_if_missing page d) = equipment_text d.
Proof.
  unfold category_if_missing. destruct (str_eqb _ _); [|done].
  by destruct (category_fallback page).
Qed.

(** An element that fails the loop: its parent cannot be read, or it is
    kept as an equipment and its own text cannot be read. *)
Lemma equipment_loop_raises eqs acc eq :
  eq ∈ eqs ->
  (exists e, parent_text eq = Raise e)
  \/ (exists parent e,
        parent_text eq = Return parent
        /\ str_in (py "Type de") parent = false
        /\ str_in (py "Ann" ++ [e_acute] ++ py "e") parent = false
        /\ str_in (py "Marque") parent = false
        /\ equipment eq = Raise e) ->
  exists e', equipment_loop eqs acc = Raise e'.
Proof.
  intros Hin Hfail. revert acc.
  induction eqs as [|x rest IH]; intros acc; [by apply elem_of_nil in Hin|].
  cbn [equipment_loop].
  apply elem_of_cons in Hin as [<-|Hin].
  - destruct Hfail as [[e He]|(parent & e & Hp & H1 & H2 & H3 & He)].
    + rewrite He. simpl. eauto.
    + rewrite Hp. unfold mbind at 1, outcome_bind at 1.
      rewrite H1, H2, H3, He. simpl. eauto.
  - destruct (parent_text x) as [parent|]; simpl; [|eauto].
    destruct (_ && _); [|by apply IH].
    destruct (equipment x); simpl; [by apply IH|eauto].
Qed.

(** X14. The seller city a visit returns never holds a comma: it is
    "N/A", or a prefix of the stripped header text, cut before the first
    comma; no attribute of the page changes it. *)
Theorem X14_seller_city_shape (page : DetailPage) :
  (comma ∉ seller_city (extract_details page))
  /\ (seller_city (extract_details page) = NA
      \/ exists header,
           location_header page = Return header
           /\ (seller_city (extract_details page) `prefix_of` strip header)).
Proof.
  assert (Hcity : seller_city (extract_details page)
                  = seller_city (header_location page all_NA)).
  { unfold extract_details. destruct (detail_elements page); [|done].
    by rewrite after_scan_seller_city, scan_seller_city. }
  rewrite Hcity. unfold header_location.
  destruct (location_header page) as [header|]; simpl.
  - destruct (str_in [comma] (strip header)) eqn:Hc.
    + destruct (before_comma_spec (strip header)) as [H1 H2].
      split; [done|]. right. eauto.
    + split; [by apply str_in_singleton|]. right. eauto.
  - split; [|by left]. vm_compute.
    intros H. repeat (apply elem_of_cons in H as [H|H]; [discriminate|]).
    by apply elem_of_nil in H.
Qed.

(** X15. The equipment list is all or nothing: one value-only leaf that
    raises (its parent cannot be read, or it is kept and its text cannot
    be read) loses the whole list, also the equipments read before it, and
    the field stays "N/A". *)
Theorem X15_equipment_all_or_nothing
    (page : DetailPage) (eqs : list EquipmentElement)
    (eq : EquipmentElement) :
  equipment_elements page = Return eqs ->
  eq ∈ eqs ->
  (exists e, parent_text eq = Raise e)
  \/ (exists parent e,
        parent_text eq = Return parent
        /\ str_in (py "Type de") parent = false
        /\ str_in (py "Ann" ++ [e_acute] ++ py "e") parent = false
        /\ str_in (py "Marque") parent = false
        /\ equipment eq = Raise e) ->
  equipment_text (extract_details page) = NA.
Proof.
  intros Heqs Hin Hfail. unfold extract_details.
  destruct (detail_elements page) as [elements|];
    [|by rewrite equipment_text_header].
  unfold equipment_step. rewrite Heqs. simpl.
  destruct (equipment_loop_raises eqs [] eq Hin Hfail) as [e' ->].
  by rewrite category_equipment_text, scan_equipment_text,
    equipment_text_header.
Qed.

(** *** The directories [os.makedirs] makes sure of *)

Lemma lstrip_slashes_length (s : str) :
  (length (lstrip_slashes s) <= length s)%nat.
Proof.
  induction s as [|c s IH]; simpl; [done|].
  destruct (c =? slash)%N; simpl; lia.
Qed.

Lemma basename_length (p : str) : (length (basename p) <= length p)%nat.
Proof.
  induction p as [|c p IH]; cbn [basename]; [done|].
  destruct (existsb _ p); [simpl; lia|].
  destruct (c =? slash)%N; simpl; lia.
Qed.

Lemma path_split_length (p head tail : str) :
  path_split p = (head, tail) ->
  (length head + length tail <= length p)%nat.
Proof.
  unfold path_split. intros [= <- <-].
  pose proof (basename_length p) as Hb.
  set (head := take (length p - length (basename p)) p).
  assert (Hh : (length head <= length p - length (basename p))%nat)
    by (subst head; rewrite length_take; lia).
  destruct (forallb _ head); [lia|].
  rewrite length_rev.
  pose proof (lstrip_slashes_length (rev head)) as Hl.
  rewrite length_rev in Hl. lia.
Qed.

(** The length of the name is fuel enough: more changes nothing. *)
Lemma makedirs_chain_fuel (n m : nat) (name : str) :
  (length name <= n)%nat -> (length name <= m)%nat ->
  makedirs_chain n name = makedirs_chain m name.
Proof.
  revert m name. induction n as [|n IH]; intros m name Hn Hm.
  - destruct name; [|simpl in Hn; lia]. by destruct m.
  - destruct m as [|m].
    { destruct name; [done|simpl in Hm; lia]. }
    cbn [makedirs_chain].
    destruct (path_split name) as [head tail] eqn:Hs.
    apply path_split_length in Hs.
    destruct (truthy tail) eqn:Ht.
    + destruct (truthy head); [|done]. cbn [andb].
      destruct tail; [done|]. simpl in Hs.
      f_equal. apply IH; lia.
    + destruct (path_split head) as [head' tail'] eqn:Hs'.
      apply path_split_length in Hs'.
      destruct (truthy head'); [|done]. cbn [andb].
      destruct tail' as [|c tail']; [done|]. simpl in Hs'. cbn [truthy].
      f_equal. apply IH; lia.
Qed.

Lemma makedirs_chain_last (fuel : nat) (name : str) :
  exists above, makedirs_chain fuel name = above ++ [name].
Proof.
  destruct fuel as [|fuel]; cbn [makedirs_chain]; [by exists []|].
  destruct (path_split name) as [head tail].
  destruct (if truthy tail then (head, tail) else path_split head)
    as [head' tail'].
  destruct (truthy head' && truthy tail'); [by eexists|by exists []].
Qed.

Lemma makedirs_dirs_self (name : str) : name ∈ makedirs_dirs name.
Proof.
  unfold makedirs_dirs.
  destruct (makedirs_chain_last (length name) name) as [above ->].
  apply elem_of_app. right. by apply list_elem_of_singleton.
Qed.

Example makedirs_dirs_base :
  makedirs_dirs images_base_folder
  = [py ".."; py "../data"; py "../data/avito"; py "../data/avito/images"].
Proof. vm_compute. reflexivity. Qed.

(** A folder name with a slash brings its own intermediate folder. *)
Example makedirs_dirs_nested :
  makedirs_dirs (os_path_join (py "images") (py "1_a/b"))
  = [py "images"; py "images/1_a"; py "images/1_a/b"].
Proof. vm_compute. reflexivity. Qed.

(** Under the image base folder, a folder name that is one path component
    adds one directory. *)
Lemma makedirs_dirs_listing (folder_name : str) :
  folder_name <> [] -> slash ∉ folder_name ->
  makedirs_dirs (os_path_join images_base_folder folder_name)
  = makedirs_dirs images_base_folder
    ++ [os_path_join images_base_folder folder_name].
Proof.
  intros Hne Hns.
  assert (Hjoin : os_path_join images_base_folder folder_name
                  = images_base_folder ++ slash :: folder_name).
  { unfold os_path_join.
    destruct folder_name as [|c rest]; [done|].
    assert (c <> slash) by (intros ->; apply Hns; by left).
    cbn [startswith]. destruct (N.eqb_spec slash c) as [?|_]; [congruence|].
    cbn [andb]. reflexivity. }
  rewrite Hjoin. unfold makedirs_dirs.
  assert (Hlen : length (images_base_folder ++ slash :: folder_name)
                 = S (length images_base_folder + length folder_name)).
  { rewrite length_app. simpl. lia. }
  rewrite Hlen. cbn [makedirs_chain].
  assert (Hsplit : path_split (images_base_folder ++ slash :: folder_name)
                   = (images_base_folder, folder_name)).
  { unfold path_split. rewrite basename_after_slash by done.
    rewrite Hlen.
    replace (S (length images_base_folder + length folder_name)
             - length folder_name)%nat
      with (length (images_base_folder ++ [slash]))
      by (rewrite length_app; simpl; lia).
    replace (images_base_folder ++ slash :: folder_name)
      with ((images_base_folder ++ [slash]) ++ folder_name)
      by (by rewrite <- app_assoc).
    rewrite take_app_length. reflexivity. }
  rewrite Hsplit.
  destruct folder_name as [|c rest]; [done|]. cbn [truthy].
  change (truthy images_base_folder) with true. cbn [andb].
  f_equal; try (apply makedirs_chain_fuel; lia).
Qed.

(** Membership in the directories made sure of. *)
Ltac dirs_facts :=
  cbn [fst snd fs_dirs];
  try (apply elem_of_subseteq; intros ?);
  rewrite ?elem_of_union, ?elem_of_list_to_set; try tauto.

Section VisitProps.
Variable E : Env.

Lemma download_image_dirs image_url folder_path name fs :
  fs_dirs (download_image E image_url folder_path name fs).2 = fs_dirs fs.
Proof.
  unfold download_image, download_image_body, open_wb.
  destruct (http E image_url) as [resp|]; [|done].
  destruct (raise_for_status resp); [|done].
  destruct (open_fault E _); [done|].
  match goal with
  | |- context [write_chunks E ?p ?cs ?er ?k ?f] =>
      pose proof (write_chunks_dirs E p cs er k f) as Hd;
      destruct (write_chunks E p cs er k f) as [[|] ?]
  end; done.
Qed.

Lemma download_images_dirs listing_folder folder_name imgs k acc fs :
  fs_dirs (download_images E listing_folder folder_name k imgs acc fs).2
  = fs_dirs fs.
Proof.
  revert k acc fs. induction imgs as [|im rest IH]; intros k acc fs;
    simpl; [done|].
  destruct (img_src im) as [[src|]|]; try apply IH.
  destruct (truthy src); [|apply IH].
  pose proof (download_image_dirs src listing_folder (image_name k) fs) as Hd.
  destruct (download_image E src listing_folder (image_name k) fs)
    as [[filename|] fs1]; simpl in Hd.
  - destruct (truthy filename); by rewrite IH.
  - by rewrite IH.
Qed.

Lemma harvest_images_dirs page listing_folder folder_name fs :
  fs_dirs (harvest_images E page listing_folder folder_name fs).2 = fs_dirs fs.
Proof.
  unfold harvest_images. destruct (image_elements page); [|done].
  apply download_images_dirs.
Qed.

Lemma harvest_images_frame page listing_folder folder_name fs p :
  (forall (k : nat) ext, ext = py ".png" \/ ext = py ".jpg" ->
     p <> os_path_join listing_folder (image_name k ++ ext)) ->
  fs_files (harvest_images E page listing_folder folder_name fs).2 !! p
  = fs_files fs !! p.
Proof.
  intros Hp. unfold harvest_images. destruct (image_elements page); [|done].
  apply download_images_frame. intros j ext _. apply Hp.
Qed.

(** X16. What a detail visit does to the disk.  The only files it touches
    are image files [image_<k>.png] or [image_<k>.jpg] inside the listing's
    own folder, and a visit that raises has written no file.  No directory
    the run had made sure of is lost.  When the visit returns a record,
    the directories made sure of are those of before, the image base
    folder, the listing's folder and the folders above them, as
    [os.makedirs] goes up the path; for a folder name that is one path
    component the listing's folder is the only one under the base.  The
    record returned has 13 elements, the folder identity last. *)
Theorem X16_visit_footprint
    (url : str) (listing_id : Z) (folder_name : str) (fs : FS) :
  let r := AvitoMain.scrape_details E url listing_id folder_name fs in
  let listing_folder := os_path_join images_base_folder folder_name in
  (forall p,
     (forall (k : nat) ext, ext = py ".png" \/ ext = py ".jpg" ->
        p <> os_path_join listing_folder (image_name k ++ ext)) ->
     fs_files r.2 !! p = fs_files fs !! p)
  /\ fs_dirs fs ⊆ fs_dirs r.2
  /\ (forall row, r.1 = Return row ->
        (forall d, d ∈ fs_dirs r.2
                   <-> d ∈ makedirs_dirs listing_folder
                       \/ d ∈ makedirs_dirs images_base_folder
                       \/ d ∈ fs_dirs fs)
        /\ (folder_name <> [] -> slash ∉ folder_name ->
            forall d, d ∈ fs_dirs r.2
                      <-> d = listing_folder
                          \/ d ∈ makedirs_dirs images_base_folder
                          \/ d ∈ fs_dirs fs)
        /\ images_base_folder ∈ fs_dirs r.2 /\ listing_folder ∈ fs_dirs r.2
        /\ length row = 13%nat /\ row !! 12%nat = Some folder_name)
  /\ (forall e, r.1 = Raise e -> fs_files r.2 = fs_files fs).
Proof.
  intros r listing_folder. subst r listing_folder.
  assert (Hdirs : forall D : gset str,
    (forall d, d ∈ list_to_set
                     (makedirs_dirs
                        (os_path_join images_base_folder folder_name))
                   ∪ (list_to_set (makedirs_dirs images_base_folder) ∪ D)
               <-> d ∈ makedirs_dirs
                         (os_path_join images_base_folder folder_name)
                   \/ d ∈ makedirs_dirs images_base_folder \/ d ∈ D)
    /\ (folder_name <> [] -> slash ∉ folder_name ->
        forall d, d ∈ list_to_set
                        (makedirs_dirs
                           (os_path_join images_base_folder folder_name))
                      ∪ (list_to_set (makedirs_dirs images_base_folder) ∪ D)
                  <-> d = os_path_join images_base_folder folder_name
                      \/ d ∈ makedirs_dirs images_base_folder \/ d ∈ D)
    /\ images_base_folder
         ∈ list_to_set
             (makedirs_dirs (os_path_join images_base_folder folder_name))
           ∪ (list_to_set (makedirs_dirs images_base_folder) ∪ D)
    /\ os_path_join images_base_folder folder_name
         ∈ list_to_set
             (makedirs_dirs (os_path_join images_base_folder folder_name))
           ∪ (list_to_set (makedirs_dirs images_base_folder) ∪ D)).
  { intros D.
    pose proof (makedirs_dirs_self images_base_folder) as Hb.
    pose proof (makedirs_dirs_self
                  (os_path_join images_base_folder folder_name)) as Hl.
    split; [|split; [|split]].
    - intros d. rewrite !elem_of_union, !elem_of_list_to_set. tauto.
    - intros Hne Hns d. rewrite makedirs_dirs_listing by done.
      rewrite !elem_of_union, !elem_of_list_to_set, elem_of_app,
        list_elem_of_singleton. tauto.
    - rewrite !elem_of_union, !elem_of_list_to_set. tauto.
    - rewrite !elem_of_union, !elem_of_list_to_set. tauto. }
  unfold AvitoMain.scrape_details, makedirs.
  destruct (detail_get _); [|by split; [|split]].
  destruct (makedirs_fault E images_base_folder); [by split; [|split]|].
  cbn [fs_files fs_dirs].
  destruct (makedirs_fault E _);
    [by split; [|split; [dirs_facts|]]|].
  destruct (detail_scroll _).
  - match goal with
    | |- context [harvest_images E ?pg ?lf ?fn ?f] =>
        pose proof (harvest_images_dirs pg lf fn f) as Hd;
        pose proof (harvest_images_frame pg lf fn f) as Hf;
        destruct (harvest_images E pg lf fn f) as [paths fs1]
    end.
    cbn [fst snd fs_files fs_dirs] in *. rewrite Hd.
    split; [intros p Hp; by apply Hf|].
    split; [dirs_facts|].
    split; [|done]. intros row [= <-].
    destruct (Hdirs (fs_dirs fs)) as (H1 & H2 & H3 & H4). done.
  - cbn [fst snd fs_files fs_dirs]. split; [done|]. split; [dirs_facts|].
    split; [|done]. intros row [= <-].
    destruct (Hdirs (fs_dirs fs)) as (H1 & H2 & H3 & H4). done.
Qed.

Lemma scrape_details_row url listing_id folder_name fs row fs' :
  AvitoMain.scrape_details E url listing_id folder_name fs = (Return row, fs') ->
  length row = 13%nat /\ row !! 12%nat = Some folder_name.
Proof.
  unfold AvitoMain.scrape_details, makedirs.
  destruct (detail_get _); [|done].
  destruct (makedirs_fault E images_base_folder); [done|].
  cbn [fs_files fs_dirs].
  destruct (makedirs_fault E _); [done|]. forget_dirs.
  destruct (detail_scroll _).
  - destruct (harvest_images _ _ _ _ _). by intros [= <- _].
  - by intros [= <- _].
Qed.

Lemma scrape_details_returns url listing_id folder_name fs :
  detail_get (web E url) = Return () ->
  makedirs_fault E images_base_folder = None ->
  makedirs_fault E (os_path_join images_base_folder folder_name) = None ->
  exists row fs',
    AvitoMain.scrape_details E url listing_id folder_name fs = (Return row, fs').
Proof.
  intros Hget Hmk1 Hmk2. unfold AvitoMain.scrape_details, makedirs.
  rewrite Hget, Hmk1. cbn [fs_files fs_dirs]. rewrite Hmk2.
  destruct (detail_scroll _); [|eauto].
  destruct (harvest_images _ _ _ _ _). eauto.
Qed.

Lemma visit_rows_merge basic_data detailed_data idx fs rows fs' :
  AvitoMain.visit_rows E basic_data detailed_data idx fs = (Return rows, fs') ->
  exists body,
    rows = detailed_data ++ body
    /\ length body = length basic_data
    /\ forall (i : nat) basic_row row,
         basic_data !! i = Some basic_row -> body !! i = Some row ->
         take 8 row = take 8 basic_row
         /\ length row = 21%nat
         /\ row !! 20%nat = basic_row !! 9%nat.
Proof.
  revert detailed_data idx fs.
  induction basic_data as [|brow rest IH]; intros detailed_data idx fs;
    cbn [AvitoMain.visit_rows].
  - intros [= <- _]. exists []. rewrite app_nil_r. split; [done|].
    split; [done|]. intros i ? ? Hi. by rewrite lookup_nil in Hi.
  - destruct (brow !! 8%nat) as [url|] eqn:Hurl; [|done].
    destruct (brow !! 9%nat) as [folder_name|] eqn:Hf; [|done].
    destruct (AvitoMain.scrape_details _ _ _ _ _) as [[details|] fs1]
      eqn:Hdet; [|done].
    intros (body & -> & Hlen & Hbody)%IH.
    exists ((take 8 brow ++ details) :: body).
    split; [by rewrite <- app_assoc|]. split; [simpl; by rewrite Hlen|].
    apply scrape_details_row in Hdet as [Hd13 Hd12].
    apply lookup_lt_Some in Hurl as Hlt.
    assert (Ht : length (take 8 brow) = 8%nat) by (rewrite length_take; lia).
    intros [|i] basic_row row; simpl; [|by apply Hbody].
    intros [= <-] [= <-].
    split; [by rewrite take_app_length'|].
    split; [rewrite length_app; lia|].
    rewrite lookup_app_r by lia. rewrite Ht, Hf. exact Hd12.
Qed.

Lemma visit_rows_completes basic_data detailed_data idx fs :
  makedirs_fault E images_base_folder = None ->
  (forall basic_row, basic_row ∈ basic_data ->
     exists url folder_name,
       basic_row !! 8%nat = Some url /\ basic_row !! 9%nat = Some folder_name
       /\ detail_get (web E url) = Return ()
       /\ makedirs_fault E (os_path_join images_base_folder folder_name)
          = None) ->
  exists rows fs',
    AvitoMain.visit_rows E basic_data detailed_data idx fs = (Return rows, fs').
Proof.
  intros Hbase. revert detailed_data idx fs.
  induction basic_data as [|brow rest IH]; intros detailed_data idx fs Hgood;
    cbn [AvitoMain.visit_rows]; [eauto|].
  destruct (Hgood brow) as (url & folder_name & -> & -> & Hget & Hmk);
    [by left|].
  destruct (scrape_details_returns url idx folder_name fs Hget Hbase Hmk)
    as (row & fs1 & ->).
  apply IH. intros b Hb. apply Hgood. by right.
Qed.

(** X17. The detail phase merges in order: when [process_detailed_data]
    comes to its end, the rows it hands to the writer are the 21-name
    header and then one row per listing of the input, in the input's order,
    each with the listing's first eight cells unchanged, 21 cells in all,
    and the listing's folder identity in the last one.  It comes to its end
    whenever every row has its ten cells, every navigation succeeds and the
    two folders can be made. *)
Theorem X17_detail_phase_merges_in_order
    (basic_data : list (list str)) (fs : FS) :
  (forall rows fs',
     AvitoMain.process_detailed_data E basic_data fs = (Return rows, fs') ->
     exists body,
       rows = AvitoMain.new_headers :: body
       /\ length body = length basic_data
       /\ forall (i : nat) basic_row row,
            basic_data !! i = Some basic_row -> body !! i = Some row ->
            take 8 row = take 8 basic_row
            /\ length row = length AvitoMain.new_headers
            /\ row !! 20%nat = basic_row !! 9%nat)
  /\ (makedirs_fault E images_base_folder = None ->
      (forall basic_row, basic_row ∈ basic_data ->
         exists url folder_name,
           basic_row !! 8%nat = Some url
           /\ basic_row !! 9%nat = Some folder_name
           /\ detail_get (web E url) = Return ()
           /\ makedirs_fault E (os_path_join images_base_folder folder_name)
              = None) ->
      exists rows fs',
        AvitoMain.process_detailed_data E basic_data fs = (Return rows, fs')).
Proof.
  unfold AvitoMain.process_detailed_data. split.
  - intros rows fs' (body & -> & Hlen & Hbody)%visit_rows_merge.
    exists body. split; [done|]. split; [done|].
    intros i basic_row row Hi Hr.
    destruct (Hbody i basic_row row Hi Hr) as (? & ? & ?). done.
  - intros Hbase Hgood. by apply visit_rows_completes.
Qed.
End VisitProps.

Lemma X15_witness :
  equipment_text (extract_details stale_equipment_page) = NA.
Proof.
  apply (X15_equipment_all_or_nothing stale_equipment_page
           [{| parent_text := Return (py "ABS"); equipment := Return (py "ABS") |};
            {| parent_text := Raise StaleElementReferenceException;
               equipment := Return (py "Airbags") |};
            {| parent_text := Return (py "CD"); equipment := Return (py "CD") |}]
           {| parent_text := Raise StaleElementReferenceException;
              equipment := Return (py "Airbags") |}).
  - reflexivity.
  - apply elem_of_cons. right. apply elem_of_cons. by left.
  - left. exists StaleElementReferenceException. reflexivity.
Defined.

Lemma X17_witness :
  exists rows fs',
    AvitoMain.process_detailed_data env_all_good two_basic_rows empty_fs
    = (Return rows, fs').
Proof.
  apply (X17_detail_phase_merges_in_order env_all_good two_basic_rows empty_fs).
  - reflexivity.
  - intros basic_row Hin. unfold two_basic_rows in Hin.
    apply elem_of_cons in Hin as [-> | Hin].
    + eexists _, _. repeat split; reflexivity.
    + apply list_elem_of_singleton in Hin as ->.
      eexists _, _. repeat split; reflexivity.
Defined.

(** ** The page range and the files it names *)

Section PageRangeProps.
Variable int_of_line : str -> option Z.

Lemma get_page_range_bounded (n : nat) (stdin : list str) (s e : Z) :
  (length stdin <= n)%nat ->
  get_page_range int_of_line stdin = Some (s, e) ->
  0 < s /\ s <= e
  /\ exists before line1 line2 after,
       stdin = before ++ line1 :: line2 :: after
       /\ int_of_line line1 = Some s /\ int_of_line line2 = Some e.
Proof.
  revert stdin. induction n as [|n IH]; intros stdin Hn.
  - destruct stdin; [done|simpl in Hn; lia].
  - destruct stdin as [|line1 rest]; [done|]. simpl in Hn.
    cbn [get_page_range].
    destruct (int_of_line line1) as [start_page|] eqn:H1.
    + destruct rest as [|line2 rest']; [done|]. simpl in Hn.
      assert (Hskip : get_page_range int_of_line rest' = Some (s, e) ->
        0 < s /\ s <= e
        /\ exists before l1 l2 after,
             line1 :: line2 :: rest' = before ++ l1 :: l2 :: after
             /\ int_of_line l1 = Some s /\ int_of_line l2 = Some e).
      { intros (? & ? & before & l1 & l2 & after & -> & ? & ?)%IH; [|lia].
        split; [done|]. split; [done|].
        by exists (line1 :: line2 :: before), l1, l2, after. }
      destruct (int_of_line line2) as [end_page|] eqn:H2; [|done].
      destruct (_ || _) eqn:Hpos; [done|].
      destruct (start_page >? end_page) eqn:Hgt; [done|].
      intros [= <- <-]. apply orb_false_elim in Hpos as [Hs He].
      split; [lia|]. split; [lia|]. by exists [], line1, line2, rest'.
    + intros (? & ? & before & l1 & l2 & after & -> & ? & ?)%IH; [|lia].
      split; [done|]. split; [done|].
      by exists (line1 :: before), l1, l2, after.
Qed.

(** X18. A range [get_page_range] returns is a pair of two lines that
    follow each other on the input and read as integers, with
    [0 < start <= end]: no zero, negative or reversed range leaves the
    loop.  A first line that reads as no integer costs one line; and an
    admissible pair at the head of the input is accepted as it is. *)
Theorem X18_page_range_validated (stdin : list str) :
  (forall s e,
     get_page_range int_of_line stdin = Some (s, e) ->
     0 < s /\ s <= e
     /\ exists before line1 line2 after,
          stdin = before ++ line1 :: line2 :: after
          /\ int_of_line line1 = Some s /\ int_of_line line2 = Some e)
  /\ (forall line1 line2 after s e,
        stdin = line1 :: line2 :: after ->
        int_of_line line1 = Some s -> int_of_line line2 = Some e ->
        0 < s -> s <= e ->
        get_page_range int_of_line stdin = Some (s, e))
  /\ (forall line1 after,
        stdin = line1 :: after -> int_of_line line1 = None ->
        get_page_range int_of_line stdin = get_page_range int_of_line after).
Proof.
  split; [|split].
  - intros s e. by apply (get_page_range_bounded (length stdin)).
  - intros line1 line2 after s e -> H1 H2 Hs Hle.
    cbn [get_page_range]. rewrite H1, H2.
    replace (s <=? 0) with false by lia.
    replace (e <=? 0) with false by lia.
    replace (s >? e) with false by lia. done.
  - intros line1 after -> H1. cbn [get_page_range]. by rewrite H1.
Qed.
End PageRangeProps.

Lemma str_of_int_no_dot (z : Z) : 46%N ∉ str_of_int z.
Proof. by intros [?|?]%str_of_int_chars. Qed.

Lemma range_name_inj (prefix : str) (s e s' e' : Z) :
  45%N ∉ prefix -> 0 <= s -> 0 <= s' ->
  prefix ++ str_of_int s ++ py "-p" ++ str_of_int e ++ py ".csv"
  = prefix ++ str_of_int s' ++ py "-p" ++ str_of_int e' ++ py ".csv" ->
  s = s' /\ e = e'.
Proof.
  intros Hp Hs Hs' Heq. apply app_inv_head in Heq.
  change (py "-p") with (45%N :: py "p") in Heq.
  cbn [app] in Heq.
  apply split_at_first in Heq as [H1 H2];
    [|by apply str_of_int_nonneg_no_hyphen..].
  split; [by apply str_of_int_inj|].
  apply app_inv_head, app_inv_tail in H2. by apply str_of_int_inj.
Qed.

(** X19. The two phases meet on the file of a range: the name the
    discovery phase saves under is the name the detail phase opens; for
    ranges that pass the validation, different ranges never share a name
    (so no range's listings or details overwrite another's); and the
    detail phase never writes over a listings file. *)
Theorem X19_range_files (s e s' e' : Z) :
  listings_filename s e = input_filename s e
  /\ (0 <= s -> 0 <= s' ->
      (input_filename s e = input_filename s' e' -> s = s' /\ e = e')
      /\ (output_filename s e = output_filename s' e' -> s = s' /\ e = e'))
  /\ os_path_join data_folder (output_filename s e)
     <> os_path_join data_folder (input_filename s' e').
Proof.
  split; [|split].
  - unfold listings_filename, file_suffix, input_filename.
    change (py "avito_listings_p") with (py "avito_listings_" ++ py "p").
    by rewrite <- !app_assoc.
  - intros Hs Hs'. split; apply range_name_inj; try done.
    + vm_compute. intros H.
      repeat (apply elem_of_cons in H as [H|H]; [discriminate|]).
      by apply elem_of_nil in H.
    + vm_compute. intros H.
      repeat (apply elem_of_cons in H as [H|H]; [discriminate|]).
      by apply elem_of_nil in H.
  - unfold os_path_join, output_filename, input_filename.
    change (startswith [slash] (py "avito_details_p" ++ ?x))
      with false.
    change (startswith [slash] (py "avito_listings_p" ++ ?x))
      with false.
    destruct (last data_folder) as [c|]; [destruct (c =? slash)%N|].
    + intros H%app_inv_head. discriminate.
    + intros H%app_inv_head. discriminate.
    + discriminate.
Qed.

(** ** [send_to_kafka]: the message *)

Lemma dict_zip_other (headers : list str) (data : list cell)
    (m : gmap str cell) (h : str) :
  h ∉ headers ->
  fold_left (fun car_dict kv => <[kv.1 := kv.2]> car_dict)
    (zip headers data) m !! h = m !! h.
Proof.
  revert data m. induction headers as [|h0 hs IH]; intros [|d ds] m Hh;
    simpl; try done.
  rewrite IH by (intros ?; apply Hh; by right).
  apply lookup_insert_ne. intros ->. apply Hh. by left.
Qed.

Lemma dict_zip_entry (headers : list str) (data : list cell)
    (m : gmap str cell) (i : nat) (h : str) (c : cell) :
  NoDup headers -> headers !! i = Some h -> data !! i = Some c ->
  fold_left (fun car_dict kv => <[kv.1 := kv.2]> car_dict)
    (zip headers data) m !! h = Some c.
Proof.
  intros Hnd. revert data m i.
  induction Hnd as [|h0 hs Hnot Hnd IH]; intros [|d ds] m [|i]; simpl;
    try done.
  - intros [= ->] [= ->]. rewrite dict_zip_other by done.
    apply lookup_insert_eq.
  - apply IH.
Qed.

Lemma dict_zip_origin (headers : list str) (data : list cell)
    (m : gmap str cell) (h : str) (c : cell) :
  fold_left (fun car_dict kv => <[kv.1 := kv.2]> car_dict)
    (zip headers data) m !! h = Some c ->
  m !! h = Some c
  \/ exists i, headers !! i = Some h /\ data !! i = Some c.
Proof.
  revert data m. induction headers as [|h0 hs IH]; intros [|d ds] m; simpl;
    try (by left).
  intros [Hm|(i & Hi & Hd)]%IH.
  - destruct (decide (h0 = h)) as [->|Hne].
    + rewrite lookup_insert_eq in Hm. injection Hm as ->.
      right. by exists 0%nat.
    + rewrite lookup_insert_ne in Hm by done. by left.
  - right. by exists (S i).
Qed.

(** X20. The message [send_to_kafka] hands to the producer pairs names
    and cells by position: with distinct names, the entry of the name at
    position [i] is the cell at position [i], and a name beyond the row
    has no entry; every entry comes from a position the header has, so the
    cells of a row beyond the header's length are in no message.  The call
    reports success exactly when there is a producer and the broker
    acknowledges that message. *)
Theorem X20_kafka_message_by_position
    (producer : option Producer) (topic : str) (data : list cell)
    (headers : list str) :
  NoDup headers ->
  (forall (i : nat) h, headers !! i = Some h ->
     dict_zip headers data !! h = data !! i)
  /\ (forall h c, dict_zip headers data !! h = Some c ->
        exists i, (i < length headers)%nat
                  /\ headers !! i = Some h /\ data !! i = Some c)
  /\ (send_to_kafka producer topic data headers = true
      <-> exists p, producer = Some p
            /\ send_and_get p topic (dict_zip headers data) = Return ()).
Proof.
  intros Hnd. unfold dict_zip. split; [|split].
  - intros i h Hi. destruct (data !! i) as [c|] eqn:Hd.
    + by apply (dict_zip_entry headers data ∅ i).
    + apply eq_None_not_Some. intros [c Hc].
      apply dict_zip_origin in Hc as [Hc|(j & Hj & Hdj)]; [done|].
      assert (i = j) as -> by (by eapply NoDup_lookup).
      by rewrite Hd in Hdj.
  - intros h c [Hc|(i & Hi & Hd)]%dict_zip_origin; [done|].
    exists i. split; [by eapply lookup_lt_Some|done].
  - unfold send_to_kafka, dict_zip. split.
    + destruct producer as [p|]; [|done].
      destruct (send_and_get p topic _) as [[]|] eqn:Hs; [|done].
      intros _. by exists p.
    + intros (p & -> & ->). done.
Qed.

(** ** The single-page script *)

Section SinglePageProps.
Variable U : UCD.
Variable E : Env.

(** X21. The discovery of avito_scraper.py is the discovery of
    avito_initial.py on the range from page 1 to page 1: the same rows,
    the same ordinals and folder identities, and the same exception when
    the navigation fails. *)
Theorem X21_single_page_is_range_one_to_one (page1 : ListingsPage) :
  AvitoScraper.scrape_avito U page1
  = AvitoInitial.scrape_avito U (fun _ => page1) 1 1.
Proof.
  unfold AvitoScraper.scrape_avito, AvitoInitial.scrape_avito.
  change (py_range 1 (1 + 1)) with [1]. cbn [AvitoInitial.scrape_pages].
  destruct (page_get page1) as [[]|]; [|done]. simpl.
  destruct (page_wait page1); [|done].
  destruct (_ ← page_scroll page1; page_listings page1) as [[|l ls]|];
    try done.
  by destruct (scrape_listings U (l :: ls) [] 1).
Qed.

Lemma scraper_details_row url listing_id folder_name fs row fs' :
  AvitoScraper.scrape_details E url listing_id folder_name fs
  = (Return row, fs') ->
  length row = 14%nat /\ row !! 12%nat = Some folder_name.
Proof.
  unfold AvitoScraper.scrape_details, makedirs.
  destruct (detail_get _); [|done].
  destruct (makedirs_fault E images_base_folder); [done|].
  cbn [fs_files fs_dirs].
  destruct (makedirs_fault E _); [done|]. forget_dirs.
  destruct (detail_scroll _).
  - destruct (harvest_images _ _ _ _ _). by intros [= <- _].
  - by intros [= <- _].
Qed.

Lemma scraper_visit_rows_merge basic_data complete_data fs rows fs' :
  AvitoScraper.visit_rows E basic_data complete_data fs = (Return rows, fs') ->
  exists body,
    rows = complete_data ++ body
    /\ length body = length basic_data
    /\ forall (i : nat) basic_row row,
         basic_data !! i = Some basic_row -> body !! i = Some row ->
         take 8 row = take 8 basic_row
         /\ row !! 20%nat = basic_row !! 9%nat.
Proof.
  revert complete_data fs.
  induction basic_data as [|brow rest IH]; intros complete_data fs;
    cbn [AvitoScraper.visit_rows].
  - intros [= <- _]. exists []. rewrite app_nil_r. split; [done|].
    split; [done|]. intros i ? ? Hi. by rewrite lookup_nil in Hi.
  - destruct (brow !! 0%nat) as [listing_id|]; [|done].
    destruct (brow !! 8%nat) as [[z|url]|] eqn:Hurl,
             (brow !! 9%nat) as [[z'|folder_name]|] eqn:Hf; try done.
    destruct (AvitoScraper.scrape_details _ _ _ _ _) as [[details|] fs1]
      eqn:Hdet; [|done].
    intros (body & -> & Hlen & Hbody)%IH.
    exists ((take 8 brow ++ List.map CStr details) :: body).
    split; [by rewrite <- app_assoc|]. split; [simpl; by rewrite Hlen|].
    apply scraper_details_row in Hdet as [Hd14 Hd12].
    apply lookup_lt_Some in Hurl as Hlt.
    assert (Ht : length (take 8 brow) = 8%nat) by (rewrite length_take; lia).
    intros [|i] basic_row row; simpl; [|by apply Hbody].
    intros [= <-] [= <-].
    split; [by rewrite take_app_length'|].
    rewrite lookup_app_r by lia. rewrite Ht, Hf.
    change (20 - 8)%nat with 12%nat.
    by rewrite list_lookup_fmap, Hd12.
Qed.

(** X22. How [main] of avito_scraper.py ends.  It returns normally only
    when the discovery finds no listing, and then nothing is saved.  When
    a file is saved, it has one row per discovered listing, in order, each
    keeping the listing's first eight cells and its folder identity, and
    the run then ends with [NameError]: the closing message reads a name
    that is never bound. *)
Theorem X22_single_page_run_ends (page1 : ListingsPage) (fs : FS) :
  (exit (AvitoScraper.main U E page1 fs).1 = Return () ->
   AvitoScraper.scrape_avito U page1 = Return []
   /\ saved_csv (AvitoScraper.main U E page1 fs).1 = None)
  /\ (forall header rows,
        saved_csv (AvitoScraper.main U E page1 fs).1 = Some (header, rows) ->
        exit (AvitoScraper.main U E page1 fs).1 = Raise NameError
        /\ exists basic_data,
             AvitoScraper.scrape_avito U page1 = Return basic_data
             /\ length rows = length basic_data
             /\ forall (i : nat) basic_row row,
                  basic_data !! i = Some basic_row -> rows !! i = Some row ->
                  take 8 row = take 8 basic_row
                  /\ row !! 20%nat = basic_row !! 9%nat).
Proof.
  unfold AvitoScraper.main.
  destruct (AvitoScraper.scrape_avito U page1) as [[|brow basic_data]|]
    eqn:Hbasic.
  - split; [done|]. by intros ? ? [=].
  - destruct (AvitoScraper.visit_rows _ _ _ _) as [[complete_data|] fs']
      eqn:Hrun; cbn [fst snd exit saved_csv].
    + split; [done|].
      intros header rows [= <- <-]. split; [done|].
      exists (brow :: basic_data). split; [done|].
      apply scraper_visit_rows_merge in Hrun as (body & -> & Hlen & Hbody).
      done.
    + split; [done|]. by intros ? ? [=].
  - cbn [fst snd exit saved_csv]. split; [done|]. by intros ? ? [=].
Qed.
End SinglePageProps.

Lemma X18_witness :
  get_page_range (int_of_numeral ascii_ucd) [py "3"; py "7"; py "9"] = Some (3, 7).
Proof.
  apply (X18_page_range_validated (int_of_numeral ascii_ucd) [py "3"; py "7"; py "9"])
    with (line1 := py "3") (line2 := py "7") (after := [py "9"]).
  - reflexivity.
  - reflexivity.
  - reflexivity.
  - lia.
  - lia.
Defined.

(** Letters, a zero and a reversed pair are passed over. *)
Example page_range_after_rejects :
  get_page_range (int_of_numeral ascii_ucd)
    [py "abc"; py "0"; py "5"; py "9"; py "2"; py " 3"; py "7 "; py "8"]
  = Some (3, 7).
Proof. vm_compute. reflexivity. Qed.

(** What [int] reads and what it refuses. *)
Example int_of_numeral_cases :
  List.map (int_of_numeral ascii_ucd)
    [py "10"; py " +1_0 "; py "-007"; py "1__0"; py "_1"; py "1_"; py "";
     py "+"; py "1 0"; py "abc"; replicate 4301 49%N]
  = [Some 10; Some 10; Some (-7); None; None; None; None; None; None; None;
     None].
Proof. vm_compute. reflexivity. Qed.

Lemma X20_witness :
  (forall (i : nat) h, two_keys !! i = Some h ->
     dict_zip two_keys three_cells !! h = three_cells !! i)
  /\ (forall h c, dict_zip two_keys three_cells !! h = Some c ->
        exists i, (i < length two_keys)%nat
                  /\ two_keys !! i = Some h /\ three_cells !! i = Some c)
  /\ (send_to_kafka (Some acking_producer) (py "cars") three_cells two_keys
      = true
      <-> exists p, Some acking_producer = Some p
            /\ send_and_get p (py "cars") (dict_zip two_keys three_cells)
               = Return ()).
Proof.
  apply (X20_kafka_message_by_position (Some acking_producer) (py "cars")
           three_cells two_keys).
  unfold two_keys. apply NoDup_cons. split.
  - intros H%list_elem_of_singleton. discriminate.
  - apply NoDup_singleton.
Defined.

Lemma X22_witness :
  exit (AvitoScraper.main ascii_ucd demo_env one_card_page empty_fs).1
  = Raise NameError
  /\ exists basic_data,
       AvitoScraper.scrape_avito ascii_ucd one_card_page = Return basic_data
       /\ length
            (match saved_csv (AvitoScraper.main ascii_ucd demo_env
                                one_card_page empty_fs).1 with
             | Some (_, rows) => rows
             | None => []
             end) = length basic_data
       /\ forall (i : nat) basic_row row,
            basic_data !! i = Some basic_row ->
            (match saved_csv (AvitoScraper.main ascii_ucd demo_env
                                one_card_page empty_fs).1 with
             | Some (_, rows) => rows
             | None => []
             end) !! i = Some row ->
            take 8 row = take 8 basic_row
            /\ row !! 20%nat = basic_row !! 9%nat.
Proof.
  apply (proj2 (X22_single_page_run_ends ascii_ucd demo_env one_card_page
                  empty_fs) AvitoScraper.complete_headers).
  vm_compute. reflexivity.
Defined.
